(** * Horsey: a trading journal — statistics engine, trade store, renderings

    A shallow embedding of [stats.js] (class [HorseyStats]), of the trade and
    journal operations of the record store (class [HorseyDB]), of parts of
    the dashboard (class [HorseyDashboard]) and of the table printer of the
    command line ([cli.js]).

    Numbers.  A JavaScript Number is an IEEE-754 double.  A finite double is
    embedded as the rational it denotes ([Qc], canonical fractions, so that
    equal numbers are equal terms), next to [Infinity], [-Infinity] and
    [NaN].  An arithmetic operation returns, as ECMAScript defines it, the
    Number value for the exact result: the closest double, ties to the even
    significand, an infinity from 2^1024 on.  So 0.575 * 100 is
    57.49999999999999 and 0.1 + 0.2 is 0.30000000000000004 here as in the
    code.  The two zeros, +0 and -0, are one value: they are equal for
    [===], [<] and [>], print alike, and the code never divides by a value
    that can be -0.  [arithmetic_agrees_with_binary64] compares the four
    operations with those of the binary64 format of the Standard Library
    on sample operands.

    Numeric columns.  SQLite stores a NaN that is bound to a statement as
    NULL; a numeric column therefore holds NULL or a [real], a double that
    is not NaN.

    Arrays.  The array of rows an operation works on is a mutable object:
    an operation is a state transformer over the contents of that array, so
    that [Array.prototype.reverse], which reverses in place, is visible. *)

From Stdlib Require Import QArith Qcanon Qround Qabs Qpower ZArith Lia Lqa Sorted.
From Stdlib Require Import SpecFloat.
From stdpp Require Import base numbers list strings gmap.

Local Open Scope Z_scope.

(** ** JavaScript numbers *)

Module Num.

Inductive num : Type :=
  | Fin (q : Qc)
  | PInf
  | NInf
  | NaN.

Definition of_Z (z : Z) : Qc := Q2Qc (inject_Z z).
Definition of_nat (n : nat) : Qc := of_Z (Z.of_nat n).

Definition zero : Qc := of_Z 0.
Definition hundred : Qc := of_Z 100.

Definition is_pos (q : Qc) : bool := bool_decide (zero < q)%Qc.
Definition is_neg (q : Qc) : bool := bool_decide (q < zero)%Qc.
Definition is_zero (q : Qc) : bool := bool_decide (q = zero).

(** *** The Number value for a real number *)

(** [2^k] *)
Definition pow2 (k : Z) : Q := (2 ^ k)%Q.

(** the largest [k] with [2^k <= a], for [a > 0] *)
Definition ilog2 (a : Q) : Z :=
  let k := Z.log2 (Qnum a) - Z.log2 (Z.pos (Qden a)) in
  if Qle_bool (pow2 k) a then k else k - 1.

(** the exponent of the last binary digit a double near [a] keeps: 53
    digits, and none below 2^-1074 *)
Definition ulp_exponent (a : Q) : Z := Z.max (ilog2 a - 52) (-1074).

(** the integer closest to [x], the even one when two are equally close *)
Definition round_half_even (x : Q) : Z :=
  let f := Qfloor x in
  match (x - inject_Z f ?= 1 # 2)%Q with
  | Lt => f
  | Gt => f + 1
  | Eq => if Z.even f then f else f + 1
  end.

(** [a >= 0] rounded to a multiple of the weight of its last digit *)
Definition round_magnitude (a : Q) : Q :=
  let e := ulp_exponent a in
  (inject_Z (round_half_even (a / pow2 e)) * pow2 e)%Q.

(** the Number value for [q]: the double closest to [q], the one of even
    significand when two are equally close, an infinity when that would be
    2^1024 or beyond *)
Definition Number_value (q : Q) : num :=
  let r := round_magnitude (Qabs q) in
  if Qle_bool (pow2 1024) r then
    (if Qle_bool 0 q then PInf else NInf)
  else Fin (Q2Qc (if Qle_bool 0 q then r else - r)).

(** the double a decimal literal [m / 10^k] denotes, as the runtime reads a
    literal or [parseFloat] a string *)
Definition decimal (m : Z) (k : nat) : num :=
  Number_value (inject_Z m / inject_Z (10 ^ Z.of_nat k)).

(** [q] is a double: the Number value for it is itself *)
Definition is_double (q : Qc) : bool :=
  match Number_value (this q) with
  | Fin r => bool_decide (r = q)
  | _ => false
  end.

(** *** Arithmetic *)

(** [a + b] *)
Definition add (a b : num) : num :=
  match a, b with
  | NaN, _ | _, NaN => NaN
  | Fin x, Fin y => Number_value (this x + this y)
  | PInf, NInf | NInf, PInf => NaN
  | PInf, _ | _, PInf => PInf
  | NInf, _ | _, NInf => NInf
  end.

(** [-a] *)
Definition neg (a : num) : num :=
  match a with
  | Fin x => Fin (- x)%Qc
  | PInf => NInf
  | NInf => PInf
  | NaN => NaN
  end.

(** [a - b] *)
Definition sub (a b : num) : num := add a (neg b).

(** an infinity of the sign of [q] times the sign [s] ([true] is positive);
    [NaN] when [q] is zero *)
Definition signed_inf (s : bool) (q : Qc) : num :=
  if is_zero q then NaN
  else if Bool.eqb s (is_pos q) then PInf else NInf.

(** [a * b] *)
Definition mul (a b : num) : num :=
  match a, b with
  | NaN, _ | _, NaN => NaN
  | Fin x, Fin y => Number_value (this x * this y)
  | PInf, Fin y | Fin y, PInf => signed_inf true y
  | NInf, Fin y | Fin y, NInf => signed_inf false y
  | PInf, PInf | NInf, NInf => PInf
  | PInf, NInf | NInf, PInf => NInf
  end.

(** [a / b]; a finite non-zero number over zero is an infinity, zero over
    zero is [NaN] *)
Definition div (a b : num) : num :=
  match a, b with
  | NaN, _ | _, NaN => NaN
  | Fin x, Fin y =>
      if is_zero y then signed_inf true x else Number_value (this x / this y)
  | Fin _, (PInf | NInf) => Fin zero
  | PInf, Fin y => if is_neg y then NInf else PInf
  | NInf, Fin y => if is_neg y then PInf else NInf
  | (PInf | NInf), (PInf | NInf) => NaN
  end.

(** [a < b]; every comparison with [NaN] is false *)
Definition lt (a b : num) : bool :=
  match a, b with
  | NaN, _ | _, NaN => false
  | Fin x, Fin y => bool_decide (x < y)%Qc
  | NInf, (Fin _ | PInf) => true
  | Fin _, PInf => true
  | _, _ => false
  end.

(** [a > b] *)
Definition gt (a b : num) : bool := lt b a.

(** [a >= b] *)
Definition ge (a b : num) : bool :=
  match a, b with
  | NaN, _ | _, NaN => false
  | _, _ => negb (lt a b)
  end.

(** [a === b] on numbers *)
Definition strict_eq (a b : num) : bool :=
  match a, b with
  | Fin x, Fin y => bool_decide (x = y)
  | PInf, PInf | NInf, NInf => true
  | _, _ => false
  end.

(** [isNaN(a)] *)
Definition is_NaN (a : num) : bool :=
  match a with
  | NaN => true
  | _ => false
  end.

(** the same value, [NaN] included *)
Definition same_value (a b : num) : bool :=
  match a, b with
  | NaN, NaN => true
  | _, _ => strict_eq a b
  end.

(** a number used as a condition: 0 and [NaN] are falsy *)
Definition truthy (a : num) : bool :=
  match a with
  | Fin x => negb (is_zero x)
  | PInf | NInf => true
  | NaN => false
  end.

(** [Math.abs] *)
Definition Math_abs (a : num) : num :=
  match a with
  | Fin x => Fin (if is_neg x then - x else x)%Qc
  | PInf | NInf => PInf
  | NaN => NaN
  end.

(** [Math.round] on a finite number: the integer closest to [x], the one
    closer to +Infinity when two are equally close, that is the floor of
    [x + 1/2] (of the exact sum: on a double that integer is a double) *)
Definition round_half_up (x : Qc) : Z := Qfloor (this x + (1 # 2))%Q.

(** [Math.round] *)
Definition Math_round (a : num) : num :=
  match a with
  | Fin x => Fin (of_Z (round_half_up x))
  | other => other
  end.

(** [Math.max] on two counters *)
Definition Math_max (a b : nat) : nat := Nat.max a b.

(** The idiom [Math.round(x * 100) / 100] of the source *)
Definition round2 (x : num) : num :=
  div (Math_round (mul x (Fin hundred))) (Fin hundred).

(** *** Numeric columns *)

(** a Number that is not [NaN] *)
Inductive real : Type :=
  | RFin (q : Qc)
  | RPInf
  | RNInf.

(** the Number a stored value reads as *)
Definition to_num (r : real) : num :=
  match r with
  | RFin q => Fin q
  | RPInf => PInf
  | RNInf => NInf
  end.

(** the value a Number is stored as when it is bound to a statement: a
    [NaN] is stored as NULL *)
Definition bind_number (x : num) : option real :=
  match x with
  | Fin q => Some (RFin q)
  | PInf => Some RPInf
  | NInf => Some RNInf
  | NaN => None
  end.

(** ToNumber of a nullable numeric column: [null] converts to 0 *)
Definition to_number (v : option real) : num :=
  match v with
  | Some r => to_num r
  | None => Fin zero
  end.

(** [v === 0] for a nullable numeric column: [null] is not 0 *)
Definition strict_eq_zero (v : option real) : bool :=
  match v with
  | Some (RFin q) => is_zero q
  | _ => false
  end.

(** a nullable numeric column used as a condition: [null] and 0 are falsy *)
Definition truthy_number (v : option real) : bool :=
  match v with
  | Some r => truthy (to_num r)
  | None => false
  end.

(** [x || null] on an optional number: [undefined], 0 and [NaN] are falsy *)
Definition number_or_null (o : option num) : option num :=
  match o with
  | Some x => if truthy x then o else None
  | None => None
  end.

End Num.

Import Num.

(** ** Rows of the [trades] table *)

Module Trade.

(** One row, as [SELECT * FROM trades] returns it.  Nullable columns are
    options; a numeric column holds a [real] (column [size] has INTEGER
    affinity, which keeps the value of a Number that is no integer).  The
    CREATE TABLE statement of [initTablesSync] does not list the column
    [is_paper] that the INSERT of [openTrade] and the queries name: the
    field is the value of that column in a table that has it (see
    [Store.is_paper_column]). *)
Record t : Type := mk {
  id : Z;
  ticker : string;
  direction : string;
  instrument : string;
  entry_price : real;
  entry_time : string;
  exit_price : option real;
  exit_time : option string;
  size : real;
  cost_basis : real;
  proceeds : option real;
  pnl : option real;
  pnl_pct : option real;
  setup_type : option string;
  narrative_id : option Z;
  watchlist_id : option Z;
  planned_risk : option real;
  planned_target : option real;
  actual_rr : option real;
  notes : option string;
  lessons : option string;
  status : string;
  is_paper : option Z;
  created_at : string
}.

End Trade.

(** ** Objects keyed by strings, in insertion order *)

Section Alist.
Context {V : Type}.

Fixpoint alist_lookup (k : string) (l : list (string * V)) : option V :=
  match l with
  | [] => None
  | (k', v) :: rest => if String.eqb k k' then Some v else alist_lookup k rest
  end.

(** [o[k] = f(o[k])] when [k] is a key of [o] *)
Fixpoint alist_alter (f : V -> V) (k : string) (l : list (string * V))
  : list (string * V) :=
  match l with
  | [] => []
  | (k', v) :: rest =>
      if String.eqb k k' then (k', f v) :: rest
      else (k', v) :: alist_alter f k rest
  end.

(** [Object.keys(o).forEach(k => o[k] = f(o[k]))] *)
Definition alist_map_values {W : Type} (f : V -> W) (l : list (string * V))
  : list (string * W) :=
  map (fun kv => (fst kv, f (snd kv))) l.
End Alist.

(** ** The array of fetched rows as a mutable object *)

Definition Arr (A : Type) : Type := list Trade.t -> A * list Trade.t.

Definition ret {A : Type} (x : A) : Arr A := fun a => (x, a).

Definition bind {A B : Type} (m : Arr A) (k : A -> Arr B) : Arr B :=
  fun a => let (x, a') := m a in k x a'.

Notation "'do' x <- m ; k" := (bind m (fun x => k))
  (at level 10, x name, m at level 100, k at level 200).

(** [trades.length] *)
Definition arr_length : Arr nat := fun a => (length a, a).

(** [trades.filter(p)]: a new array *)
Definition arr_filter (p : Trade.t -> bool) : Arr (list Trade.t) :=
  fun a => (List.filter p a, a).

(** [trades.reduce(f, init)] *)
Definition arr_reduce {B : Type} (f : B -> Trade.t -> B) (init : B) : Arr B :=
  fun a => (fold_left f a init, a).

(** [trades.forEach(f)], the callback updating the variables [S] it closes
    over *)
Definition arr_forEach {S : Type} (f : S -> Trade.t -> S) (init : S) : Arr S :=
  fun a => (fold_left f a init, a).

(** [trades.reverse()]: reverses the array in place *)
Definition arr_reverse : Arr unit := fun a => (tt, rev a).

(** the elements [trades[0]], [trades[1]], ... as an indexing loop reads
    them *)
Definition arr_read : Arr (list Trade.t) := fun a => (a, a).

(** the value an operation returns on an array, and the array it leaves *)
Definition result_of {A : Type} (op : Arr A) (a : list Trade.t) : A := fst (op a).
Definition array_after {A : Type} (op : Arr A) (a : list Trade.t) : list Trade.t :=
  snd (op a).

(** ** Results of the statistics engine *)

Module TradeRef.
(** the [{id, ticker, pnl, setup}] object of [bestTrade] and [worstTrade] *)
Record t : Type := mk {
  id : Z;
  ticker : string;
  pnl : option real;
  setup : option string
}.
End TradeRef.

Module SetupStat.
Record t : Type := mk {
  totalTrades : nat;
  winners : nat;
  losers : nat;
  totalPnL : num;
  winRate : num;
  avgPnL : num
}.
End SetupStat.

Module DayAcc.
(** a weekday bucket while the rows are scanned *)
Record t : Type := mk {
  totalTrades : nat;
  totalPnL : num;
  winners : nat
}.
End DayAcc.

Module DayStat.
(** a weekday bucket once [winRate] and [avgPnL] are set *)
Record t : Type := mk {
  totalTrades : nat;
  totalPnL : num;
  winners : nat;
  winRate : num;
  avgPnL : num
}.
End DayStat.

Module Summary.
(** [winners], [losers] and [scratches] are absent from the summary of an
    empty result set *)
Record t : Type := mk {
  totalTrades : nat;
  winners : option nat;
  losers : option nat;
  scratches : option nat;
  winRate : num;
  avgWinner : num;
  avgLoser : num;
  profitFactor : num;
  totalPnL : num;
  bestTrade : option TradeRef.t;
  worstTrade : option TradeRef.t;
  setupAnalysis : list (string * SetupStat.t);
  dayOfWeekAnalysis : list (string * DayStat.t)
}.
End Summary.

Module Streak.
Record t : Type := mk {
  type : string;
  count : nat
}.
End Streak.

Module Streaks.
Record t : Type := mk {
  currentStreak : Streak.t;
  bestWinStreak : nat;
  worstLossStreak : nat
}.
End Streaks.

Module Counters.
(** the four variables the chronological scan of [getStreaks] updates *)
Record t : Type := mk {
  bestWinStreak : nat;
  worstLossStreak : nat;
  currentWinStreak : nat;
  currentLossStreak : nat
}.
End Counters.

(** ** HorseyStats *)

(** [t.pnl > 0], [t.pnl < 0], [t.pnl === 0] *)
Definition pnl_gt0 (t : Trade.t) : bool := gt (to_number (Trade.pnl t)) (Fin zero).
Definition pnl_lt0 (t : Trade.t) : bool := lt (to_number (Trade.pnl t)) (Fin zero).
Definition pnl_eq0 (t : Trade.t) : bool := strict_eq_zero (Trade.pnl t).

(** [(sum, t) => sum + t.pnl] *)
Definition add_pnl (sum : num) (t : Trade.t) : num :=
  add sum (to_number (Trade.pnl t)).

(** [(best, current) => !best || current.pnl > best.pnl ? current : best] *)
Definition pick_best (best : option Trade.t) (current : Trade.t) : option Trade.t :=
  match best with
  | None => Some current
  | Some b =>
      if gt (to_number (Trade.pnl current)) (to_number (Trade.pnl b))
      then Some current else best
  end.

(** [(worst, current) => !worst || current.pnl < worst.pnl ? current : worst] *)
Definition pick_worst (worst : option Trade.t) (current : Trade.t) : option Trade.t :=
  match worst with
  | None => Some current
  | Some w =>
      if lt (to_number (Trade.pnl current)) (to_number (Trade.pnl w))
      then Some current else worst
  end.

Definition trade_ref (t : Trade.t) : TradeRef.t :=
  {| TradeRef.id := Trade.id t;
     TradeRef.ticker := Trade.ticker t;
     TradeRef.pnl := Trade.pnl t;
     TradeRef.setup := Trade.setup_type t |}.

(** [trade.setup_type || 'other']: [null] and the empty string are falsy *)
Definition setup_key (t : Trade.t) : string :=
  match Trade.setup_type t with
  | Some s => if String.eqb s "" then "other" else s
  | None => "other"
  end.

Definition setup_init : SetupStat.t :=
  {| SetupStat.totalTrades := 0; SetupStat.winners := 0; SetupStat.losers := 0;
     SetupStat.totalPnL := Fin zero; SetupStat.winRate := Fin zero;
     SetupStat.avgPnL := Fin zero |}.

(** the three updates of one row on its bucket *)
Definition setup_count (trade : Trade.t) (s : SetupStat.t) : SetupStat.t :=
  {| SetupStat.totalTrades := S (SetupStat.totalTrades s);
     SetupStat.winners :=
       if pnl_gt0 trade then S (SetupStat.winners s) else SetupStat.winners s;
     SetupStat.losers :=
       if pnl_gt0 trade then SetupStat.losers s
       else if pnl_lt0 trade then S (SetupStat.losers s) else SetupStat.losers s;
     SetupStat.totalPnL := add_pnl (SetupStat.totalPnL s) trade;
     SetupStat.winRate := SetupStat.winRate s;
     SetupStat.avgPnL := SetupStat.avgPnL s |}.

(** the callback of the first [forEach] of [getSetupAnalysis] *)
Definition setup_step (setupStats : list (string * SetupStat.t)) (trade : Trade.t)
  : list (string * SetupStat.t) :=
  let setup := setup_key trade in
  let setupStats :=
    match alist_lookup setup setupStats with
    | None => setupStats ++ [(setup, setup_init)]
    | Some _ => setupStats
    end in
  alist_alter (setup_count trade) setup setupStats.

(** the callback of the second [forEach] of [getSetupAnalysis] *)
Definition setup_finish (stats : SetupStat.t) : SetupStat.t :=
  let winRate :=
    div (Math_round (mul (div (Fin (of_nat (SetupStat.winners stats)))
                              (Fin (of_nat (SetupStat.totalTrades stats))))
                         (Fin (of_Z 10000))))
        (Fin hundred) in
  let avgPnL :=
    round2 (div (SetupStat.totalPnL stats)
                (Fin (of_nat (SetupStat.totalTrades stats)))) in
  let totalPnL := round2 (SetupStat.totalPnL stats) in
  {| SetupStat.totalTrades := SetupStat.totalTrades stats;
     SetupStat.winners := SetupStat.winners stats;
     SetupStat.losers := SetupStat.losers stats;
     SetupStat.totalPnL := totalPnL;
     SetupStat.winRate := winRate;
     SetupStat.avgPnL := avgPnL |}.

(** [getSetupAnalysis(trades)] on a given array *)
Definition getSetupAnalysis_rows : Arr (list (string * SetupStat.t)) :=
  do setupStats <- arr_forEach setup_step [];
  ret (alist_map_values setup_finish setupStats).

Definition day_init : DayAcc.t :=
  {| DayAcc.totalTrades := 0; DayAcc.totalPnL := Fin zero; DayAcc.winners := 0 |}.

Definition dayStats_init : list (string * DayAcc.t) :=
  [("Monday", day_init); ("Tuesday", day_init); ("Wednesday", day_init);
   ("Thursday", day_init); ("Friday", day_init)].

Definition day_count (trade : Trade.t) (s : DayAcc.t) : DayAcc.t :=
  {| DayAcc.totalTrades := S (DayAcc.totalTrades s);
     DayAcc.totalPnL := add_pnl (DayAcc.totalPnL s) trade;
     DayAcc.winners :=
       if pnl_gt0 trade then S (DayAcc.winners s) else DayAcc.winners s |}.

Definition day_finish (stats : DayAcc.t) : DayStat.t :=
  let winRate :=
    if (0 <? DayAcc.totalTrades stats)%nat then
      div (Math_round (mul (div (Fin (of_nat (DayAcc.winners stats)))
                                (Fin (of_nat (DayAcc.totalTrades stats))))
                           (Fin (of_Z 10000))))
          (Fin hundred)
    else Fin zero in
  let avgPnL :=
    if (0 <? DayAcc.totalTrades stats)%nat then
      round2 (div (DayAcc.totalPnL stats)
                  (Fin (of_nat (DayAcc.totalTrades stats))))
    else Fin zero in
  let totalPnL := round2 (DayAcc.totalPnL stats) in
  {| DayStat.totalTrades := DayAcc.totalTrades stats;
     DayStat.totalPnL := totalPnL;
     DayStat.winners := DayAcc.winners stats;
     DayStat.winRate := winRate;
     DayStat.avgPnL := avgPnL |}.

Definition empty_summary : Summary.t :=
  {| Summary.totalTrades := 0;
     Summary.winners := None; Summary.losers := None; Summary.scratches := None;
     Summary.winRate := Fin zero; Summary.avgWinner := Fin zero;
     Summary.avgLoser := Fin zero; Summary.profitFactor := Fin zero;
     Summary.totalPnL := Fin zero;
     Summary.bestTrade := None; Summary.worstTrade := None;
     Summary.setupAnalysis := []; Summary.dayOfWeekAnalysis := [] |}.

(** the values [getStats] computes before it rounds *)
Definition winRate_of (winners : list Trade.t) (n : nat) : num :=
  mul (div (Fin (of_nat (length winners))) (Fin (of_nat n))) (Fin hundred).
Definition totalWinnings_of (winners : list Trade.t) : num :=
  fold_left add_pnl winners (Fin zero).
Definition totalLosses_of (losers : list Trade.t) : num :=
  Math_abs (fold_left add_pnl losers (Fin zero)).
Definition avgWinner_of (winners : list Trade.t) : num :=
  if (0 <? length winners)%nat
  then div (totalWinnings_of winners) (Fin (of_nat (length winners)))
  else Fin zero.
Definition avgLoser_of (losers : list Trade.t) : num :=
  if (0 <? length losers)%nat
  then div (totalLosses_of losers) (Fin (of_nat (length losers)))
  else Fin zero.
Definition profitFactor_of (totalWinnings totalLosses : num) : num :=
  if gt totalLosses (Fin zero) then div totalWinnings totalLosses
  else if gt totalWinnings (Fin zero) then PInf
  else Fin zero.

(** the callback of the chronological scan of [getStreaks] *)
Definition streak_step (c : Counters.t) (trade : Trade.t) : Counters.t :=
  if pnl_gt0 trade then
    let currentWinStreak := S (Counters.currentWinStreak c) in
    {| Counters.bestWinStreak := Math_max (Counters.bestWinStreak c) currentWinStreak;
       Counters.worstLossStreak := Counters.worstLossStreak c;
       Counters.currentWinStreak := currentWinStreak;
       Counters.currentLossStreak := 0 |}
  else if pnl_lt0 trade then
    let currentLossStreak := S (Counters.currentLossStreak c) in
    {| Counters.bestWinStreak := Counters.bestWinStreak c;
       Counters.worstLossStreak := Math_max (Counters.worstLossStreak c) currentLossStreak;
       Counters.currentWinStreak := 0;
       Counters.currentLossStreak := currentLossStreak |}
  else
    {| Counters.bestWinStreak := Counters.bestWinStreak c;
       Counters.worstLossStreak := Counters.worstLossStreak c;
       Counters.currentWinStreak := 0;
       Counters.currentLossStreak := 0 |}.

Definition counters_init : Counters.t :=
  {| Counters.bestWinStreak := 0; Counters.worstLossStreak := 0;
     Counters.currentWinStreak := 0; Counters.currentLossStreak := 0 |}.

(** [streakType === s], [streakType] being [null] before the first row *)
Definition streakType_is (streakType : option string) (s : string) : bool :=
  match streakType with
  | Some s' => String.eqb s' s
  | None => false
  end.

(** the [for] loop of [getStreaks] from index [i] on, [rest] being
    [trades[i]], [trades[i+1]], ...; leaving the recursion is the [break] *)
Fixpoint currentStreak_loop (i : nat) (rest : list Trade.t)
    (streakType : option string) (currentStreak : Streak.t) : Streak.t :=
  match rest with
  | [] => currentStreak
  | trade :: rest' =>
      let isWin := pnl_gt0 trade in
      let isLoss := pnl_lt0 trade in
      if (i =? 0)%nat then
        let streakType :=
          if isWin then "win" else if isLoss then "loss" else "scratch" in
        currentStreak_loop (S i) rest' (Some streakType)
          {| Streak.type := streakType; Streak.count := 1 |}
      else if (isWin && streakType_is streakType "win")
              || (isLoss && streakType_is streakType "loss")
              || (negb isWin && negb isLoss && streakType_is streakType "scratch")
      then
        currentStreak_loop (S i) rest' streakType
          {| Streak.type := Streak.type currentStreak;
             Streak.count := S (Streak.count currentStreak) |}
      else currentStreak
  end.

(** [getStreaks] on the array its query returned *)
Definition getStreaks_rows : Arr Streaks.t :=
  do n <- arr_length;
  if (n =? 0)%nat then
    ret {| Streaks.currentStreak := {| Streak.type := "none"; Streak.count := 0 |};
           Streaks.bestWinStreak := 0;
           Streaks.worstLossStreak := 0 |}
  else
    do elems <- arr_read;
    let currentStreak :=
      currentStreak_loop 0 elems None {| Streak.type := "none"; Streak.count := 0 |} in
    do _ <- arr_reverse;
    do c <- arr_forEach streak_step counters_init;
    ret {| Streaks.currentStreak := currentStreak;
           Streaks.bestWinStreak := Counters.bestWinStreak c;
           Streaks.worstLossStreak := Counters.worstLossStreak c |}.

(** ** Operations that call into the JavaScript runtime *)

Definition newline : string := String (Ascii.ascii_of_nat 10) EmptyString.

(** [s.repeat(n)] *)
Fixpoint String_repeat (s : string) (n : nat) : string :=
  match n with
  | O => EmptyString
  | S n' => s +:+ String_repeat s n'
  end.

(** [lines.join(sep)] *)
Definition join (sep : string) (lines : list string) : string :=
  String.concat sep lines.

Module PerfCard.
(** one card of the performance grid of the dashboard: the classes of its
    value, the text of its value, its label (the markup around them is
    constant) *)
Record t : Type := mk {
  classes : string;
  value : string;
  label : string
}.
End PerfCard.

Section Runtime.

(** [new Date(s).toLocaleDateString('en-US', { weekday: 'long' })] *)
Variable weekday_long : string -> string.

(** [String(x)] for a finite number [x] *)
Variable Number_toString : Qc -> string.

(** [x.toFixed(d)] for a finite number [x] *)
Variable Number_toFixed : Qc -> nat -> string.

(** the callback of the first [forEach] of [getDayOfWeekAnalysis];
    [dayStats[dayName]] is read as a lookup among the five keys (the day
    names the runtime returns are no inherited property of an object) *)
Definition day_step (dayStats : list (string * DayAcc.t)) (trade : Trade.t)
  : list (string * DayAcc.t) :=
  let dayName := weekday_long (Trade.entry_time trade) in
  match alist_lookup dayName dayStats with
  | Some _ => alist_alter (day_count trade) dayName dayStats
  | None => dayStats
  end.

(** [getDayOfWeekAnalysis(trades)] on a given array *)
Definition getDayOfWeekAnalysis_rows : Arr (list (string * DayStat.t)) :=
  do dayStats <- arr_forEach day_step dayStats_init;
  ret (alist_map_values day_finish dayStats).

(** [getStats] on the array its query returned *)
Definition getStats_rows : Arr Summary.t :=
  do n <- arr_length;
  if (n =? 0)%nat then ret empty_summary
  else
    do winners <- arr_filter pnl_gt0;
    do losers <- arr_filter pnl_lt0;
    do scratches <- arr_filter pnl_eq0;
    do totalPnL <- arr_reduce add_pnl (Fin zero);
    do n <- arr_length;
    let winRate := winRate_of winners n in
    let totalWinnings := totalWinnings_of winners in
    let totalLosses := totalLosses_of losers in
    let avgWinner := avgWinner_of winners in
    let avgLoser := avgLoser_of losers in
    let profitFactor := profitFactor_of totalWinnings totalLosses in
    do bestTrade <- arr_reduce pick_best None;
    do worstTrade <- arr_reduce pick_worst None;
    do n <- arr_length;
    do setupAnalysis <- getSetupAnalysis_rows;
    do dayOfWeekAnalysis <- getDayOfWeekAnalysis_rows;
    ret {| Summary.totalTrades := n;
           Summary.winners := Some (length winners);
           Summary.losers := Some (length losers);
           Summary.scratches := Some (length scratches);
           Summary.winRate := round2 winRate;
           Summary.avgWinner := round2 avgWinner;
           Summary.avgLoser := round2 avgLoser;
           Summary.profitFactor := round2 profitFactor;
           Summary.totalPnL := round2 totalPnL;
           Summary.bestTrade := option_map trade_ref bestTrade;
           Summary.worstTrade := option_map trade_ref worstTrade;
           Summary.setupAnalysis := setupAnalysis;
           Summary.dayOfWeekAnalysis := dayOfWeekAnalysis |}.

(** the value of an operation on the rows [trades] *)
Definition getStats (trades : list Trade.t) : Summary.t :=
  result_of getStats_rows trades.
Definition getSetupAnalysis (trades : list Trade.t) : list (string * SetupStat.t) :=
  result_of getSetupAnalysis_rows trades.
Definition getDayOfWeekAnalysis (trades : list Trade.t) : list (string * DayStat.t) :=
  result_of getDayOfWeekAnalysis_rows trades.
Definition getStreaks (trades : list Trade.t) : Streaks.t :=
  result_of getStreaks_rows trades.

(** a number inside a template literal *)
Definition show_num (x : num) : string :=
  match x with
  | Fin q => Number_toString q
  | PInf => "Infinity"
  | NInf => "-Infinity"
  | NaN => "NaN"
  end.

Definition show_count (n : nat) : string := Number_toString (of_nat n).

(** a count that may be absent from the object *)
Definition show_opt_count (o : option nat) : string :=
  match o with
  | Some n => show_count n
  | None => "undefined"
  end.

Definition show_opt_number (o : option real) : string :=
  match o with
  | Some r => show_num (to_num r)
  | None => "null"
  end.

Definition show_opt_string (o : option string) : string :=
  match o with
  | Some s => s
  | None => "null"
  end.

(** the lines [formatStats] pushes *)
Definition formatStats_lines (stats : Summary.t) : list string :=
  ["📊 PERFORMANCE STATS";
   String_repeat "═" 40;
   "Total Trades: " +:+ show_count (Summary.totalTrades stats);
   "Winners: " +:+ show_opt_count (Summary.winners stats)
     +:+ " | Losers: " +:+ show_opt_count (Summary.losers stats)
     +:+ " | Scratches: " +:+ show_opt_count (Summary.scratches stats);
   "Win Rate: " +:+ show_num (Summary.winRate stats) +:+ "%";
   "Avg Winner: $" +:+ show_num (Summary.avgWinner stats)
     +:+ " | Avg Loser: $" +:+ show_num (Summary.avgLoser stats);
   "Profit Factor: " +:+ show_num (Summary.profitFactor stats);
   "Total P&L: $" +:+ show_num (Summary.totalPnL stats)]
  ++ match Summary.bestTrade stats with
     | Some b =>
         ["Best Trade: " +:+ TradeRef.ticker b +:+ " +$"
            +:+ show_opt_number (TradeRef.pnl b)
            +:+ " (" +:+ show_opt_string (TradeRef.setup b) +:+ ")"]
     | None => []
     end
  ++ match Summary.worstTrade stats with
     | Some w =>
         ["Worst Trade: " +:+ TradeRef.ticker w +:+ " -$"
            +:+ show_num (Math_abs (to_number (TradeRef.pnl w)))
            +:+ " (" +:+ show_opt_string (TradeRef.setup w) +:+ ")"]
     | None => []
     end.

(** [formatStats(stats)] *)
Definition formatStats (stats : Summary.t) : string :=
  join newline (formatStats_lines stats).

(** [x.toFixed(d)] *)
Definition toFixed (x : num) (d : nat) : string :=
  match x with
  | Fin q => Number_toFixed q d
  | PInf => "Infinity"
  | NInf => "-Infinity"
  | NaN => "NaN"
  end.

(** [x >= bound ? 'positive' : 'negative'] after the classes [perf-value mono] *)
Definition perf_class (x : num) (bound : Z) : string :=
  "perf-value mono " +:+ (if ge x (Fin (of_Z bound)) then "positive" else "negative").

(** the text of the profit-factor card *)
Definition profitFactor_text (stats : Summary.t) : string :=
  if strict_eq (Summary.profitFactor stats) PInf then "∞"
  else toFixed (Summary.profitFactor stats) 2.

(** [generatePerformance(stats)]: the six cards of the grid, in order *)
Definition generatePerformance (stats : Summary.t) : list PerfCard.t :=
  [ {| PerfCard.classes := "perf-value mono";
       PerfCard.value := show_count (Summary.totalTrades stats);
       PerfCard.label := "Total Trades" |};
    {| PerfCard.classes := perf_class (Summary.winRate stats) 50;
       PerfCard.value := toFixed (Summary.winRate stats) 1 +:+ "%";
       PerfCard.label := "Win Rate" |};
    {| PerfCard.classes := perf_class (Summary.profitFactor stats) 1;
       PerfCard.value := profitFactor_text stats;
       PerfCard.label := "Profit Factor" |};
    {| PerfCard.classes := perf_class (Summary.totalPnL stats) 0;
       PerfCard.value := "$" +:+ toFixed (Summary.totalPnL stats) 2;
       PerfCard.label := "Total P&L" |};
    {| PerfCard.classes := "perf-value mono positive";
       PerfCard.value := "$" +:+ toFixed (Summary.avgWinner stats) 2;
       PerfCard.label := "Avg Winner" |};
    {| PerfCard.classes := "perf-value mono negative";
       PerfCard.value := "$" +:+ toFixed (Summary.avgLoser stats) 2;
       PerfCard.label := "Avg Loser" |} ].

End Runtime.

(** ** HorseyDB: the operations on the [trades] table *)

(** [list.includes(s)] *)
Definition includes (l : list string) (s : string) : bool :=
  existsb (String.eqb s) l.

(** [o || d] for a string option: [undefined], [null] and [''] are falsy *)
Definition string_or (o d : option string) : option string :=
  match o with
  | Some s => if String.eqb s "" then d else o
  | None => d
  end.

(** [o || null] for an id option *)
Definition id_or_null (o : option Z) : option Z :=
  match o with
  | Some z => if (z =? 0)%Z then None else o
  | None => None
  end.

(** the value [options.risk || null] is stored as *)
Definition bind_or_null (o : option num) : option real :=
  match number_or_null o with
  | Some x => bind_number x
  | None => None
  end.

Module OpenOptions.
Record t : Type := mk {
  setup : option string;
  narrative : option Z;
  watchlist : option Z;
  risk : option num;
  target : option num;
  notes : option string;
  paper : bool
}.
End OpenOptions.

Module CloseOptions.
Record t : Type := mk {
  notes : option string;
  lessons : option string
}.
End CloseOptions.

Module Store.
(** the state of the database the trade operations see: the rows of
    [trades] by primary key, the largest key AUTOINCREMENT has handed out,
    the keys of the two tables [trades] refers to, and whether the table
    [trades] of the file has the column [is_paper].  [initTablesSync] runs
    CREATE TABLE IF NOT EXISTS: it creates the table without that column in
    a new file and leaves the table of an existing file as it is. *)
Record t : Type := mk {
  trades : gmap Z Trade.t;
  seq : Z;
  narratives : gset Z;
  watchlist : gset Z;
  is_paper_column : bool
}.
End Store.

Inductive error : Type :=
  | TradeNotFound (id : Z)
  | ConstraintFailed (constraint : string)
  | NoSuchColumn (column : string).

Inductive outcome (A : Type) : Type :=
  | Resolved (x : A) (db : Store.t)
  | Rejected (e : error).
Arguments Resolved {A} x db.
Arguments Rejected {A} e.

(** the CHECK and FOREIGN KEY constraints of [trades] on one row *)
Definition valid_directions : list string := ["long"; "short"].
Definition valid_instruments : list string :=
  ["shares"; "calls"; "puts"; "0dte-calls"; "0dte-puts"; "csp"].
Definition valid_setups : list string :=
  ["breakout"; "fade"; "momentum"; "reversal"; "csp"; "squeeze"; "other"].
Definition valid_statuses : list string := ["open"; "closed"; "partial"].

Definition refers_into (keys : gset Z) (ref : option Z) : bool :=
  match ref with
  | Some k => bool_decide (k ∈ keys)
  | None => true
  end.

Definition constraint_violated (db : Store.t) (row : Trade.t) : option string :=
  if negb (includes valid_directions (Trade.direction row)) then Some "direction"
  else if negb (includes valid_instruments (Trade.instrument row)) then Some "instrument"
  else if negb (match Trade.setup_type row with
                | Some s => includes valid_setups s
                | None => true
                end) then Some "setup_type"
  else if negb (includes valid_statuses (Trade.status row)) then Some "status"
  else if negb (refers_into (Store.narratives db) (Trade.narrative_id row))
  then Some "narrative_id"
  else if negb (refers_into (Store.watchlist db) (Trade.watchlist_id row))
  then Some "watchlist_id"
  else None.

(** [['shares'].includes(instrument) ? 1 : 100] *)
Definition multiplier (instrument : string) : num :=
  if includes ["shares"] instrument then Fin (of_Z 1) else Fin (of_Z 100).

Definition COMMISSION : num := Fin (of_Z 1).

(** [(entryPrice * size * multiplier) + COMMISSION] *)
Definition costBasis_of (instrument : string) (entryPrice size : num) : num :=
  add (mul (mul entryPrice size) (multiplier instrument)) COMMISSION.

Section Trades.

(** [s.toUpperCase()] *)
Variable toUpperCase : string -> string.

(** [openTrade]; [now] is CURRENT_TIMESTAMP.  Resolves to the new key.  The
    INSERT names the column [is_paper]: it is rejected when the table does
    not have it.  A [NaN] bound to one of the NOT NULL columns
    [entry_price], [size] or [cost_basis] is a NULL there and violates the
    constraint. *)
Definition openTrade (ticker direction instrument : string) (entryPrice size : num)
    (options : OpenOptions.t) (now : string) (db : Store.t)
  : outcome Z :=
  let costBasis := costBasis_of instrument entryPrice size in
  let lastID := (Store.seq db + 1)%Z in
  if negb (Store.is_paper_column db) then Rejected (NoSuchColumn "is_paper")
  else
    match bind_number entryPrice, bind_number size, bind_number costBasis with
    | None, _, _ => Rejected (ConstraintFailed "entry_price")
    | _, None, _ => Rejected (ConstraintFailed "size")
    | _, _, None => Rejected (ConstraintFailed "cost_basis")
    | Some entry_price, Some size, Some cost_basis =>
        let row :=
          {| Trade.id := lastID;
             Trade.ticker := toUpperCase ticker;
             Trade.direction := direction;
             Trade.instrument := instrument;
             Trade.entry_price := entry_price;
             Trade.entry_time := now;
             Trade.exit_price := None;
             Trade.exit_time := None;
             Trade.size := size;
             Trade.cost_basis := cost_basis;
             Trade.proceeds := None;
             Trade.pnl := None;
             Trade.pnl_pct := None;
             Trade.setup_type := string_or (OpenOptions.setup options) (Some "other");
             Trade.narrative_id := id_or_null (OpenOptions.narrative options);
             Trade.watchlist_id := id_or_null (OpenOptions.watchlist options);
             Trade.planned_risk := bind_or_null (OpenOptions.risk options);
             Trade.planned_target := bind_or_null (OpenOptions.target options);
             Trade.actual_rr := None;
             Trade.notes := string_or (OpenOptions.notes options) None;
             Trade.lessons := None;
             Trade.status := "open";
             Trade.is_paper := Some (if OpenOptions.paper options then 1 else 0)%Z;
             Trade.created_at := now |} in
        match constraint_violated db row with
        | Some c => Rejected (ConstraintFailed c)
        | None =>
            Resolved lastID
              {| Store.trades := <[lastID := row]> (Store.trades db);
                 Store.seq := lastID;
                 Store.narratives := Store.narratives db;
                 Store.watchlist := Store.watchlist db;
                 Store.is_paper_column := Store.is_paper_column db |}
        end
    end.

End Trades.

(** [exitPrice * trade.size * multiplier] *)
Definition proceeds_of (trade : Trade.t) (exitPrice : num) : num :=
  mul (mul exitPrice (to_num (Trade.size trade)))
      (multiplier (Trade.instrument trade)).

(** [proceeds - trade.cost_basis] *)
Definition pnl_of (trade : Trade.t) (exitPrice : num) : num :=
  sub (proceeds_of trade exitPrice) (to_num (Trade.cost_basis trade)).

(** the row [closeTrade] writes back *)
Definition closed_row (trade : Trade.t) (exitPrice : num)
    (options : CloseOptions.t) (now : string) : Trade.t :=
  let proceeds := proceeds_of trade exitPrice in
  let pnl := sub proceeds (to_num (Trade.cost_basis trade)) in
  let pnlPct := mul (div pnl (to_num (Trade.cost_basis trade))) (Fin hundred) in
  let actualRR :=
    if truthy_number (Trade.planned_risk trade)
    then bind_number (div pnl (to_number (Trade.planned_risk trade)))
    else None in
  {| Trade.id := Trade.id trade;
     Trade.ticker := Trade.ticker trade;
     Trade.direction := Trade.direction trade;
     Trade.instrument := Trade.instrument trade;
     Trade.entry_price := Trade.entry_price trade;
     Trade.entry_time := Trade.entry_time trade;
     Trade.exit_price := bind_number exitPrice;
     Trade.exit_time := Some now;
     Trade.size := Trade.size trade;
     Trade.cost_basis := Trade.cost_basis trade;
     Trade.proceeds := bind_number proceeds;
     Trade.pnl := bind_number pnl;
     Trade.pnl_pct := bind_number pnlPct;
     Trade.setup_type := Trade.setup_type trade;
     Trade.narrative_id := Trade.narrative_id trade;
     Trade.watchlist_id := Trade.watchlist_id trade;
     Trade.planned_risk := Trade.planned_risk trade;
     Trade.planned_target := Trade.planned_target trade;
     Trade.actual_rr := actualRR;
     Trade.notes := string_or (CloseOptions.notes options) (Trade.notes trade);
     Trade.lessons := string_or (CloseOptions.lessons options) None;
     Trade.status := "closed";
     Trade.is_paper := Trade.is_paper trade;
     Trade.created_at := Trade.created_at trade |}.

(** [closeTrade]: throws when no row has the key, otherwise updates the row,
    whatever its status *)
Definition closeTrade (id : Z) (exitPrice : num) (options : CloseOptions.t)
    (now : string) (db : Store.t) : outcome unit :=
  match Store.trades db !! id with
  | None => Rejected (TradeNotFound id)
  | Some trade =>
      Resolved tt
        {| Store.trades := <[id := closed_row trade exitPrice options now]> (Store.trades db);
           Store.seq := Store.seq db;
           Store.narratives := Store.narratives db;
           Store.watchlist := Store.watchlist db;
           Store.is_paper_column := Store.is_paper_column db |}
  end.

(** the row [updateTradeNotes] writes back *)
Definition noted_row (trade : Trade.t) (notes lessons : option string) : Trade.t :=
  {| Trade.id := Trade.id trade;
     Trade.ticker := Trade.ticker trade;
     Trade.direction := Trade.direction trade;
     Trade.instrument := Trade.instrument trade;
     Trade.entry_price := Trade.entry_price trade;
     Trade.entry_time := Trade.entry_time trade;
     Trade.exit_price := Trade.exit_price trade;
     Trade.exit_time := Trade.exit_time trade;
     Trade.size := Trade.size trade;
     Trade.cost_basis := Trade.cost_basis trade;
     Trade.proceeds := Trade.proceeds trade;
     Trade.pnl := Trade.pnl trade;
     Trade.pnl_pct := Trade.pnl_pct trade;
     Trade.setup_type := Trade.setup_type trade;
     Trade.narrative_id := Trade.narrative_id trade;
     Trade.watchlist_id := Trade.watchlist_id trade;
     Trade.planned_risk := Trade.planned_risk trade;
     Trade.planned_target := Trade.planned_target trade;
     Trade.actual_rr := Trade.actual_rr trade;
     Trade.notes := notes;
     Trade.lessons := lessons;
     Trade.status := Trade.status trade;
     Trade.is_paper := Trade.is_paper trade;
     Trade.created_at := Trade.created_at trade |}.

(** [updateTradeNotes]: an UPDATE by key, no row changed when none has it *)
Definition updateTradeNotes (id : Z) (notes lessons : option string) (db : Store.t)
  : outcome unit :=
  Resolved tt
    {| Store.trades := alter (fun trade => noted_row trade notes lessons) id (Store.trades db);
       Store.seq := Store.seq db;
       Store.narratives := Store.narratives db;
       Store.watchlist := Store.watchlist db;
       Store.is_paper_column := Store.is_paper_column db |}.

(** The operations of the system, as far as the [trades] table goes.  The
    operations on narratives, the watchlist, the journal and the playbook
    have no statement on [trades]; [OtherTables] stands for any of them and
    may leave any keys in the two referenced tables. *)
Inductive command : Type :=
  | OpenTrade (ticker direction instrument : string) (entryPrice size : num)
      (options : OpenOptions.t)
  | CloseTrade (id : Z) (exitPrice : num) (options : CloseOptions.t)
  | UpdateTradeNotes (id : Z) (notes lessons : option string)
  | OtherTables (narratives watchlist : gset Z).

Section History.

Variable toUpperCase : string -> string.

(** one command at time [now]; a rejected command leaves the store as it was *)
Definition exec (c : command) (now : string) (db : Store.t) : Store.t :=
  match c with
  | OpenTrade ticker direction instrument entryPrice size options =>
      match openTrade toUpperCase ticker direction instrument entryPrice size
              options now db with
      | Resolved _ db' => db'
      | Rejected _ => db
      end
  | CloseTrade id exitPrice options =>
      match closeTrade id exitPrice options now db with
      | Resolved _ db' => db'
      | Rejected _ => db
      end
  | UpdateTradeNotes id notes lessons =>
      match updateTradeNotes id notes lessons db with
      | Resolved _ db' => db'
      | Rejected _ => db
      end
  | OtherTables narratives watchlist =>
      {| Store.trades := Store.trades db;
         Store.seq := Store.seq db;
         Store.narratives := narratives;
         Store.watchlist := watchlist;
         Store.is_paper_column := Store.is_paper_column db |}
  end.

(** a history: commands with the time each ran at, oldest first *)
Definition run (history : list (command * string)) (db : Store.t) : Store.t :=
  fold_left (fun db ct => exec (fst ct) (snd ct) db) history db.

End History.

(** the command writes the row of key [id] through [closeTrade] *)
Definition closes (id : Z) (c : command) : bool :=
  match c with
  | CloseTrade id' _ _ => (id' =? id)%Z
  | _ => false
  end.

(** ** Reference definitions, in the words of the specification *)

(** the profit-and-loss of a row as a number ([null] counts as 0) *)
Definition pnl_value (t : Trade.t) : num := to_number (Trade.pnl t).

(** every row carries a numeric pnl *)
Definition numeric_pnl (trades : list Trade.t) : Prop :=
  Forall (fun t => Trade.pnl t <> None) trades.

(** every stored pnl is a double *)
Definition stored_doubles (trades : list Trade.t) : Prop :=
  Forall (fun t => forall q, Trade.pnl t = Some (RFin q) -> is_double q = true) trades.


(** sum of the pnl of the rows: the rows are added one after the other, in
    their order, to 0 *)
Definition sum_pnl (l : list Trade.t) : num :=
  fold_left (fun sum t => add sum (pnl_value t)) l (Fin zero).

Definition is_winner (t : Trade.t) : bool := gt (pnl_value t) (Fin zero).
Definition is_loser (t : Trade.t) : bool := lt (pnl_value t) (Fin zero).
Definition is_scratch (t : Trade.t) : bool := strict_eq (pnl_value t) (Fin zero).

Definition winners_of (l : list Trade.t) : list Trade.t := List.filter is_winner l.
Definition losers_of (l : list Trade.t) : list Trade.t := List.filter is_loser l.
Definition scratches_of (l : list Trade.t) : list Trade.t := List.filter is_scratch l.

(** a multiple of 2^-1074, the smallest positive double: every finite
    double is one *)
Definition on_grid (q : Q) : Prop :=
  exists z : Z, (q == inject_Z z * pow2 (-1074))%Q.

(** [n] is the integer closest to [y], the larger one when two are equally
    close *)
Definition nearest_tie_up (y : Qc) (n : Z) : Prop :=
  (y - Q2Qc (1 # 2) < of_Z n)%Qc /\ (of_Z n <= y + Q2Qc (1 # 2))%Qc.

(** [r] is [x] through an output step of scale [scale]: the product of [x]
    and [scale], a double, is rounded to the closest integer [n], a tie
    going up, and [r] is the double closest to [n / 100]; an infinite or
    undefined product is kept *)
Definition rounded_by (scale : Qc) (x r : num) : Prop :=
  match mul x (Fin scale) with
  | Fin y =>
      exists n : Z,
        nearest_tie_up y n /\ r = Number_value (inject_Z n / 100)%Q
  | other => r = other
  end.

(** the output step [Math.round(x * 100) / 100] of a value *)
Definition rounded_at_output (x r : num) : Prop := rounded_by hundred x r.

(** the output step [Math.round(f * 10000) / 100] of a fraction *)
Definition rate_rounded_at_output (f r : num) : Prop := rounded_by (of_Z 10000) f r.

(** rounding to the nearest integer, a tie going away from zero: the
    rounding the specification names, which the source does not use *)
Definition round_half_away (x : Qc) : Z :=
  if is_neg x then - Qfloor (this (- x)%Qc + (1 # 2))%Q
  else Qfloor (this x + (1 # 2))%Q.

(** two decimals, a tie going away from zero *)
Definition round2_half_away (x : Qc) : Qc :=
  (of_Z (round_half_away (x * hundred)) / hundred)%Qc.

(** the three classes of a closed trade *)
Inductive outcome_class : Type := Win | Loss | Scratch.

Definition classify (t : Trade.t) : outcome_class :=
  if is_winner t then Win else if is_loser t then Loss else Scratch.

Definition class_name (c : outcome_class) : string :=
  match c with
  | Win => "win"
  | Loss => "loss"
  | Scratch => "scratch"
  end.

Definition same_class (a b : outcome_class) : bool :=
  match a, b with
  | Win, Win | Loss, Loss | Scratch, Scratch => true
  | _, _ => false
  end.

(** number of rows at the head of [l] that are of class [c] *)
Fixpoint run_length (c : outcome_class) (l : list Trade.t) : nat :=
  match l with
  | [] => 0
  | t :: rest => if same_class (classify t) c then S (run_length c rest) else 0
  end.

(** the current streak of a most-recent-first sequence *)
Definition currentStreak_spec (l : list Trade.t) : Streak.t :=
  match l with
  | [] => {| Streak.type := "none"; Streak.count := 0 |}
  | t :: _ =>
      {| Streak.type := class_name (classify t);
         Streak.count := run_length (classify t) l |}
  end.

(** the consecutive-win and consecutive-loss counters after each row of a
    chronological scan that starts with the counters at [w] and [l] *)
Fixpoint running_counters (w l : nat) (chronological : list Trade.t)
  : list (nat * nat) :=
  match chronological with
  | [] => []
  | t :: rest =>
      let wl :=
        match classify t with
        | Win => (S w, 0%nat)
        | Loss => (0%nat, S l)
        | Scratch => (0%nat, 0%nat)
        end in
      wl :: running_counters (fst wl) (snd wl) rest
  end.

(** the largest value of a list of counters, 0 for none *)
Definition maximum (l : list nat) : nat := fold_right Nat.max 0%nat l.

(** the rows of a bucket *)
Definition in_setup (k : string) (l : list Trade.t) : list Trade.t :=
  List.filter (fun t => String.eqb (setup_key t) k) l.

Definition weekdays : list string :=
  ["Monday"; "Tuesday"; "Wednesday"; "Thursday"; "Friday"].

Definition on_day (weekday_long : string -> string) (d : string) (l : list Trade.t)
  : list Trade.t :=
  List.filter (fun t => String.eqb (weekday_long (Trade.entry_time t)) d) l.

(** [w / n * 100] *)
Definition percent (w n : nat) : num :=
  mul (div (Fin (of_nat w)) (Fin (of_nat n))) (Fin hundred).

(** the win rate of a bucket, [Math.round((w / n) * 10000) / 100] *)
Definition bucket_rate (w n : nat) : num :=
  div (Math_round (mul (div (Fin (of_nat w)) (Fin (of_nat n))) (Fin (of_Z 10000))))
      (Fin hundred).

(** the mean pnl of the rows *)
Definition mean_pnl (l : list Trade.t) : num :=
  div (sum_pnl l) (Fin (of_nat (length l))).

(** an operation that leaves the array it works on as it found it *)
Definition leaves_array {A : Type} (op : Arr A) : Prop :=
  forall a, array_after op a = a.

(** an operation that returns the same value when it runs a second time on
    the array object it has just run on *)
Definition repeatable {A : Type} (op : Arr A) : Prop :=
  forall a, result_of op (array_after op a) = result_of op a.

(** every key of the table is at most the AUTOINCREMENT counter *)
Definition store_wf (db : Store.t) : Prop :=
  forall k, is_Some (Store.trades db !! k) -> (k <= Store.seq db)%Z.

(** the fields the specification freezes at close *)
Definition same_result (a b : Trade.t) : Prop :=
  Trade.pnl a = Trade.pnl b /\ Trade.proceeds a = Trade.proceeds b /\
  Trade.exit_price a = Trade.exit_price b /\ Trade.status a = Trade.status b.

(** everything but the two annotation columns *)
Definition same_but_annotations (a b : Trade.t) : Prop :=
  noted_row a None None = noted_row b None None.

(** an empty database whose table [trades] has the column [is_paper] *)
Definition empty_store : Store.t :=
  {| Store.trades := ∅; Store.seq := 0; Store.narratives := ∅; Store.watchlist := ∅;
     Store.is_paper_column := true |}.

(** the database [initTablesSync] creates in a new file: the table [trades]
    of its CREATE TABLE statement has no column [is_paper] *)
Definition fresh_store : Store.t :=
  {| Store.trades := ∅; Store.seq := 0; Store.narratives := ∅; Store.watchlist := ∅;
     Store.is_paper_column := false |}.

(** the full-precision value of each monetary field of the summary, in the
    words of the specification *)
Definition winRate_spec (trades : list Trade.t) : num :=
  percent (length (winners_of trades)) (length trades).
Definition avgWinner_spec (trades : list Trade.t) : num :=
  if (length (winners_of trades) =? 0)%nat then Fin zero
  else mean_pnl (winners_of trades).
Definition avgLoser_spec (trades : list Trade.t) : num :=
  if (length (losers_of trades) =? 0)%nat then Fin zero
  else div (Math_abs (sum_pnl (losers_of trades)))
           (Fin (of_nat (length (losers_of trades)))).
Definition profitFactor_spec (trades : list Trade.t) : num :=
  match losers_of trades, winners_of trades with
  | _ :: _, _ =>
      div (sum_pnl (winners_of trades)) (Math_abs (sum_pnl (losers_of trades)))
  | [], _ :: _ => PInf
  | [], [] => Fin zero
  end.

(** the counters of a bucket after the rows [l], from the counters [s] *)
Definition setup_fold (l : list Trade.t) (s : SetupStat.t) : SetupStat.t :=
  fold_left (fun s t => setup_count t s) l s.

Definition day_fold (l : list Trade.t) (s : DayAcc.t) : DayAcc.t :=
  fold_left (fun s t => day_count t s) l s.

(** ** Sample rows *)

(** a closed row with the given key, pnl, setup and entry time *)
Definition sample (id : Z) (pnl : Qc) (setup : option string) (entry_time : string)
  : Trade.t :=
  {| Trade.id := id; Trade.ticker := "SPY"; Trade.direction := "long";
     Trade.instrument := "shares"; Trade.entry_price := RFin (of_Z 100);
     Trade.entry_time := entry_time; Trade.exit_price := None;
     Trade.exit_time := None; Trade.size := RFin (of_Z 1);
     Trade.cost_basis := RFin (of_Z 101); Trade.proceeds := None;
     Trade.pnl := Some (RFin pnl); Trade.pnl_pct := None; Trade.setup_type := setup;
     Trade.narrative_id := None; Trade.watchlist_id := None;
     Trade.planned_risk := None; Trade.planned_target := None;
     Trade.actual_rr := None; Trade.notes := None; Trade.lessons := None;
     Trade.status := "closed"; Trade.is_paper := Some 0%Z;
     Trade.created_at := entry_time |}.

(** rows numbered from [id] on with the given pnl values *)
Fixpoint samples (id : Z) (pnls : list Z) : list Trade.t :=
  match pnls with
  | [] => []
  | p :: rest => sample id (of_Z p) (Some "other") "2024-01-01 10:00:00"
                   :: samples (id + 1) rest
  end.

(** [w] rows of pnl 1 followed by [l] rows of pnl -1 *)
Definition wins_and_losses (w l : nat) : list Trade.t :=
  samples 1 (repeat 1%Z w ++ repeat (-1)%Z l).

(** a runtime in which every date is a Monday and numbers print as [#] *)
Definition always_monday (s : string) : string := "Monday".

(** a runtime calendar for the first week of 2024: the 6th is a Saturday,
    the 7th a Sunday, the 2nd a Tuesday, any other date a Monday *)
Definition first_week_2024 (s : string) : string :=
  if String.eqb s "2024-01-06 10:00:00" then "Saturday"
  else if String.eqb s "2024-01-07 10:00:00" then "Sunday"
  else if String.eqb s "2024-01-02 10:00:00" then "Tuesday"
  else "Monday".

(** a runtime whose [toUpperCase] maps the ASCII letters, as every runtime
    does on ASCII strings *)
Definition upper_ascii (c : Ascii.ascii) : Ascii.ascii :=
  let n := Ascii.nat_of_ascii c in
  if ((97 <=? n) && (n <=? 122))%nat then Ascii.ascii_of_nat (n - 32) else c.

Fixpoint toUpperCase_ascii (s : string) : string :=
  match s with
  | EmptyString => EmptyString
  | String c rest => String (upper_ascii c) (toUpperCase_ascii rest)
  end.

(** ** Sample stores *)

Definition no_options : OpenOptions.t :=
  {| OpenOptions.setup := None; OpenOptions.narrative := None;
     OpenOptions.watchlist := None; OpenOptions.risk := None;
     OpenOptions.target := None; OpenOptions.notes := None;
     OpenOptions.paper := false |}.

Definition no_close_options : CloseOptions.t :=
  {| CloseOptions.notes := None; CloseOptions.lessons := None |}.

(** one share of SPY bought at 10 and sold at 12 *)
Definition closed_once : Store.t :=
  run toUpperCase_ascii
      [(OpenTrade "spy" "long" "shares" (Fin (of_Z 10)) (Fin (of_Z 1)) no_options,
        "2024-01-01 09:30:00");
       (CloseTrade 1 (Fin (of_Z 12)) no_close_options, "2024-01-01 10:00:00")]
      empty_store.

(** the finite pnl of the row of key [id], as a fraction *)
Definition pnl_at (db : Store.t) (id : Z) : option Q :=
  match Store.trades db !! id with
  | Some t =>
      match Trade.pnl t with
      | Some (RFin q) => Some (this q)
      | _ => None
      end
  | None => None
  end.

Definition status_at (db : Store.t) (id : Z) : option string :=
  option_map Trade.status (Store.trades db !! id).


(** the row of [closed_once] *)
Definition closed_once_row : Trade.t :=
  match Store.trades closed_once !! 1%Z with
  | Some t => t
  | None => sample 1 zero None ""
  end.

(** three shares of SPY bought at 1.1 and sold at 1.2 *)
Definition three_shares : Store.t :=
  run toUpperCase_ascii
      [(OpenTrade "spy" "long" "shares" (decimal 11 1) (Fin (of_Z 3)) no_options,
        "2024-01-03 09:30:00");
       (CloseTrade 1 (decimal 12 1) no_close_options, "2024-01-03 10:00:00")]
      empty_store.

(** what happens next: a note on the closed trade, and another trade
    opened and closed *)
Definition later_history : list (command * string) :=
  [(UpdateTradeNotes 1 (Some "held too long") None, "2024-01-02 09:00:00");
   (OpenTrade "qqq" "long" "calls" (Fin (of_Z 2)) (Fin (of_Z 3)) no_options,
    "2024-01-02 09:30:00");
   (CloseTrade 2 (Fin (of_Z 5)) no_close_options, "2024-01-02 10:00:00")].

(** ** Further reference definitions *)

(** sum of a counter over the buckets of an object *)
Definition sum_over {V : Type} (g : V -> nat) (l : list (string * V)) : nat :=
  fold_right (fun kv acc => (g (snd kv) + acc)%nat) 0%nat l.

(** the row falls into one of the five weekday buckets *)
Definition on_weekday (weekday_long : string -> string) (t : Trade.t) : bool :=
  includes weekdays (weekday_long (Trade.entry_time t)).

(** the keys of a list, each at its first occurrence *)
Fixpoint first_occurrences (seen : list string) (keys : list string) : list string :=
  match keys with
  | [] => []
  | k :: rest =>
      if includes seen k then first_occurrences seen rest
      else k :: first_occurrences (seen ++ [k]) rest
  end.

(** ** Sorting, and the text of the setup analysis and of the streaks *)

Section Sort.
Context {A : Type}.

(** [strictly_before x y]: the comparator is negative on [x], [y], so [x]
    goes before [y] *)
Variable strictly_before : A -> A -> bool.

(** [x] put after the elements it does not go strictly before *)
Fixpoint sort_insert (x : A) (sorted : list A) : list A :=
  match sorted with
  | [] => [x]
  | y :: rest =>
      if strictly_before x y then x :: y :: rest
      else y :: sort_insert x rest
  end.

(** [a.sort(compare)]: the sort of the runtime is stable, elements the
    comparator does not order keep the order they had *)
Definition Array_sort (a : list A) : list A :=
  fold_left (fun sorted x => sort_insert x sorted) a [].

End Sort.



(** [([,a], [,b]) => b.totalPnL - a.totalPnL] is negative *)
Definition setup_before (a b : string * SetupStat.t) : bool :=
  lt (sub (SetupStat.totalPnL (snd b)) (SetupStat.totalPnL (snd a))) (Fin zero).

(** [Object.entries(setupStats).sort(...)] *)
Definition sortedSetups (setupStats : list (string * SetupStat.t))
  : list (string * SetupStat.t) :=
  Array_sort setup_before setupStats.


Section Texts.
Variable Number_toString : Qc -> string.
Variable toUpperCase : string -> string.

(** [formatSetupAnalysis(setupStats)], the lines it pushes *)
Definition formatSetupAnalysis_lines (setupStats : list (string * SetupStat.t))
  : list string :=
  ["🎯 SETUP ANALYSIS"; String_repeat "═" 50]
  ++ map (fun kv =>
            toUpperCase (fst kv) +:+ ": "
            +:+ show_count Number_toString (SetupStat.totalTrades (snd kv))
            +:+ " trades, "
            +:+ show_num Number_toString (SetupStat.winRate (snd kv))
            +:+ "% win rate, $"
            +:+ show_num Number_toString (SetupStat.totalPnL (snd kv))
            +:+ " total, $"
            +:+ show_num Number_toString (SetupStat.avgPnL (snd kv))
            +:+ " avg")
         (sortedSetups setupStats).

Definition formatSetupAnalysis (setupStats : list (string * SetupStat.t)) : string :=
  join newline (formatSetupAnalysis_lines setupStats).

(** [formatStreaks(streaks)], the lines it pushes *)
Definition formatStreaks_lines (streaks : Streaks.t) : list string :=
  let current := Streaks.currentStreak streaks in
  ["🔥 STREAKS"; String_repeat "═" 30;
   "Current: " +:+ show_count Number_toString (Streak.count current)
     +:+ " " +:+ Streak.type current
     +:+ (if (Streak.count current =? 1)%nat then "" else "s")
     +:+ " in a row";
   "Best Win Streak: " +:+ show_count Number_toString (Streaks.bestWinStreak streaks);
   "Worst Loss Streak: "
     +:+ show_count Number_toString (Streaks.worstLossStreak streaks)].

Definition formatStreaks (streaks : Streaks.t) : string :=
  join newline (formatStreaks_lines streaks).

End Texts.

(** the word [formatStreaks] prints after the count: the type of the streak,
    with an [s] unless the count is 1 *)
Definition streak_word (c : outcome_class) (n : nat) : string :=
  match c, (n =? 1)%nat with
  | Win, true => "win"
  | Win, false => "wins"
  | Loss, true => "loss"
  | Loss, false => "losss"
  | Scratch, true => "scratch"
  | Scratch, false => "scratchs"
  end.

(** ** The queries on the [trades] table *)

(** [is_paper = 0 OR is_paper IS NULL] *)
Definition not_paper (t : Trade.t) : bool :=
  match Trade.is_paper t with
  | Some z => (z =? 0)%Z
  | None => true
  end.

(** [is_paper = 1] *)
Definition is_paper_trade (t : Trade.t) : bool :=
  match Trade.is_paper t with
  | Some z => (z =? 1)%Z
  | None => false
  end.

(** the WHERE clause of the queries of [getStats] (without period and
    ticker), [getSetupAnalysis] and [getStreaks]:
    [status = 'closed' AND (is_paper = 0 OR is_paper IS NULL)] *)
Definition stats_where (t : Trade.t) : bool :=
  String.eqb (Trade.status t) "closed" && not_paper t.

Module TradeFilters.
(** the [filters] object of [getTrades] *)
Record t : Type := mk {
  paper : bool;
  includePaper : bool;
  open : bool;
  ticker : option string;
  date : option string
}.
End TradeFilters.

Section Queries.

(** [date(entry_time)] and [date("now")] of SQLite *)
Variable sql_date : string -> string.
Variable sql_today : string.

(** [s.toUpperCase()] *)
Variable toUpperCase : string -> string.

(** the WHERE clause [getTrades] builds from its filters *)
Definition getTrades_where (filters : TradeFilters.t) (t : Trade.t) : bool :=
  (if TradeFilters.paper filters then is_paper_trade t
   else if negb (TradeFilters.includePaper filters) then not_paper t
   else true)
  && (if TradeFilters.open filters then String.eqb (Trade.status t) "open" else true)
  && (match string_or (TradeFilters.ticker filters) None with
      | Some ticker => String.eqb (Trade.ticker t) (toUpperCase ticker)
      | None => true
      end)
  && (match string_or (TradeFilters.date filters) None with
      | Some d =>
          if String.eqb d "today"
          then String.eqb (sql_date (Trade.entry_time t)) sql_today
          else String.eqb (sql_date (Trade.entry_time t)) d
      | None => true
      end).

End Queries.

(** no filter set *)
Definition no_filters : TradeFilters.t :=
  {| TradeFilters.paper := false; TradeFilters.includePaper := false;
     TradeFilters.open := false; TradeFilters.ticker := None;
     TradeFilters.date := None |}.

(** what a row of key [k] is like in a store the operations built: the
    cost basis is the one of its entry price and size, and a closed row
    holds what [closeTrade] computed from some exit price *)
Definition row_ok (k : Z) (row : Trade.t) : Prop :=
  Trade.id row = k /\
  includes valid_directions (Trade.direction row) = true /\
  includes valid_instruments (Trade.instrument row) = true /\
  (exists s, Trade.setup_type row = Some s /\ includes valid_setups s = true) /\
  (Trade.is_paper row = Some 0%Z \/ Trade.is_paper row = Some 1%Z) /\
  to_num (Trade.cost_basis row)
    = costBasis_of (Trade.instrument row) (to_num (Trade.entry_price row))
        (to_num (Trade.size row)) /\
  ((Trade.status row = "open" /\ Trade.pnl row = None /\
    Trade.proceeds row = None /\ Trade.exit_price row = None)
   \/
   (Trade.status row = "closed" /\
    exists exitPrice : num,
      Trade.exit_price row = bind_number exitPrice /\
      Trade.proceeds row = bind_number (proceeds_of row exitPrice) /\
      Trade.pnl row = bind_number (pnl_of row exitPrice))).

(** every row of the store is a well-formed row under its own key, no key
    exceeds the counter, and the table has the column [is_paper] *)
Definition store_ok (db : Store.t) : Prop :=
  (0 <= Store.seq db)%Z /\
  Store.is_paper_column db = true /\
  forall k row, Store.trades db !! k = Some row ->
    (1 <= k <= Store.seq db)%Z /\ row_ok k row.

(** what [openTrade] is given passes the constraints of [trades]: none of
    entry price, size and cost basis is [NaN], and the CHECK and FOREIGN
    KEY constraints hold *)
Definition open_arguments_valid (direction instrument : string)
    (entryPrice size : num) (options : OpenOptions.t) (db : Store.t) : bool :=
  negb (is_NaN entryPrice)
  && negb (is_NaN size)
  && negb (is_NaN (costBasis_of instrument entryPrice size))
  && includes valid_directions direction
  && includes valid_instruments instrument
  && match string_or (OpenOptions.setup options) (Some "other") with
     | Some s => includes valid_setups s
     | None => true
     end
  && refers_into (Store.narratives db) (id_or_null (OpenOptions.narrative options))
  && refers_into (Store.watchlist db) (id_or_null (OpenOptions.watchlist options)).

(** ** HorseyDB: the journal *)

Module JournalRow.
Record t : Type := mk {
  id : Z;
  date : string;
  premarket_plan : option string;
  postmarket_review : option string;
  market_context : option string;
  grade : option string;
  created_at : string;
  updated_at : string
}.
End JournalRow.

Module Journal.
(** the rows of [journal] in insertion order, and the AUTOINCREMENT counter *)
Record t : Type := mk {
  rows : list JournalRow.t;
  seq : Z
}.
End Journal.

Module ReviewOptions.
Record t : Type := mk {
  context : option string;
  grade : option string
}.
End ReviewOptions.

Inductive journal_outcome : Type :=
  | JournalResolved (j : Journal.t)
  | JournalRejected (e : error).

Definition valid_grades : list string := ["A"; "B"; "C"; "D"; "F"].

(** [CHECK(grade IN ('A', 'B', 'C', 'D', 'F'))]: a null grade passes *)
Definition grade_ok (grade : option string) : bool :=
  match grade with
  | Some g => includes valid_grades g
  | None => true
  end.

(** the rows [WHERE date = ?] selects *)
Definition on_date (d : string) (r : JournalRow.t) : bool :=
  String.eqb (JournalRow.date r) d.

(** [UPDATE journal SET ... WHERE date = ?]: the rows after it *)
Definition journal_update (f : JournalRow.t -> JournalRow.t) (d : string)
    (rows : list JournalRow.t) : list JournalRow.t :=
  map (fun r => if on_date d r then f r else r) rows.

(** [result.changes] of that UPDATE *)
Definition journal_changes (d : string) (rows : list JournalRow.t) : nat :=
  length (List.filter (on_date d) rows).

Definition with_plan (plan : string) (now : string) (r : JournalRow.t) : JournalRow.t :=
  {| JournalRow.id := JournalRow.id r;
     JournalRow.date := JournalRow.date r;
     JournalRow.premarket_plan := Some plan;
     JournalRow.postmarket_review := JournalRow.postmarket_review r;
     JournalRow.market_context := JournalRow.market_context r;
     JournalRow.grade := JournalRow.grade r;
     JournalRow.created_at := JournalRow.created_at r;
     JournalRow.updated_at := now |}.

Definition with_review (review : string) (context grade : option string)
    (now : string) (r : JournalRow.t) : JournalRow.t :=
  {| JournalRow.id := JournalRow.id r;
     JournalRow.date := JournalRow.date r;
     JournalRow.premarket_plan := JournalRow.premarket_plan r;
     JournalRow.postmarket_review := Some review;
     JournalRow.market_context := context;
     JournalRow.grade := grade;
     JournalRow.created_at := JournalRow.created_at r;
     JournalRow.updated_at := now |}.

(** [setPlan(plan)]; [today] is the date of the clock, [now]
    CURRENT_TIMESTAMP.  No constraint of the table can fail here. *)
Definition setPlan (plan : string) (today now : string) (j : Journal.t)
  : journal_outcome :=
  if (journal_changes today (Journal.rows j) =? 0)%nat then
    let lastID := (Journal.seq j + 1)%Z in
    JournalResolved
      {| Journal.rows :=
           Journal.rows j ++
           [{| JournalRow.id := lastID; JournalRow.date := today;
               JournalRow.premarket_plan := Some plan;
               JournalRow.postmarket_review := None;
               JournalRow.market_context := None; JournalRow.grade := None;
               JournalRow.created_at := now; JournalRow.updated_at := now |}];
         Journal.seq := lastID |}
  else
    JournalResolved
      {| Journal.rows := journal_update (with_plan plan now) today (Journal.rows j);
         Journal.seq := Journal.seq j |}.

(** [setReview(review, options)]: the UPDATE fails on the CHECK of [grade]
    when it changes a row, the INSERT fails on it otherwise *)
Definition setReview (review : string) (options : ReviewOptions.t)
    (today now : string) (j : Journal.t) : journal_outcome :=
  let context := string_or (ReviewOptions.context options) None in
  let grade := string_or (ReviewOptions.grade options) None in
  if (journal_changes today (Journal.rows j) =? 0)%nat then
    if grade_ok grade then
      let lastID := (Journal.seq j + 1)%Z in
      JournalResolved
        {| Journal.rows :=
             Journal.rows j ++
             [{| JournalRow.id := lastID; JournalRow.date := today;
                 JournalRow.premarket_plan := None;
                 JournalRow.postmarket_review := Some review;
                 JournalRow.market_context := context; JournalRow.grade := grade;
                 JournalRow.created_at := now; JournalRow.updated_at := now |}];
           Journal.seq := lastID |}
    else JournalRejected (ConstraintFailed "grade")
  else
    if grade_ok grade then
      JournalResolved
        {| Journal.rows :=
             journal_update (with_review review context grade now) today
               (Journal.rows j);
           Journal.seq := Journal.seq j |}
    else JournalRejected (ConstraintFailed "grade").

(** [getJournal(date)]: [undefined] when no row has the date *)
Definition getJournal (date : option string) (today : string) (j : Journal.t)
  : option JournalRow.t :=
  let d := match string_or date None with
           | Some d => d
           | None => today
           end in
  List.find (on_date d) (Journal.rows j).

Inductive journal_command : Type :=
  | SetPlan (plan : string)
  | SetReview (review : string) (options : ReviewOptions.t).

(** one command on the day [today] at time [now]; a rejected command leaves
    the journal as it was *)
Definition journal_exec (c : journal_command) (today now : string) (j : Journal.t)
  : Journal.t :=
  match c with
  | SetPlan plan =>
      match setPlan plan today now j with
      | JournalResolved j' => j'
      | JournalRejected _ => j
      end
  | SetReview review options =>
      match setReview review options today now j with
      | JournalResolved j' => j'
      | JournalRejected _ => j
      end
  end.

(** a history of commands, each with its day and time, oldest first *)
Definition journal_run (history : list (journal_command * string * string))
    (j : Journal.t) : Journal.t :=
  fold_left (fun j c => journal_exec (fst (fst c)) (snd (fst c)) (snd c) j) history j.

Definition empty_journal : Journal.t := {| Journal.rows := []; Journal.seq := 0 |}.

(** ** HorseyDashboard: the trade log and the paper trades *)

Section TradeLog.
Variable Number_toFixed : Qc -> nat -> string.

(** [!trade.pnl ? 'neutral' : trade.pnl > 0 ? 'positive' : 'negative'] *)
Definition tradeLog_pnlClass (trade : Trade.t) : string :=
  if negb (truthy_number (Trade.pnl trade)) then "neutral"
  else if pnl_gt0 trade then "positive" else "negative".

(** [trade.pnl ? `$${trade.pnl.toFixed(2)}` : 'OPEN'], the P&L cell of the
    trade log of the dashboard and of the listings of the command line *)
Definition tradeLog_pnl (trade : Trade.t) : string :=
  if truthy_number (Trade.pnl trade)
  then "$" +:+ toFixed Number_toFixed (to_number (Trade.pnl trade)) 2
  else "OPEN".

(** [trade.exit_price ? '$' + trade.exit_price.toFixed(2) : '-'] *)
Definition tradeLog_exit (trade : Trade.t) : string :=
  if truthy_number (Trade.exit_price trade)
  then "$" +:+ toFixed Number_toFixed (to_number (Trade.exit_price trade)) 2
  else "-".

End TradeLog.

Module Outcome.
Record t : Type := mk {
  label : string;
  color : string;
  icon : string
}.
End Outcome.

(** [getOutcome(trade)] of [generatePaperTrades] *)
Definition getOutcome (trade : Trade.t) : Outcome.t :=
  if negb (truthy_number (Trade.pnl trade)) then
    {| Outcome.label := "OPEN"; Outcome.color := "#888"; Outcome.icon := "⏳" |}
  else
    let pctMove :=
      mul (Math_abs (div (sub (to_number (Trade.exit_price trade))
                              (to_num (Trade.entry_price trade)))
                         (to_num (Trade.entry_price trade))))
          (Fin hundred) in
    let isWin := pnl_gt0 trade in
    if isWin && ge pctMove (Fin (of_Z 30)) then
      {| Outcome.label := ""; Outcome.color := "#00ff88"; Outcome.icon := "🟢🟢" |}
    else if isWin then
      {| Outcome.label := ""; Outcome.color := "#00cc66"; Outcome.icon := "🟢" |}
    else if negb isWin && ge pctMove (Fin (of_Z 30)) then
      {| Outcome.label := ""; Outcome.color := "#ff4444"; Outcome.icon := "🔴🔴" |}
    else
      {| Outcome.label := ""; Outcome.color := "#cc6644"; Outcome.icon := "🔴" |}.

Module PaperSummary.
(** the numbers of the summary line of the paper trades; a tally is shown
    when it is above 0 *)
Record t : Type := mk {
  total : nat;
  open : nat;
  bigGreen : nat;
  smallGreen : nat;
  smallRed : nat;
  bigRed : nat
}.
End PaperSummary.

(** [outcomes.filter(o => o.label === l).length] *)
Definition count_label (l : string) (outcomes : list Outcome.t) : nat :=
  length (List.filter (fun o => String.eqb (Outcome.label o) l) outcomes).

(** the tallies [generatePaperTrades] computes on a non-empty list *)
Definition paperSummary (trades : list Trade.t) : PaperSummary.t :=
  let closed := List.filter (fun t => String.eqb (Trade.status t) "closed") trades in
  let open := List.filter (fun t => String.eqb (Trade.status t) "open") trades in
  let outcomes := map getOutcome closed in
  {| PaperSummary.total := length trades;
     PaperSummary.open := length open;
     PaperSummary.bigGreen := count_label "BIG GREEN" outcomes;
     PaperSummary.smallGreen := count_label "SMALL GREEN" outcomes;
     PaperSummary.smallRed := count_label "SMALL RED" outcomes;
     PaperSummary.bigRed := count_label "BIG RED" outcomes |}.

(** one share bought at 10 and sold at 11: the commission eats the gain *)
Definition scratch_history : list (command * string) :=
  [(OpenTrade "spy" "long" "shares" (Fin (of_Z 10)) (Fin (of_Z 1)) no_options,
    "2024-01-01 09:30:00");
   (CloseTrade 1 (Fin (of_Z 11)) no_close_options, "2024-01-01 10:00:00")].

(** ** cli.js: the tables of the command line *)

(** A JavaScript string is a sequence of UTF-16 code units; [length],
    [padEnd] and [repeat] count code units. *)
Definition code_unit : Type := N.
Definition js_string : Type := list code_unit.


(** A cell of a table row: a string, a number (an id, a price) or [null]. *)
Module Cell.
Inductive t : Type :=
| Text (s : js_string)
| Number (x : num)
| Null.
End Cell.

Section Table.

(** [String(x)] for a number [x] *)
Variable Number_toString : num -> js_string.















End Table.


(** one share of SPY bought at 10 and closed at an exit price that did not
    parse ([parseFloat] gave [NaN]) *)
Definition closed_at_NaN : Store.t :=
  run toUpperCase_ascii
      [(OpenTrade "spy" "long" "shares" (Fin (of_Z 10)) (Fin (of_Z 1)) no_options,
        "2024-01-01 09:30:00");
       (CloseTrade 1 NaN no_close_options, "2024-01-01 10:00:00")]
      empty_store.


(** ** The doubles of the Standard Library *)

(** the binary64 datum of a number; a finite number is taken to be a
    double, a fraction over a power of two *)
Definition to_binary64 (x : num) : spec_float :=
  match x with
  | Fin q => binary_normalize 53 1024 (Qnum q) (- Z.log2 (Z.pos (Qden q))) false
  | PInf => S754_infinity false
  | NInf => S754_infinity true
  | NaN => S754_nan
  end.

(** the same datum, the two zeros taken as one *)
Definition same_datum (a b : spec_float) : bool :=
  match SFcompare a b with
  | Some Eq => true
  | Some _ => false
  | None =>
      match a, b with
      | S754_nan, S754_nan => true
      | _, _ => false
      end
  end.

(** an operation of [num] gives on two operands what the operation of
    binary64 gives *)
Definition agrees (op : num -> num -> num)
    (binary64_op : spec_float -> spec_float -> spec_float) (p : num * num) : bool :=
  same_datum (to_binary64 (op (fst p) (snd p)))
             (binary64_op (to_binary64 (fst p)) (to_binary64 (snd p))).

(** operands: those of the examples of this file, ties, subnormal numbers,
    overflow, zeros, infinities and [NaN] *)
Definition binary64_samples : list (num * num) :=
  [(decimal 575 3, Fin hundred); (decimal 2675 3, Fin hundred);
   (decimal (-10125) 3, Fin hundred); (decimal 1437 2, Fin hundred);
   (Fin (of_Z 23), Fin (of_Z 160)); (Fin (of_Z 57), Fin (of_Z 800));
   (Fin (of_Z 23), Fin (of_Z (-40)));
   (decimal 11 1, Fin (of_Z 3)); (decimal 12 1, Fin (of_Z 3));
   (decimal 36 1, decimal 43 1); (decimal 35999999999999996 16, decimal 4300000000000001 15);
   (decimal 1 1, decimal 2 1); (decimal 1 1, decimal (-3) 1);
   (decimal (-2) 1, decimal 2 1);
   (Number_value (pow2 53), Fin (of_Z 1)); (Number_value (pow2 53), Fin (of_Z 3));
   (Number_value (pow2 1023), Fin (of_Z 2));
   (Number_value (pow2 1023), Number_value (pow2 1023));
   (Number_value (pow2 1023), Number_value (pow2 (-1074)));
   (Number_value (pow2 (-1074)), Fin (of_Z 2));
   (Number_value (3 * pow2 (-1074)), Fin (of_Z 2));
   (Number_value (5 * pow2 (-1074)), Fin (of_Z (-2)));
   (Number_value (pow2 (-1022)), decimal 3 1);
   (Number_value (pow2 (-1022)), Number_value (pow2 (-1074)));
   (Fin zero, Fin (of_Z 5)); (Fin (of_Z 5), Fin zero); (Fin zero, Fin zero);
   (Fin (of_Z (-5)), Fin zero);
   (PInf, Fin (of_Z 2)); (NInf, Fin (of_Z (-2))); (Fin (of_Z 2), NInf);
   (PInf, PInf); (PInf, NInf); (PInf, Fin zero); (Fin zero, NInf);
   (NaN, Fin (of_Z 1)); (Fin (of_Z 1), NaN); (NaN, PInf)].
(** ** Facts about the numbers *)

Ltac qc2q :=
  unfold Qclt, Qcle, Qcminus, Qcdiv, Qcplus, Qcmult, Qcopp, Qcinv, Q2Qc in *;
  cbn [this] in *;
  repeat match goal with
  | H : context [Qred ?q] |- _ => rewrite (Qred_correct q) in H
  | |- context [Qred ?q] => rewrite (Qred_correct q)
  end.

Lemma strict_eq_true (a b : num) : strict_eq a b = true -> a = b.
Proof.
  destruct a, b; cbn [strict_eq]; try discriminate; try reflexivity.
  intros H. apply bool_decide_eq_true in H. now subst.
Qed.

Lemma same_value_true (a b : num) : same_value a b = true -> a = b.
Proof.
  destruct a, b; cbn [same_value]; try discriminate; try reflexivity;
    apply strict_eq_true.
Qed.

(** closes [x = y] between closed numbers by evaluation *)
Ltac num_eval := apply same_value_true; vm_compute; reflexivity.
Ltac qc_eval := apply Qc_is_canon; vm_compute; reflexivity.

Lemma pow2_pos (k : Z) : (0 < pow2 k)%Q.
Proof. apply Qpower_0_lt. reflexivity. Qed.

Lemma pow2_plus (a b : Z) : (pow2 (a + b) == pow2 a * pow2 b)%Q.
Proof. apply Qpower_plus. discriminate. Qed.

Lemma pow2_le (a b : Z) : a <= b -> (pow2 a <= pow2 b)%Q.
Proof. intros H. apply Qpower_le_compat_l; [exact H | discriminate]. Qed.

Lemma pow2_Z (k : Z) : 0 <= k -> (pow2 k == inject_Z (2 ^ k))%Q.
Proof. intros H. unfold pow2. now rewrite (Zpower_Qpower 2 k H). Qed.

Lemma pow2_0 : (pow2 0 == 1)%Q.
Proof. reflexivity. Qed.

(** [2^(ilog2 a)] is at most [a] *)
Lemma ilog2_le (a : Q) : (0 < a)%Q -> (pow2 (ilog2 a) <= a)%Q.
Proof.
  intros Ha. unfold ilog2.
  destruct (Qle_bool _ a) eqn:E; [now apply Qle_bool_imp_le |].
  clear E. destruct a as [n d]. cbn [Qnum Qden].
  assert (Hn : 0 < n) by (unfold Qlt in Ha; cbn in Ha; lia).
  pose proof (Z.log2_spec n Hn) as [Hln _].
  pose proof (Z.log2_spec (Z.pos d) (Pos2Z.is_pos d)) as [_ Hld].
  set (ln := Z.log2 n) in *. set (ld := Z.log2 (Z.pos d)) in *.
  assert (Hln0 : 0 <= ln) by apply Z.log2_nonneg.
  assert (Hld0 : 0 <= ld) by apply Z.log2_nonneg.
  replace (ln - ld - 1) with (ln + - (Z.succ ld)) by lia.
  rewrite pow2_plus. unfold pow2 at 2. rewrite Qpower_opp.
  fold (pow2 (Z.succ ld)). rewrite (pow2_Z ln Hln0), (pow2_Z (Z.succ ld)) by lia.
  assert (H1 : (inject_Z (2 ^ ln) <= inject_Z n)%Q) by (rewrite <- Zle_Qle; exact Hln).
  assert (H2 : (inject_Z (Z.pos d) < inject_Z (2 ^ Z.succ ld))%Q)
    by (rewrite <- Zlt_Qlt; exact Hld).
  assert (H3 : (0 < inject_Z (2 ^ ln))%Q).
  { rewrite <- (pow2_Z ln Hln0). apply pow2_pos. }
  assert (H4 : (0 < inject_Z (Z.pos d))%Q) by reflexivity.
  rewrite (Qmake_Qdiv n d).
  set (P := inject_Z (2 ^ ln)) in *. set (R := inject_Z (2 ^ Z.succ ld)) in *.
  set (N := inject_Z n) in *. set (D := inject_Z (Z.pos d)) in *.
  clearbody P R N D.
  apply Qle_shift_div_l; [exact H4 |].
  assert (HR : (0 < R)%Q) by lra.
  assert (E : (P * / R * D == P * D / R)%Q) by (field; lra).
  rewrite E. apply Qle_shift_div_r; [exact HR |]. nra.
Qed.

Lemma round_half_even_ge_floor (x : Q) : Qfloor x <= round_half_even x.
Proof.
  unfold round_half_even. destruct (_ ?= _)%Q; [destruct (Z.even _) | |]; lia.
Qed.

Lemma round_half_even_nonneg (x : Q) : (0 <= x)%Q -> 0 <= round_half_even x.
Proof.
  intros H. pose proof (round_half_even_ge_floor x) as Hf.
  pose proof (Qfloor_resp_le 0 x H) as H0. change (Qfloor 0%Q) with 0%Z in H0. lia.
Qed.

Lemma round_half_even_ge1 (x : Q) : (1 <= x)%Q -> 1 <= round_half_even x.
Proof.
  intros H. pose proof (round_half_even_ge_floor x) as Hf.
  pose proof (Qfloor_resp_le 1 x H) as H0. change (Qfloor 1%Q) with 1%Z in H0. lia.
Qed.

Lemma ulp_exponent_ge (a : Q) : -1074 <= ulp_exponent a.
Proof. unfold ulp_exponent. lia. Qed.

Lemma round_magnitude_nonneg (a : Q) : (0 <= a)%Q -> (0 <= round_magnitude a)%Q.
Proof.
  intros Ha. unfold round_magnitude.
  pose proof (pow2_pos (ulp_exponent a)) as Hp.
  apply Qmult_le_0_compat; [| lra].
  change 0%Q with (inject_Z 0). rewrite <- Zle_Qle.
  apply round_half_even_nonneg. apply Qle_shift_div_l; [exact Hp | lra].
Qed.

(** a number of at least 2^-1074 is not rounded to 0 *)
Lemma round_magnitude_tiny (a : Q) :
  (pow2 (-1074) <= a)%Q -> (pow2 (-1074) <= round_magnitude a)%Q.
Proof.
  intros Ha. unfold round_magnitude.
  pose proof (pow2_pos (-1074)) as Ht.
  pose proof (pow2_pos (ulp_exponent a)) as Hp.
  pose proof (pow2_le _ _ (ulp_exponent_ge a)) as Hle.
  assert (H1 : (1 <= a / pow2 (ulp_exponent a))%Q).
  { apply Qle_shift_div_l; [exact Hp |]. rewrite Qmult_1_l.
    unfold ulp_exponent in *.
    destruct (Z.max_spec (ilog2 a - 52) (-1074)) as [[_ ->] | [Hge ->]];
      [exact Ha |].
    assert (H0 : (0 < a)%Q) by lra.
    pose proof (ilog2_le a H0) as Hl.
    pose proof (pow2_le (ilog2 a - 52) (ilog2 a) ltac:(lia)). lra. }
  apply round_half_even_ge1 in H1. rewrite Zle_Qle in H1.
  change (inject_Z 1) with 1%Q in H1.
  set (m := inject_Z (round_half_even _)) in *. clearbody m.
  set (p := pow2 (ulp_exponent a)) in *. clearbody p. nra.
Qed.

Lemma Number_value_not_NaN (q : Q) : is_NaN (Number_value q) = false.
Proof. unfold Number_value. repeat destruct (Qle_bool _ _); reflexivity. Qed.

Lemma zero_this : (this zero == 0)%Q.
Proof. reflexivity. Qed.

Lemma lt_Fin (x y : Qc) : lt (Fin x) (Fin y) = true <-> (this x < this y)%Q.
Proof. unfold lt. rewrite bool_decide_eq_true. reflexivity. Qed.

Lemma lt_Fin_false (x y : Qc) : lt (Fin x) (Fin y) = false <-> (this y <= this x)%Q.
Proof.
  unfold lt. rewrite bool_decide_eq_false. unfold Qclt. split; intros H.
  - now apply Qnot_lt_le.
  - now apply Qle_not_lt.
Qed.

(** the Number value for a number that is not negative is not negative *)
Lemma Number_value_nonneg (q : Q) :
  (0 <= q)%Q -> lt (Number_value q) (Fin zero) = false.
Proof.
  intros Hq. unfold Number_value.
  apply Qle_bool_iff in Hq as Hb. rewrite Hb.
  destruct (Qle_bool (pow2 1024) _); [reflexivity |].
  apply lt_Fin_false. cbn [this Q2Qc]. rewrite Qred_correct, zero_this.
  apply round_magnitude_nonneg, Qabs_nonneg.
Qed.

Lemma Number_value_nonpos (q : Q) :
  (q <= 0)%Q -> gt (Number_value q) (Fin zero) = false.
Proof.
  intros Hq. unfold Number_value, gt.
  pose proof (round_magnitude_nonneg (Qabs q) (Qabs_nonneg q)) as Hr.
  destruct (Qle_bool 0 q) eqn:Hb.
  - apply Qle_bool_iff in Hb. assert (E : (q == 0)%Q) by lra.
    assert (Er : (round_magnitude (Qabs q) == 0)%Q).
    { unfold round_magnitude, round_half_even.
      assert (Ea : (Qabs q / pow2 (ulp_exponent (Qabs q)) == 0)%Q).
      { assert (E0 : (Qabs q == 0)%Q) by (rewrite (Qabs_pos q Hb); exact E).
        set (p := pow2 (ulp_exponent (Qabs q))). clearbody p.
        unfold Qdiv. rewrite E0. apply Qmult_0_l. }
      set (x := (Qabs q / pow2 (ulp_exponent (Qabs q)))%Q) in *. clearbody x.
      rewrite (Qfloor_comp _ _ Ea). change (Qfloor 0%Q) with 0%Z.
      assert (Ec : (x - inject_Z 0 ?= 1 # 2)%Q = Lt).
      { apply Qlt_alt. rewrite Ea. reflexivity. }
      rewrite Ec. apply Qmult_0_l. }
    destruct (Qle_bool (pow2 1024) _) eqn:Hinf.
    + apply Qle_bool_iff in Hinf. pose proof (pow2_pos 1024). lra.
    + apply lt_Fin_false. cbn [this Q2Qc]. rewrite Qred_correct, zero_this. lra.
  - destruct (Qle_bool (pow2 1024) _); [reflexivity |].
    apply lt_Fin_false. cbn [this Q2Qc]. rewrite Qred_correct, zero_this. lra.
Qed.

(** from 2^-1074 on it is positive *)
Lemma Number_value_pos (q : Q) :
  (pow2 (-1074) <= q)%Q -> gt (Number_value q) (Fin zero) = true.
Proof.
  intros Hq. unfold Number_value, gt.
  pose proof (pow2_pos (-1074)) as Ht.
  assert (H0 : (0 <= q)%Q) by lra.
  apply Qle_bool_iff in H0 as Hb. rewrite Hb.
  destruct (Qle_bool (pow2 1024) _); [reflexivity |].
  apply lt_Fin. cbn [this Q2Qc]. rewrite Qred_correct, zero_this.
  pose proof (round_magnitude_tiny (Qabs q)) as Hr.
  rewrite (Qabs_pos q H0) in Hr at 1. specialize (Hr Hq). lra.
Qed.

Lemma Number_value_neg (q : Q) :
  (q <= - pow2 (-1074))%Q -> lt (Number_value q) (Fin zero) = true.
Proof.
  intros Hq. unfold Number_value.
  pose proof (pow2_pos (-1074)) as Ht.
  destruct (Qle_bool 0 q) eqn:Hb; [apply Qle_bool_iff in Hb; lra |].
  destruct (Qle_bool (pow2 1024) _); [reflexivity |].
  apply lt_Fin. cbn [this Q2Qc]. rewrite Qred_correct, zero_this.
  pose proof (round_magnitude_tiny (Qabs q)) as Hr.
  assert (Ha : (pow2 (-1074) <= Qabs q)%Q).
  { rewrite (Qabs_neg q) by lra. lra. }
  specialize (Hr Ha). lra.
Qed.

Lemma Number_value_0 : Number_value 0 = Fin zero.
Proof. num_eval. Qed.

(** *** The grid of the doubles *)

Lemma on_grid_opp (q : Q) : on_grid q -> on_grid (- q).
Proof.
  intros [z Hz]. exists (- z). rewrite inject_Z_opp, Hz. ring.
Qed.


Lemma on_grid_pos (q : Q) : on_grid q -> (0 < q)%Q -> (pow2 (-1074) <= q)%Q.
Proof.
  intros [z Hz] Hq. pose proof (pow2_pos (-1074)) as Ht. rewrite Hz in *.
  assert (Hz1 : 1 <= z).
  { destruct (Z_lt_le_dec z 1) as [Hlt | Hge]; [| exact Hge]. exfalso.
    assert (Hz0 : (inject_Z z <= 0)%Q).
    { change 0%Q with (inject_Z 0). rewrite <- Zle_Qle. lia. }
    nra. }
  rewrite Zle_Qle in Hz1. change (inject_Z 1) with 1%Q in Hz1. nra.
Qed.

Lemma on_grid_neg (q : Q) : on_grid q -> (q < 0)%Q -> (q <= - pow2 (-1074))%Q.
Proof.
  intros Hg Hq. pose proof (on_grid_pos (- q) (on_grid_opp q Hg)). lra.
Qed.

Lemma round_magnitude_on_grid (a : Q) : on_grid (round_magnitude a).
Proof.
  unfold round_magnitude, on_grid.
  set (e := ulp_exponent a). set (m := round_half_even _).
  exists (m * 2 ^ (e + 1074)).
  pose proof (ulp_exponent_ge a). fold e in H.
  rewrite inject_Z_mult, <- (pow2_Z (e + 1074)) by lia.
  rewrite <- Qmult_assoc, <- pow2_plus.
  replace (e + 1074 + -1074) with e by lia. reflexivity.
Qed.

(** a finite Number value is on the grid *)
Lemma Number_value_on_grid (q : Q) (r : Qc) :
  Number_value q = Fin r -> on_grid (this r).
Proof.
  unfold Number_value. destruct (Qle_bool (pow2 1024) _); [destruct (Qle_bool 0 q); discriminate |].
  intros [= <-]. cbn [this Q2Qc].
  pose proof (round_magnitude_on_grid (Qabs q)) as Hg.
  destruct (Qle_bool 0 q).
  - destruct Hg as [z Hz]. exists z. now rewrite Qred_correct.
  - apply on_grid_opp in Hg. destruct Hg as [z Hz]. exists z. now rewrite Qred_correct.
Qed.

Lemma is_double_on_grid (q : Qc) : is_double q = true -> on_grid (this q).
Proof.
  unfold is_double. destruct (Number_value (this q)) as [r | | |] eqn:E; try discriminate.
  intros H. apply bool_decide_eq_true in H. subst r.
  exact (Number_value_on_grid _ _ E).
Qed.

(** On the sample operands, sums, differences, products and quotients of
    [num] are those of the binary64 format of the Standard Library
    ([SpecFloat], precision 53, largest exponent 1024). *)
Example arithmetic_agrees_with_binary64 :
  forallb (fun p =>
             agrees add (SFadd 53 1024) p && agrees sub (SFsub 53 1024) p
             && agrees mul (SFmul 53 1024) p && agrees div (SFdiv 53 1024) p)
          binary64_samples = true.
Proof. vm_compute. reflexivity. Qed.

(** *** Order and signs *)

Lemma ge_negb_lt (a b : num) :
  is_NaN a = false -> is_NaN b = false -> ge a b = negb (lt a b).
Proof. destruct a, b; intros; try discriminate; reflexivity. Qed.

Lemma ge_not_NaN (a b : num) : ge a b = true -> is_NaN a = false /\ is_NaN b = false.
Proof. destruct a, b; cbn; intros; try discriminate; split; reflexivity. Qed.

Lemma to_num_not_NaN (r : real) : is_NaN (to_num r) = false.
Proof. destruct r; reflexivity. Qed.

Lemma to_number_not_NaN (v : option real) : is_NaN (to_number v) = false.
Proof. destruct v as [r |]; [apply to_num_not_NaN | reflexivity]. Qed.

Lemma bind_number_Some (x : num) (r : real) : bind_number x = Some r -> to_num r = x.
Proof. destruct x; intros [= <-]; reflexivity. Qed.

Lemma bind_number_None (x : num) : bind_number x = None <-> x = NaN.
Proof. destruct x; split; intros; try discriminate; reflexivity. Qed.

Lemma bind_number_to_num (r : real) : bind_number (to_num r) = Some r.
Proof. destruct r; reflexivity. Qed.

Lemma bind_number_is_NaN (x : num) : is_NaN x = false -> exists r, bind_number x = Some r.
Proof. destruct x; intros; try discriminate; eexists; reflexivity. Qed.


Lemma lt_trans (a b c : num) : lt a b = true -> lt b c = true -> lt a c = true.
Proof.
  destruct a, b, c; try discriminate; try reflexivity.
  rewrite !lt_Fin. apply Qlt_trans.
Qed.

Lemma lt_asym (a b : num) : lt a b = true -> lt b a = false.
Proof.
  destruct a, b; try discriminate; try reflexivity.
  rewrite lt_Fin, lt_Fin_false. apply Qlt_le_weak.
Qed.

(** on numbers that are not [NaN], [<] is a strict weak order *)
Lemma lt_false_trans (a b c : num) :
  is_NaN a = false -> is_NaN b = false -> is_NaN c = false ->
  lt a b = false -> lt b c = false -> lt a c = false.
Proof.
  destruct a, b, c; try discriminate; try reflexivity; intros _ _ _.
  rewrite !lt_Fin_false. intros H1 H2. now apply (Qle_trans _ (this q0)).
Qed.

Lemma lt_lt_false_trans (a b c : num) :
  is_NaN c = false -> lt a b = true -> lt c b = false -> lt a c = true.
Proof.
  destruct a, b, c; try discriminate; try reflexivity; intros _.
  rewrite !lt_Fin, lt_Fin_false. intros H1 H2. now apply (Qlt_le_trans _ (this q0)).
Qed.

Lemma lt_false_lt_trans (a b c : num) :
  is_NaN a = false -> lt b a = false -> lt b c = true -> lt a c = true.
Proof.
  destruct a, b, c; try discriminate; try reflexivity; intros _.
  rewrite !lt_Fin, lt_Fin_false. intros H1 H2. now apply (Qle_lt_trans _ (this q0)).
Qed.

(** a number that is not [NaN] is above, below or equal to 0, and only one
    of the three *)
Lemma sign_cases (x : num) :
  is_NaN x = false ->
  (gt x (Fin zero) = true /\ lt x (Fin zero) = false /\ strict_eq x (Fin zero) = false) \/
  (gt x (Fin zero) = false /\ lt x (Fin zero) = true /\ strict_eq x (Fin zero) = false) \/
  (gt x (Fin zero) = false /\ lt x (Fin zero) = false /\ strict_eq x (Fin zero) = true).
Proof.
  destruct x as [q | | |]; try discriminate; intros _.
  - unfold gt. cbn [strict_eq].
    destruct (Qlt_le_dec 0 (this q)) as [Hpos | Hle].
    + left. rewrite lt_Fin, lt_Fin_false, zero_this. repeat split; [exact Hpos | lra |].
      apply bool_decide_eq_false. intros ->. revert Hpos. rewrite zero_this. lra.
    + destruct (Qlt_le_dec (this q) 0) as [Hneg | Hge].
      * right. left. rewrite lt_Fin, lt_Fin_false, zero_this. repeat split; [lra | exact Hneg |].
        apply bool_decide_eq_false. intros ->. revert Hneg. rewrite zero_this. lra.
      * right. right. rewrite !lt_Fin_false, zero_this. repeat split; [lra | lra |].
        apply bool_decide_eq_true. apply Qc_is_canon. rewrite zero_this. lra.
  - left. repeat split.
  - right. left. repeat split.
Qed.

(** *** Signs through the arithmetic *)

Lemma ge0_Fin (q : Qc) : ge (Fin q) (Fin zero) = true <-> (0 <= this q)%Q.
Proof.
  unfold ge. rewrite negb_true_iff, lt_Fin_false, zero_this. reflexivity.
Qed.

Lemma le0_Fin (q : Qc) : ge (Fin zero) (Fin q) = true <-> (this q <= 0)%Q.
Proof.
  unfold ge. rewrite negb_true_iff, lt_Fin_false, zero_this. reflexivity.
Qed.

Lemma Number_value_ge0 (q : Q) : (0 <= q)%Q -> ge (Number_value q) (Fin zero) = true.
Proof.
  intros H. rewrite ge_negb_lt by (apply Number_value_not_NaN || reflexivity).
  now rewrite Number_value_nonneg.
Qed.

Lemma Number_value_le0 (q : Q) : (q <= 0)%Q -> ge (Fin zero) (Number_value q) = true.
Proof.
  intros H. rewrite ge_negb_lt by (apply Number_value_not_NaN || reflexivity).
  pose proof (Number_value_nonpos q H) as Hg. unfold gt in Hg. now rewrite Hg.
Qed.

(** a sum of numbers that are at most 0 is at most 0 *)
Lemma le0_add (x y : num) :
  ge (Fin zero) x = true -> ge (Fin zero) y = true -> ge (Fin zero) (add x y) = true.
Proof.
  destruct x as [a | | |], y as [b | | |]; try discriminate; try reflexivity.
  rewrite !le0_Fin. intros Ha Hb. cbn [add]. apply Number_value_le0. lra.
Qed.

Lemma ge0_add (x y : num) :
  ge x (Fin zero) = true -> ge y (Fin zero) = true -> ge (add x y) (Fin zero) = true.
Proof.
  destruct x as [a | | |], y as [b | | |]; try discriminate; try reflexivity.
  rewrite !ge0_Fin. intros Ha Hb. cbn [add]. apply Number_value_ge0. lra.
Qed.

Lemma is_neg_lt (q : Qc) : is_neg q = true <-> (this q < 0)%Q.
Proof. unfold is_neg. rewrite bool_decide_eq_true. reflexivity. Qed.

Lemma is_neg_false (q : Qc) : is_neg q = false <-> (0 <= this q)%Q.
Proof.
  unfold is_neg. rewrite bool_decide_eq_false. unfold Qclt. rewrite zero_this.
  split; [apply Qnot_lt_le | apply Qle_not_lt].
Qed.

Lemma is_zero_eq (q : Qc) : is_zero q = true <-> q = zero.
Proof. unfold is_zero. apply bool_decide_eq_true. Qed.

Lemma is_zero_false (q : Qc) : is_zero q = false <-> ~ (this q == 0)%Q.
Proof.
  unfold is_zero. rewrite bool_decide_eq_false. split; intros H E; apply H.
  - apply Qc_is_canon. now rewrite zero_this.
  - subst q. reflexivity.
Qed.

(** the absolute value of a number that is not [NaN] is at least 0 *)
Lemma ge0_abs (x : num) : is_NaN x = false -> ge (Math_abs x) (Fin zero) = true.
Proof.
  destruct x as [a | | |]; try discriminate; try reflexivity. intros _.
  cbn [Math_abs]. apply ge0_Fin.
  destruct (is_neg a) eqn:E.
  - apply is_neg_lt in E. qc2q. lra.
  - now apply is_neg_false in E.
Qed.

Lemma of_Z_this (z : Z) : (this (of_Z z) == inject_Z z)%Q.
Proof. unfold of_Z. cbn [this Q2Qc]. apply Qred_correct. Qed.

Lemma of_Z_inj (a b : Z) : of_Z a = of_Z b -> a = b.
Proof.
  unfold of_Z. intros H. apply Q2Qc_eq_iff in H. now apply inject_Z_injective.
Qed.

Lemma of_nat_pos (n : nat) : n <> 0%nat -> (0 < this (of_nat n))%Q.
Proof.
  intros Hn. unfold of_nat. rewrite of_Z_this. change 0%Q with (inject_Z 0).
  rewrite <- Zlt_Qlt. lia.
Qed.

Lemma is_zero_of_nat (n : nat) : n <> 0%nat -> is_zero (of_nat n) = false.
Proof.
  intros Hn. apply is_zero_false. pose proof (of_nat_pos n Hn). lra.
Qed.

Lemma is_neg_of_nat (n : nat) : is_neg (of_nat n) = false.
Proof.
  apply is_neg_false. unfold of_nat. rewrite of_Z_this.
  change 0%Q with (inject_Z 0). rewrite <- Zle_Qle. lia.
Qed.

Lemma is_zero_hundred : is_zero hundred = false.
Proof. reflexivity. Qed.

Lemma div_Fin_nat (x : Qc) (n : nat) :
  n <> 0%nat ->
  div (Fin x) (Fin (of_nat n)) = Number_value (this x / this (of_nat n)).
Proof. intros Hn. unfold div. now rewrite is_zero_of_nat. Qed.

(** a number that is at least 0, over a count, is at least 0 *)
Lemma ge0_div_nat (x : num) (n : nat) :
  n <> 0%nat -> ge x (Fin zero) = true -> ge (div x (Fin (of_nat n))) (Fin zero) = true.
Proof.
  intros Hn. destruct x as [a | | |]; try discriminate.
  - rewrite ge0_Fin. intros Ha. rewrite div_Fin_nat by exact Hn.
    apply Number_value_ge0. pose proof (of_nat_pos n Hn) as Hp.
    apply Qle_shift_div_l; [exact Hp | lra].
  - intros _. cbn [div]. now rewrite is_neg_of_nat.
Qed.

Lemma round_half_up_ge0 (x : Qc) : (0 <= this x)%Q -> 0 <= round_half_up x.
Proof.
  intros H. unfold round_half_up.
  assert (H0 : (0 <= this x + (1 # 2))%Q) by lra.
  apply Qfloor_resp_le in H0. exact H0.
Qed.

Lemma mul_hundred_Fin (x : Qc) :
  mul (Fin x) (Fin hundred) = Number_value (this x * this hundred).
Proof. reflexivity. Qed.

Lemma div_hundred_Fin (x : Qc) :
  div (Fin x) (Fin hundred) = Number_value (this x / this hundred).
Proof. reflexivity. Qed.

(** the output step keeps a number that is at least 0 at least 0 *)
Lemma ge0_round2 (x : num) : ge x (Fin zero) = true -> ge (round2 x) (Fin zero) = true.
Proof.
  destruct x as [a | | |]; try discriminate; [| reflexivity].
  rewrite ge0_Fin. intros Ha. unfold round2. rewrite mul_hundred_Fin.
  assert (Hm : ge (Number_value (this a * this hundred)) (Fin zero) = true).
  { apply Number_value_ge0. change (this hundred) with 100%Q. lra. }
  destruct (Number_value _) as [b | | |]; try discriminate; [| reflexivity].
  apply ge0_Fin in Hm. cbn [Math_round]. rewrite div_hundred_Fin.
  apply Number_value_ge0. change (this hundred) with 100%Q.
  pose proof (round_half_up_ge0 b Hm) as Hr. rewrite Zle_Qle in Hr.
  rewrite of_Z_this. change (inject_Z 0) with 0%Q in Hr.
  apply Qle_shift_div_l; [reflexivity | lra].
Qed.

Lemma round2_PInf : round2 PInf = PInf.
Proof. reflexivity. Qed.

Lemma round2_zero : round2 (Fin zero) = Fin zero.
Proof. num_eval. Qed.

(** what [Math.round(x * scale) / 100] returns *)
Lemma rounded_by_intro (scale : Qc) (x : num) :
  rounded_by scale x (div (Math_round (mul x (Fin scale))) (Fin hundred)).
Proof.
  unfold rounded_by.
  destruct (mul x (Fin scale)) as [y | | |]; try reflexivity.
  exists (round_half_up y). split.
  - unfold nearest_tie_up, round_half_up.
    pose proof (Qfloor_le (this y + (1 # 2))%Q) as Hle.
    pose proof (Qlt_floor (this y + (1 # 2))%Q) as Hlt.
    set (z := Qfloor (this y + (1 # 2))%Q) in *.
    rewrite inject_Z_plus in Hlt. change (inject_Z 1) with 1%Q in Hlt.
    unfold of_Z. qc2q. set (q := inject_Z z) in *. clearbody q. split; lra.
  - cbn [Math_round]. rewrite div_hundred_Fin. f_equal.
    change (this hundred) with 100%Q. unfold of_Z. cbn [this Q2Qc].
    rewrite Qred_identity; [reflexivity | apply Z.gcd_1_r].
Qed.

(** the output step: what [Math.round(x * 100) / 100] returns *)
Lemma round2_rounded (x : num) : rounded_at_output x (round2 x).
Proof. apply rounded_by_intro. Qed.

Lemma bucket_rate_rounded (w n : nat) :
  rate_rounded_at_output (div (Fin (of_nat w)) (Fin (of_nat n))) (bucket_rate w n).
Proof. apply rounded_by_intro. Qed.

(** ** Facts about the summary *)

Lemma pnl_value_not_NaN (t : Trade.t) : is_NaN (pnl_value t) = false.
Proof. apply to_number_not_NaN. Qed.

Lemma pnl_gt0_is_winner (t : Trade.t) : pnl_gt0 t = is_winner t.
Proof. reflexivity. Qed.

Lemma pnl_lt0_is_loser (t : Trade.t) : pnl_lt0 t = is_loser t.
Proof. reflexivity. Qed.

Lemma pnl_eq0_is_scratch (t : Trade.t) :
  Trade.pnl t <> None -> pnl_eq0 t = is_scratch t.
Proof.
  unfold pnl_eq0, is_scratch, pnl_value, strict_eq_zero, to_number.
  destruct (Trade.pnl t) as [[q | |] |]; try reflexivity. congruence.
Qed.

Lemma filter_gt0 (l : list Trade.t) : List.filter pnl_gt0 l = winners_of l.
Proof. reflexivity. Qed.

Lemma filter_lt0 (l : list Trade.t) : List.filter pnl_lt0 l = losers_of l.
Proof. reflexivity. Qed.

Lemma filter_eq0 (l : list Trade.t) :
  numeric_pnl l -> List.filter pnl_eq0 l = scratches_of l.
Proof.
  unfold numeric_pnl, scratches_of. induction 1 as [| t l Ht _ IH]; [reflexivity |].
  cbn [List.filter]. now rewrite IH, (pnl_eq0_is_scratch t Ht).
Qed.

Lemma fold_add_pnl_zero (l : list Trade.t) :
  fold_left add_pnl l (Fin zero) = sum_pnl l.
Proof. reflexivity. Qed.

(** exactly one of the three classes holds of a row *)
Lemma class_cases (t : Trade.t) :
  (is_winner t = true /\ is_loser t = false /\ is_scratch t = false) \/
  (is_winner t = false /\ is_loser t = true /\ is_scratch t = false) \/
  (is_winner t = false /\ is_loser t = false /\ is_scratch t = true).
Proof. apply sign_cases, pnl_value_not_NaN. Qed.

Lemma partition_lengths (l : list Trade.t) :
  (length (winners_of l) + length (losers_of l) + length (scratches_of l)
   = length l)%nat.
Proof.
  unfold winners_of, losers_of, scratches_of.
  induction l as [| t l IH]; [reflexivity |]. cbn [List.filter length].
  destruct (class_cases t) as [(-> & -> & ->) | [(-> & -> & ->) | (-> & -> & ->)]];
    cbn [length]; lia.
Qed.

Lemma lt_ge (a b : num) : lt a b = true -> ge b a = true.
Proof.
  intros H. destruct a, b; try discriminate; try reflexivity.
  unfold ge. now rewrite (lt_asym _ _ H).
Qed.

(** the sum of rows that are at most 0 is at most 0 *)
Lemma sum_le0 (l : list Trade.t) (acc : num) :
  ge (Fin zero) acc = true ->
  Forall (fun t => ge (Fin zero) (pnl_value t) = true) l ->
  ge (Fin zero) (fold_left (fun sum t => add sum (pnl_value t)) l acc) = true.
Proof.
  intros Hacc Hl. revert acc Hacc.
  induction Hl as [| t l Ht _ IH]; intros acc Hacc; [exact Hacc |].
  cbn [fold_left]. apply IH. now apply le0_add.
Qed.

Lemma sum_losers_le0 (l : list Trade.t) : ge (Fin zero) (sum_pnl (losers_of l)) = true.
Proof.
  apply sum_le0; [reflexivity |]. apply List.Forall_forall. intros t Ht.
  apply List.filter_In in Ht as [_ Ht]. now apply lt_ge.
Qed.

Lemma length_pos_ltb {A : Type} (l : list A) :
  (0 <? length l)%nat = negb (length l =? 0)%nat.
Proof. destruct l; reflexivity. Qed.

Section SummaryFacts.
Variable weekday_long : string -> string.

(** what [getStats] returns on rows, and the array it leaves *)
Lemma getStats_rows_nonempty (trades : list Trade.t) :
  trades <> [] ->
  getStats_rows weekday_long trades =
  ({| Summary.totalTrades := length trades;
      Summary.winners := Some (length (List.filter pnl_gt0 trades));
      Summary.losers := Some (length (List.filter pnl_lt0 trades));
      Summary.scratches := Some (length (List.filter pnl_eq0 trades));
      Summary.winRate :=
        round2 (winRate_of (List.filter pnl_gt0 trades) (length trades));
      Summary.avgWinner := round2 (avgWinner_of (List.filter pnl_gt0 trades));
      Summary.avgLoser := round2 (avgLoser_of (List.filter pnl_lt0 trades));
      Summary.profitFactor :=
        round2 (profitFactor_of (totalWinnings_of (List.filter pnl_gt0 trades))
                                (totalLosses_of (List.filter pnl_lt0 trades)));
      Summary.totalPnL := round2 (fold_left add_pnl trades (Fin zero));
      Summary.bestTrade := option_map trade_ref (fold_left pick_best trades None);
      Summary.worstTrade := option_map trade_ref (fold_left pick_worst trades None);
      Summary.setupAnalysis := getSetupAnalysis trades;
      Summary.dayOfWeekAnalysis := getDayOfWeekAnalysis weekday_long trades |},
   trades).
Proof.
  intros Hne. destruct trades as [| t l]; [congruence |]. reflexivity.
Qed.

Lemma winRate_of_spec (trades : list Trade.t) :
  winRate_of (winners_of trades) (length trades) = winRate_spec trades.
Proof. reflexivity. Qed.

Lemma avgWinner_of_spec (l : list Trade.t) :
  avgWinner_of (winners_of l) = avgWinner_spec l.
Proof.
  unfold avgWinner_of, avgWinner_spec. rewrite length_pos_ltb.
  destruct (length (winners_of l) =? 0)%nat; reflexivity.
Qed.

Lemma avgLoser_of_spec (l : list Trade.t) :
  avgLoser_of (losers_of l) = avgLoser_spec l.
Proof.
  unfold avgLoser_of, avgLoser_spec. rewrite length_pos_ltb.
  destruct (length (losers_of l) =? 0)%nat; reflexivity.
Qed.

(** the average loser is a magnitude: it is at least 0 *)
Lemma avgLoser_spec_ge0 (l : list Trade.t) : ge (avgLoser_spec l) (Fin zero) = true.
Proof.
  unfold avgLoser_spec.
  destruct (length (losers_of l) =? 0)%nat eqn:E; [reflexivity |].
  apply Nat.eqb_neq in E. apply ge0_div_nat; [exact E |].
  apply ge0_abs. pose proof (sum_losers_le0 l) as H.
  now apply ge_not_NaN in H.
Qed.

End SummaryFacts.

(** ** Facts about objects keyed by strings *)

Section AlistFacts.
Context {V : Type}.
Implicit Types (l : list (string * V)) (k : string).

Lemma alist_lookup_alter_same (f : V -> V) k l :
  alist_lookup k (alist_alter f k l) = option_map f (alist_lookup k l).
Proof.
  induction l as [| [k' v] l IH]; cbn [alist_alter alist_lookup]; [reflexivity |].
  destruct (String.eqb k k') eqn:E; cbn [alist_lookup]; rewrite E; [reflexivity | exact IH].
Qed.

Lemma alist_lookup_alter_other (f : V -> V) k k0 l :
  k <> k0 -> alist_lookup k (alist_alter f k0 l) = alist_lookup k l.
Proof.
  intros Hne. induction l as [| [k' v] l IH]; cbn [alist_alter alist_lookup]; [reflexivity |].
  destruct (String.eqb k0 k') eqn:E0; cbn [alist_lookup].
  - apply String.eqb_eq in E0. subst k'.
    destruct (String.eqb k k0) eqn:E; [| reflexivity].
    apply String.eqb_eq in E. contradiction.
  - destruct (String.eqb k k'); [reflexivity | exact IH].
Qed.

Lemma alist_lookup_app k l k0 (v : V) :
  alist_lookup k (l ++ [(k0, v)]) =
  match alist_lookup k l with
  | Some x => Some x
  | None => if String.eqb k k0 then Some v else None
  end.
Proof.
  induction l as [| [k' v'] l IH]; cbn [app alist_lookup]; [reflexivity |].
  destruct (String.eqb k k'); [reflexivity | exact IH].
Qed.

Lemma alist_keys_alter (f : V -> V) k l :
  map fst (alist_alter f k l) = map fst l.
Proof.
  induction l as [| [k' v] l IH]; cbn [alist_alter map]; [reflexivity |].
  destruct (String.eqb k k'); cbn [map fst]; [reflexivity | now rewrite IH].
Qed.

Lemma alist_lookup_map_values {W : Type} (f : V -> W) k l :
  alist_lookup k (alist_map_values f l) = option_map f (alist_lookup k l).
Proof.
  unfold alist_map_values.
  induction l as [| [k' v] l IH]; cbn [map alist_lookup fst snd]; [reflexivity |].
  destruct (String.eqb k k'); [reflexivity | exact IH].
Qed.

Lemma alist_keys_map_values {W : Type} (f : V -> W) l :
  map fst (alist_map_values f l) = map fst l.
Proof.
  unfold alist_map_values. rewrite map_map. reflexivity.
Qed.

Lemma alist_lookup_None_keys k l :
  alist_lookup k l = None <-> includes (map fst l) k = false.
Proof.
  unfold includes.
  induction l as [| [k' v] l IH]; cbn [map alist_lookup existsb fst]; [tauto |].
  destruct (String.eqb k k'); cbn [orb]; [split; discriminate | exact IH].
Qed.

End AlistFacts.

(** ** Facts about the buckets *)

Lemma setup_step_lookup_same (acc : list (string * SetupStat.t)) (t : Trade.t) :
  alist_lookup (setup_key t) (setup_step acc t) =
  Some (setup_count t (match alist_lookup (setup_key t) acc with
                       | Some s => s
                       | None => setup_init
                       end)).
Proof.
  unfold setup_step. rewrite alist_lookup_alter_same.
  destruct (alist_lookup (setup_key t) acc) as [s |] eqn:E.
  - now rewrite E.
  - rewrite alist_lookup_app, E, String.eqb_refl. reflexivity.
Qed.

Lemma setup_step_lookup_other (acc : list (string * SetupStat.t)) (t : Trade.t) k :
  k <> setup_key t -> alist_lookup k (setup_step acc t) = alist_lookup k acc.
Proof.
  intros Hne. unfold setup_step. rewrite alist_lookup_alter_other by exact Hne.
  destruct (alist_lookup (setup_key t) acc); [reflexivity |].
  rewrite alist_lookup_app. destruct (alist_lookup k acc); [reflexivity |].
  destruct (String.eqb k (setup_key t)) eqn:E; [| reflexivity].
  apply String.eqb_eq in E. contradiction.
Qed.

Lemma setup_lookup_fold (ts : list Trade.t) :
  forall (acc : list (string * SetupStat.t)) k,
  alist_lookup k (fold_left setup_step ts acc) =
  match alist_lookup k acc with
  | Some s => Some (setup_fold (in_setup k ts) s)
  | None =>
      match in_setup k ts with
      | [] => None
      | _ :: _ => Some (setup_fold (in_setup k ts) setup_init)
      end
  end.
Proof.
  induction ts as [| t ts IH]; intros acc k; cbn [fold_left].
  - cbn. destruct (alist_lookup k acc); reflexivity.
  - rewrite IH. unfold in_setup. cbn [List.filter].
    destruct (String.eqb (setup_key t) k) eqn:E.
    + apply String.eqb_eq in E. subst k. rewrite setup_step_lookup_same.
      destruct (alist_lookup (setup_key t) acc); reflexivity.
    + assert (Hne : k <> setup_key t).
      { intros ->. rewrite String.eqb_refl in E. discriminate. }
      rewrite (setup_step_lookup_other acc t k Hne). reflexivity.
Qed.

Lemma setup_fold_fields (l : list Trade.t) :
  forall s : SetupStat.t,
  SetupStat.totalTrades (setup_fold l s) = (SetupStat.totalTrades s + length l)%nat /\
  SetupStat.winners (setup_fold l s) =
    (SetupStat.winners s + length (winners_of l))%nat /\
  SetupStat.losers (setup_fold l s) =
    (SetupStat.losers s + length (losers_of l))%nat /\
  SetupStat.totalPnL (setup_fold l s) =
    fold_left (fun sum t => add sum (pnl_value t)) l (SetupStat.totalPnL s).
Proof.
  unfold setup_fold, winners_of, losers_of.
  induction l as [| t l IH]; intros s; cbn [fold_left List.filter length].
  - repeat split; lia.
  - destruct (IH (setup_count t s)) as (H1 & H2 & H3 & H4).
    rewrite H1, H2, H3, H4. cbn [setup_count SetupStat.totalTrades
      SetupStat.winners SetupStat.losers SetupStat.totalPnL].
    rewrite pnl_gt0_is_winner, pnl_lt0_is_loser.
    split; [lia |]. split; [| split].
    + destruct (is_winner t); cbn [length]; lia.
    + destruct (class_cases t) as [(-> & -> & _) | [(-> & -> & _) | (-> & -> & _)]];
        cbn [length]; lia.
    + reflexivity.
Qed.

Section DayFacts.
Variable weekday_long : string -> string.

Lemma day_step_keys (acc : list (string * DayAcc.t)) (t : Trade.t) :
  map fst (day_step weekday_long acc t) = map fst acc.
Proof.
  unfold day_step. destruct (alist_lookup _ acc); [apply alist_keys_alter | reflexivity].
Qed.

Lemma day_fold_keys (ts : list Trade.t) :
  forall acc, map fst (fold_left (day_step weekday_long) ts acc) = map fst acc.
Proof.
  induction ts as [| t ts IH]; intros acc; cbn [fold_left]; [reflexivity |].
  now rewrite IH, day_step_keys.
Qed.

Lemma day_step_lookup (acc : list (string * DayAcc.t)) (t : Trade.t) d :
  alist_lookup d (day_step weekday_long acc t) =
  if String.eqb (weekday_long (Trade.entry_time t)) d
  then option_map (day_count t) (alist_lookup d acc)
  else alist_lookup d acc.
Proof.
  unfold day_step.
  destruct (String.eqb (weekday_long (Trade.entry_time t)) d) eqn:E.
  - apply String.eqb_eq in E. subst d.
    destruct (alist_lookup _ acc) eqn:E'.
    + now rewrite alist_lookup_alter_same, E'.
    + now rewrite E'.
  - destruct (alist_lookup (weekday_long _) acc); [| reflexivity].
    apply alist_lookup_alter_other. intros ->. rewrite String.eqb_refl in E. discriminate.
Qed.

Lemma day_lookup_fold (ts : list Trade.t) :
  forall (acc : list (string * DayAcc.t)) d,
  alist_lookup d (fold_left (day_step weekday_long) ts acc) =
  option_map (day_fold (on_day weekday_long d ts)) (alist_lookup d acc).
Proof.
  induction ts as [| t ts IH]; intros acc d; cbn [fold_left].
  - cbn. destruct (alist_lookup d acc); reflexivity.
  - rewrite IH, day_step_lookup. unfold on_day. cbn [List.filter].
    destruct (String.eqb (weekday_long (Trade.entry_time t)) d);
      destruct (alist_lookup d acc); reflexivity.
Qed.

(** a row whose day name is no key of the object changes nothing *)
Lemma day_step_dropped (acc : list (string * DayAcc.t)) (t : Trade.t) :
  includes (map fst acc) (weekday_long (Trade.entry_time t)) = false ->
  day_step weekday_long acc t = acc.
Proof.
  intros H. apply alist_lookup_None_keys in H. unfold day_step. now rewrite H.
Qed.

Lemma day_fold_dropped (ts : list Trade.t) :
  forall acc,
  fold_left (day_step weekday_long) ts acc =
  fold_left (day_step weekday_long)
    (List.filter (fun t => includes (map fst acc) (weekday_long (Trade.entry_time t))) ts)
    acc.
Proof.
  induction ts as [| t ts IH]; intros acc; cbn [fold_left List.filter]; [reflexivity |].
  destruct (includes (map fst acc) (weekday_long (Trade.entry_time t))) eqn:E.
  - cbn [fold_left]. rewrite IH, day_step_keys. reflexivity.
  - rewrite (day_step_dropped acc t E). apply IH.
Qed.

End DayFacts.

Lemma day_fold_fields (l : list Trade.t) :
  forall s : DayAcc.t,
  DayAcc.totalTrades (day_fold l s) = (DayAcc.totalTrades s + length l)%nat /\
  DayAcc.winners (day_fold l s) = (DayAcc.winners s + length (winners_of l))%nat /\
  DayAcc.totalPnL (day_fold l s) =
    fold_left (fun sum t => add sum (pnl_value t)) l (DayAcc.totalPnL s).
Proof.
  unfold day_fold, winners_of.
  induction l as [| t l IH]; intros s; cbn [fold_left List.filter length].
  - repeat split; lia.
  - destruct (IH (day_count t s)) as (H1 & H2 & H3).
    rewrite H1, H2, H3. cbn [day_count DayAcc.totalTrades DayAcc.winners
      DayAcc.totalPnL].
    rewrite pnl_gt0_is_winner.
    split; [lia |]. split.
    + destruct (is_winner t); cbn [length]; lia.
    + reflexivity.
Qed.


(** ** The summary *)

(** C6. [getStats] returns a summary on every sequence of rows (it has no
    throwing path: the embedding is a total function), with totalTrades the
    number of rows.  On an empty result set it returns the all-zero summary:
    totalTrades, winRate, avgWinner, avgLoser, profitFactor and totalPnL are
    0, bestTrade and worstTrade are null; the fetched array is left as it
    was. *)
Theorem C6_empty_summary :
  forall weekday_long : string -> string,
    let s := getStats weekday_long [] in
    (forall trades : list Trade.t,
       exists s' : Summary.t,
         getStats weekday_long trades = s' /\
         Summary.totalTrades s' = length trades) /\
    Summary.totalTrades s = 0%nat /\
    Summary.winRate s = Fin zero /\
    Summary.avgWinner s = Fin zero /\
    Summary.avgLoser s = Fin zero /\
    Summary.profitFactor s = Fin zero /\
    Summary.totalPnL s = Fin zero /\
    Summary.bestTrade s = None /\
    Summary.worstTrade s = None /\
    array_after (getStats_rows weekday_long) [] = [].
Proof.
  intros weekday_long. cbv zeta. split; [| repeat split].
  intros trades. eexists. split; [reflexivity |].
  destruct trades as [| t l]; [reflexivity |].
  unfold getStats, result_of. now rewrite getStats_rows_nonempty.
Qed.

(** C5. On a non-empty sequence of rows with numeric pnl, [getStats]
    partitions the rows into winners (pnl > 0), losers (pnl < 0) and
    scratches (pnl = 0).  The summary it returns carries the three counts
    and, each through the output step [Math.round(x * 100) / 100]: winRate,
    winners/total*100; avgWinner, the winners' sum over their count (0
    without winners); avgLoser, the absolute value of the losers' sum over
    their count (0 without losers), never negative; totalPnL, the sum of all
    pnl.  Sums, quotients and products are those of double arithmetic, the
    rows being added in their order.  On the pnl values 10, -5, 20, -5, 0
    the summary has totalPnL 20, 2 winners, 2 losers, 1 scratch, winRate 40,
    avgWinner 15, avgLoser 5, profitFactor 3; with 23 winners among 160 rows
    the winRate is 14.37, the double product 23/160*100 lying just below
    14.375. *)
Theorem C5_summary_formulas :
  (forall (weekday_long : string -> string) (trades : list Trade.t),
     trades <> [] -> numeric_pnl trades ->
     let winners := winners_of trades in
     let losers := losers_of trades in
     let scratches := scratches_of trades in
     let s := getStats weekday_long trades in
     (List.filter pnl_gt0 trades = winners /\
      List.filter pnl_lt0 trades = losers /\
      List.filter pnl_eq0 trades = scratches /\
      (length winners + length losers + length scratches = length trades)%nat) /\
     (Summary.totalTrades s = length trades /\
      Summary.winners s = Some (length winners) /\
      Summary.losers s = Some (length losers) /\
      Summary.scratches s = Some (length scratches) /\
      Summary.winRate s
        = round2 (mul (div (Fin (of_nat (length winners)))
                           (Fin (of_nat (length trades))))
                      (Fin hundred)) /\
      Summary.avgWinner s
        = round2 (if (length winners =? 0)%nat then Fin zero
                  else div (sum_pnl winners) (Fin (of_nat (length winners)))) /\
      Summary.avgLoser s
        = round2 (if (length losers =? 0)%nat then Fin zero
                  else div (Math_abs (sum_pnl losers))
                           (Fin (of_nat (length losers)))) /\
      ge (Summary.avgLoser s) (Fin zero) = true /\
      Summary.totalPnL s = round2 (sum_pnl trades)))
  /\
  (forall weekday_long : string -> string,
     let s := getStats weekday_long (samples 1 [10; -5; 20; -5; 0]) in
     Summary.totalPnL s = Fin (of_Z 20) /\
     Summary.winners s = Some 2%nat /\
     Summary.losers s = Some 2%nat /\
     Summary.scratches s = Some 1%nat /\
     Summary.winRate s = Fin (of_Z 40) /\
     Summary.avgWinner s = Fin (of_Z 15) /\
     Summary.avgLoser s = Fin (of_Z 5) /\
     Summary.profitFactor s = Fin (of_Z 3))
  /\
  (forall weekday_long : string -> string,
     let s := getStats weekday_long (wins_and_losses 23 137) in
     Summary.totalTrades s = 160%nat /\ Summary.winners s = Some 23%nat /\
     Summary.winRate s = decimal 1437 2).
Proof.
  split; [| split].
  - intros weekday_long trades Hne Hnum. cbv zeta. unfold getStats, result_of.
    rewrite (getStats_rows_nonempty weekday_long trades Hne). cbn [fst].
    cbn [Summary.totalTrades Summary.winners Summary.losers Summary.scratches
         Summary.winRate Summary.avgWinner Summary.avgLoser Summary.totalPnL].
    rewrite filter_gt0, filter_lt0, (filter_eq0 trades Hnum).
    rewrite avgWinner_of_spec, avgLoser_of_spec, fold_add_pnl_zero.
    split; [split; [reflexivity | split; [reflexivity | split; [reflexivity |]]] |].
    + apply partition_lengths.
    + do 4 (split; [reflexivity |]). split; [reflexivity |].
      split; [reflexivity |]. split; [reflexivity |].
      split; [| reflexivity]. apply ge0_round2, avgLoser_spec_ge0.
  - intros weekday_long. cbv zeta. unfold getStats, result_of.
    rewrite getStats_rows_nonempty by discriminate. cbn [fst].
    cbn [Summary.totalTrades Summary.winners Summary.losers Summary.scratches
         Summary.winRate Summary.avgWinner Summary.avgLoser Summary.totalPnL
         Summary.profitFactor].
    repeat split; try num_eval; vm_compute; reflexivity.
  - intros weekday_long. cbv zeta. unfold getStats, result_of.
    rewrite getStats_rows_nonempty by discriminate. cbn [fst].
    cbn [Summary.totalTrades Summary.winners Summary.winRate].
    repeat split; try num_eval; vm_compute; reflexivity.
Qed.

Lemma C5_summary_formulas_witness :
  let trades := samples 1 [10; -5; 20; -5; 0] in
  let winners := winners_of trades in
  let losers := losers_of trades in
  let scratches := scratches_of trades in
  let s := getStats always_monday trades in
  (List.filter pnl_gt0 trades = winners /\
   List.filter pnl_lt0 trades = losers /\
   List.filter pnl_eq0 trades = scratches /\
   (length winners + length losers + length scratches = length trades)%nat) /\
  (Summary.totalTrades s = length trades /\
   Summary.winners s = Some (length winners) /\
   Summary.losers s = Some (length losers) /\
   Summary.scratches s = Some (length scratches) /\
   Summary.winRate s
     = round2 (mul (div (Fin (of_nat (length winners)))
                        (Fin (of_nat (length trades))))
                   (Fin hundred)) /\
   Summary.avgWinner s
     = round2 (if (length winners =? 0)%nat then Fin zero
               else div (sum_pnl winners) (Fin (of_nat (length winners)))) /\
   Summary.avgLoser s
     = round2 (if (length losers =? 0)%nat then Fin zero
               else div (Math_abs (sum_pnl losers))
                        (Fin (of_nat (length losers)))) /\
   ge (Summary.avgLoser s) (Fin zero) = true /\
   Summary.totalPnL s = round2 (sum_pnl trades)).
Proof.
  apply (proj1 C5_summary_formulas always_monday (samples 1 [10; -5; 20; -5; 0])).
  - discriminate.
  - unfold numeric_pnl. cbn [samples]. repeat (constructor; [discriminate |]). constructor.
Defined.

(** ** The profit factor and its renderings *)

Lemma on_grid_0 : on_grid 0.
Proof. exists 0. reflexivity. Qed.

(** a sum that a positive double joins is positive *)
Lemma add_gt0 (x y : num) :
  ge x (Fin zero) = true -> gt y (Fin zero) = true ->
  (forall q, y = Fin q -> on_grid (this q)) ->
  gt (add x y) (Fin zero) = true.
Proof.
  destruct x as [a | | |], y as [b | | |]; try discriminate; try reflexivity.
  rewrite ge0_Fin. unfold gt at 1. rewrite lt_Fin, zero_this. intros Ha Hb Hg.
  cbn [add]. apply Number_value_pos.
  pose proof (on_grid_pos _ (Hg b eq_refl) Hb). lra.
Qed.

Lemma add_lt0 (x y : num) :
  ge (Fin zero) x = true -> lt y (Fin zero) = true ->
  (forall q, y = Fin q -> on_grid (this q)) ->
  lt (add x y) (Fin zero) = true.
Proof.
  destruct x as [a | | |], y as [b | | |]; try discriminate; try reflexivity.
  rewrite le0_Fin, lt_Fin, zero_this. intros Ha Hb Hg.
  cbn [add]. apply Number_value_neg.
  pose proof (on_grid_neg _ (Hg b eq_refl) Hb). lra.
Qed.

Lemma stored_double_on_grid (t : Trade.t) :
  (forall q, Trade.pnl t = Some (RFin q) -> is_double q = true) ->
  forall q, pnl_value t = Fin q -> on_grid (this q).
Proof.
  intros Hd q. unfold pnl_value, to_number.
  destruct (Trade.pnl t) as [[p | |] |]; cbn [to_num]; try discriminate.
  - intros [= <-]. apply is_double_on_grid, Hd. reflexivity.
  - intros [= <-]. exists 0. reflexivity.
Qed.

Lemma sum_gt0 (l : list Trade.t) :
  forall acc : num,
  ge acc (Fin zero) = true -> l <> [] ->
  Forall (fun t => gt (pnl_value t) (Fin zero) = true /\
                   forall q, pnl_value t = Fin q -> on_grid (this q)) l ->
  gt (fold_left (fun sum t => add sum (pnl_value t)) l acc) (Fin zero) = true.
Proof.
  induction l as [| t l IH]; intros acc Hacc Hne Hl; [congruence |].
  apply Forall_cons_1 in Hl as [[Hp Hg] Hl]. cbn [fold_left].
  pose proof (add_gt0 acc (pnl_value t) Hacc Hp Hg) as H.
  destruct l as [| t' l']; [exact H |].
  apply IH; [now apply lt_ge | discriminate | exact Hl].
Qed.

Lemma sum_lt0 (l : list Trade.t) :
  forall acc : num,
  ge (Fin zero) acc = true -> l <> [] ->
  Forall (fun t => lt (pnl_value t) (Fin zero) = true /\
                   forall q, pnl_value t = Fin q -> on_grid (this q)) l ->
  lt (fold_left (fun sum t => add sum (pnl_value t)) l acc) (Fin zero) = true.
Proof.
  induction l as [| t l IH]; intros acc Hacc Hne Hl; [congruence |].
  apply Forall_cons_1 in Hl as [[Hp Hg] Hl]. cbn [fold_left].
  pose proof (add_lt0 acc (pnl_value t) Hacc Hp Hg) as H.
  destruct l as [| t' l']; [exact H |].
  apply IH; [now apply lt_ge | discriminate | exact Hl].
Qed.

Lemma stored_doubles_filter (p : Trade.t -> bool) (l : list Trade.t) :
  stored_doubles l ->
  Forall (fun t => p t = true /\
                   forall q, pnl_value t = Fin q -> on_grid (this q))
         (List.filter p l).
Proof.
  intros Hd. apply List.Forall_forall. intros t Ht.
  apply List.filter_In in Ht as [Hin Hp]. split; [exact Hp |].
  apply stored_double_on_grid.
  unfold stored_doubles in Hd. rewrite List.Forall_forall in Hd. now apply Hd.
Qed.

(** the winners of stored doubles sum to more than 0, the losers to less *)
Lemma sum_winners_gt0 (l : list Trade.t) :
  stored_doubles l -> winners_of l <> [] ->
  gt (sum_pnl (winners_of l)) (Fin zero) = true.
Proof.
  intros Hd Hne. apply sum_gt0; [reflexivity | exact Hne |].
  exact (stored_doubles_filter is_winner l Hd).
Qed.

Lemma sum_losers_lt0 (l : list Trade.t) :
  stored_doubles l -> losers_of l <> [] ->
  lt (sum_pnl (losers_of l)) (Fin zero) = true.
Proof.
  intros Hd Hne. apply sum_lt0; [reflexivity | exact Hne |].
  exact (stored_doubles_filter is_loser l Hd).
Qed.

Lemma abs_gt0 (x : num) : lt x (Fin zero) = true -> gt (Math_abs x) (Fin zero) = true.
Proof.
  destruct x as [a | | |]; try discriminate; try reflexivity.
  intros H. cbn [Math_abs]. apply lt_Fin in H as H'. rewrite zero_this in H'.
  apply is_neg_lt in H'. rewrite H'. unfold gt. apply lt_Fin.
  apply is_neg_lt in H'. rewrite zero_this. qc2q. lra.
Qed.

(** the three cases of the profit factor before rounding *)
Lemma profitFactor_of_spec (l : list Trade.t) :
  stored_doubles l ->
  profitFactor_of (totalWinnings_of (winners_of l)) (totalLosses_of (losers_of l))
  = profitFactor_spec l.
Proof.
  intros Hd. unfold profitFactor_of, profitFactor_spec, totalWinnings_of, totalLosses_of.
  rewrite !fold_add_pnl_zero.
  destruct (losers_of l) as [| t0 l0] eqn:EL.
  - replace (gt (Math_abs (sum_pnl [])) (Fin zero)) with false by reflexivity.
    destruct (winners_of l) as [| w0 W0] eqn:EW; [reflexivity |].
    rewrite <- EW, sum_winners_gt0; [reflexivity | exact Hd | rewrite EW; discriminate].
  - rewrite <- EL, abs_gt0; [reflexivity |].
    apply sum_losers_lt0; [exact Hd | rewrite EL; discriminate].
Qed.

(** C1, at the failing input.  One winning row and no loser: the summary's
    profitFactor is [Infinity]; the dashboard card shows the symbol, but the
    seventh line of [formatStats] is the numeric-to-string conversion of
    [Infinity], not the symbol. *)
Theorem C1_formatStats_prints_Infinity :
  forall (weekday_long : string -> string) (Number_toString : Qc -> string)
         (Number_toFixed : Qc -> nat -> string),
    let stats := getStats weekday_long (samples 1 [10]) in
    Summary.profitFactor stats = PInf /\
    profitFactor_text Number_toFixed stats = "∞" /\
    nth_error (formatStats_lines Number_toString stats) 6
      = Some "Profit Factor: Infinity".
Proof.
  intros weekday_long Number_toString Number_toFixed. cbv zeta.
  assert (H : Summary.profitFactor (getStats weekday_long (samples 1 [10])) = PInf).
  { unfold getStats, result_of. rewrite getStats_rows_nonempty by discriminate.
    cbn [fst Summary.profitFactor]. num_eval. }
  split; [exact H | split].
  - unfold profitFactor_text. rewrite H. reflexivity.
  - unfold formatStats_lines. cbn [nth_error app]. rewrite H. reflexivity.
Qed.

(** The three cases of the profit factor, and the dashboard card, on rows
    whose stored pnl are doubles: with losers it is the winners' sum over
    the absolute value of the losers' sum, in double arithmetic, through the
    output step; without losers but with winners it is [Infinity], which is
    no finite number and which the dashboard shows as the symbol; with
    neither it is 0.  On the pnl 23 and -40 it is 0.57: the double product
    of 23/40 and 100 is below 57.5. *)
Theorem profitFactor_cases :
  forall (weekday_long : string -> string) (Number_toFixed : Qc -> nat -> string)
         (trades : list Trade.t),
    trades <> [] -> stored_doubles trades ->
    let s := getStats weekday_long trades in
    (losers_of trades <> [] ->
       Summary.profitFactor s =
       round2 (div (sum_pnl (winners_of trades))
                   (Math_abs (sum_pnl (losers_of trades))))) /\
    (losers_of trades = [] -> winners_of trades <> [] ->
       Summary.profitFactor s = PInf /\
       (forall q, Summary.profitFactor s <> Fin q) /\
       profitFactor_text Number_toFixed s = "∞") /\
    (losers_of trades = [] -> winners_of trades = [] ->
       Summary.profitFactor s = Fin zero) /\
    Summary.profitFactor (getStats weekday_long (samples 1 [23; -40]))
      = decimal 57 2.
Proof.
  intros weekday_long Number_toFixed trades Hne Hd. cbv zeta.
  assert (H : Summary.profitFactor (getStats weekday_long trades)
              = round2 (profitFactor_spec trades)).
  { unfold getStats, result_of.
    rewrite (getStats_rows_nonempty weekday_long trades Hne).
    cbn [fst Summary.profitFactor].
    now rewrite filter_gt0, filter_lt0, profitFactor_of_spec. }
  unfold profitFactor_text. rewrite H. unfold profitFactor_spec.
  split; [| split; [| split]].
  - destruct (losers_of trades); [congruence | reflexivity].
  - intros -> Hw. destruct (winners_of trades); [congruence |].
    rewrite round2_PInf. repeat split. discriminate.
  - intros -> ->. apply round2_zero.
  - unfold getStats, result_of. rewrite getStats_rows_nonempty by discriminate.
    cbn [fst Summary.profitFactor]. num_eval.
Qed.

Lemma profitFactor_cases_witness :
  let trades := samples 1 [10; -4] in
  let s := getStats always_monday trades in
  (losers_of trades <> [] ->
     Summary.profitFactor s =
     round2 (div (sum_pnl (winners_of trades))
                 (Math_abs (sum_pnl (losers_of trades))))) /\
  (losers_of trades = [] -> winners_of trades <> [] ->
     Summary.profitFactor s = PInf /\
     (forall q, Summary.profitFactor s <> Fin q) /\
     profitFactor_text (fun _ _ => "#") s = "∞") /\
  (losers_of trades = [] -> winners_of trades = [] ->
     Summary.profitFactor s = Fin zero) /\
  Summary.profitFactor (getStats always_monday (samples 1 [23; -40]))
    = decimal 57 2.
Proof.
  apply (profitFactor_cases always_monday (fun _ _ => "#") (samples 1 [10; -4])).
  - discriminate.
  - unfold stored_doubles. cbn [samples].
    repeat (constructor; [intros q [= <-]; vm_compute; reflexivity |]). constructor.
Defined.

(** ** Rounding *)

Lemma getSetupAnalysis_lookup (trades : list Trade.t) (k : string) :
  alist_lookup k (getSetupAnalysis trades) =
  match in_setup k trades with
  | [] => None
  | _ :: _ => Some (setup_finish (setup_fold (in_setup k trades) setup_init))
  end.
Proof.
  unfold getSetupAnalysis, result_of, getSetupAnalysis_rows, bind, arr_forEach, ret.
  cbn [fst]. rewrite alist_lookup_map_values, setup_lookup_fold. cbn [alist_lookup].
  destruct (in_setup k trades); reflexivity.
Qed.

Lemma getDayOfWeekAnalysis_lookup (weekday_long : string -> string)
    (trades : list Trade.t) (d : string) :
  alist_lookup d (getDayOfWeekAnalysis weekday_long trades) =
  if includes weekdays d
  then Some (day_finish (day_fold (on_day weekday_long d trades) day_init))
  else None.
Proof.
  unfold getDayOfWeekAnalysis, result_of, getDayOfWeekAnalysis_rows, bind,
    arr_forEach, ret.
  cbn [fst]. rewrite alist_lookup_map_values, day_lookup_fold.
  destruct (includes weekdays d) eqn:E.
  - unfold includes, weekdays in E. cbn [existsb] in E.
    unfold dayStats_init. cbn [alist_lookup].
    repeat match goal with
    | |- context [String.eqb d ?s] => destruct (String.eqb d s); [reflexivity |]
    end.
    cbn in E. discriminate.
  - apply (alist_lookup_None_keys (V := DayAcc.t) d dayStats_init) in E.
    rewrite E. reflexivity.
Qed.

Lemma setup_finish_fields (b : list Trade.t) :
  let st := setup_finish (setup_fold b setup_init) in
  SetupStat.totalTrades st = length b /\
  SetupStat.winners st = length (winners_of b) /\
  SetupStat.losers st = length (losers_of b) /\
  SetupStat.totalPnL st = round2 (sum_pnl b) /\
  SetupStat.avgPnL st = round2 (mean_pnl b) /\
  SetupStat.winRate st = bucket_rate (length (winners_of b)) (length b).
Proof.
  cbv zeta.
  destruct (setup_fold_fields b setup_init) as (H1 & H2 & H3 & H4).
  cbn [setup_init SetupStat.totalTrades SetupStat.winners SetupStat.losers
       SetupStat.totalPnL Nat.add] in H1, H2, H3, H4.
  unfold setup_finish.
  cbn [SetupStat.totalTrades SetupStat.winners SetupStat.losers SetupStat.totalPnL
       SetupStat.avgPnL SetupStat.winRate].
  rewrite H1, H2, H3, H4. repeat split.
Qed.

Lemma day_finish_fields (b : list Trade.t) :
  let st := day_finish (day_fold b day_init) in
  DayStat.totalTrades st = length b /\
  DayStat.winners st = length (winners_of b) /\
  DayStat.totalPnL st = round2 (sum_pnl b) /\
  DayStat.avgPnL st =
    (if (length b =? 0)%nat then Fin zero else round2 (mean_pnl b)) /\
  DayStat.winRate st =
    (if (length b =? 0)%nat then Fin zero
     else bucket_rate (length (winners_of b)) (length b)).
Proof.
  cbv zeta.
  destruct (day_fold_fields b day_init) as (H1 & H2 & H4).
  cbn [day_init DayAcc.totalTrades DayAcc.winners DayAcc.totalPnL Nat.add]
    in H1, H2, H4.
  unfold day_finish.
  cbn [DayStat.totalTrades DayStat.winners DayStat.totalPnL DayStat.avgPnL
       DayStat.winRate].
  rewrite H1, H2, H4, length_pos_ltb.
  destruct (length b =? 0)%nat eqn:E; cbn [negb]; repeat split.
Qed.

(** C2, as stated, fails: a single row of pnl -10.125, a double.  The
    summary's totalPnL is -10.12 (the tie goes up, toward +Infinity), where
    rounding half away from zero gives -10.13. *)
Lemma C2_counterexample :
  is_double (Q2Qc (-81 # 8)) = true /\
  Summary.totalPnL
    (getStats always_monday
       [sample 1 (Q2Qc (-81 # 8)) (Some "other") "2024-01-01 10:00:00"])
    = decimal (-1012) 2 /\
  round2_half_away (Q2Qc (-81 # 8)) = Q2Qc (-1013 # 100) /\
  strict_eq (decimal (-1012) 2) (decimal (-1013) 2) = false.
Proof.
  split; [| split; [| split]].
  - vm_compute. reflexivity.
  - num_eval.
  - qc_eval.
  - vm_compute. reflexivity.
Qed.

(** C2, amended.  Every monetary field of the summary (winRate, avgWinner,
    avgLoser, profitFactor, totalPnL) and of each setup and weekday bucket
    (totalPnL, avgPnL, winRate) is its full-precision value -- computed from
    unrounded sums and quotients -- put once, at the output, through
    [Math.round(x * 100) / 100] (for the win rate of a bucket,
    [Math.round(f * 10000) / 100] on the fraction [f]) in double arithmetic:
    the product, a double, is rounded to the closest integer [n], a tie
    going to the larger one (toward +Infinity), and the field is the double
    closest to [n / 100]; an infinite value stays infinite.  So -10.125
    comes out as -10.12 and 10.125 as 10.13; and as the product is a double
    itself, 2.675 comes out as 2.68 and 0.575 as 0.57. *)
Theorem C2_rounds_half_up_at_output :
  forall (weekday_long : string -> string) (trades : list Trade.t),
    trades <> [] ->
    let s := getStats weekday_long trades in
    rounded_at_output (winRate_spec trades) (Summary.winRate s) /\
    rounded_at_output (avgWinner_spec trades) (Summary.avgWinner s) /\
    rounded_at_output (avgLoser_spec trades) (Summary.avgLoser s) /\
    rounded_at_output
      (profitFactor_of (sum_pnl (winners_of trades))
                       (Math_abs (sum_pnl (losers_of trades))))
      (Summary.profitFactor s) /\
    rounded_at_output (sum_pnl trades) (Summary.totalPnL s) /\
    (forall k st,
       alist_lookup k (Summary.setupAnalysis s) = Some st ->
       let b := in_setup k trades in
       rounded_at_output (sum_pnl b) (SetupStat.totalPnL st) /\
       rounded_at_output (mean_pnl b) (SetupStat.avgPnL st) /\
       rate_rounded_at_output
         (div (Fin (of_nat (length (winners_of b)))) (Fin (of_nat (length b))))
         (SetupStat.winRate st)) /\
    (forall d st,
       alist_lookup d (Summary.dayOfWeekAnalysis s) = Some st ->
       let b := on_day weekday_long d trades in
       rounded_at_output (sum_pnl b) (DayStat.totalPnL st) /\
       (b <> [] ->
        rounded_at_output (mean_pnl b) (DayStat.avgPnL st) /\
        rate_rounded_at_output
          (div (Fin (of_nat (length (winners_of b)))) (Fin (of_nat (length b))))
          (DayStat.winRate st))) /\
    round2 (Fin (Q2Qc (-81 # 8))) = decimal (-1012) 2 /\
    round2 (Fin (Q2Qc (81 # 8))) = decimal 1013 2 /\
    round2 (decimal 2675 3) = decimal 268 2 /\
    round2 (decimal 575 3) = decimal 57 2.
Proof.
  intros weekday_long trades Hne. cbv zeta.
  unfold getStats, result_of.
  rewrite (getStats_rows_nonempty weekday_long trades Hne). cbn [fst].
  cbn [Summary.winRate Summary.avgWinner Summary.avgLoser Summary.totalPnL
       Summary.profitFactor Summary.setupAnalysis Summary.dayOfWeekAnalysis].
  rewrite filter_gt0, filter_lt0.
  rewrite avgWinner_of_spec, avgLoser_of_spec, fold_add_pnl_zero, winRate_of_spec.
  change (totalWinnings_of (winners_of trades)) with (sum_pnl (winners_of trades)).
  change (totalLosses_of (losers_of trades))
    with (Math_abs (sum_pnl (losers_of trades))).
  repeat (split; [apply round2_rounded |]).
  split; [| split; [| split; [num_eval | split; [num_eval | split; num_eval]]]].
  - intros k st Hk. rewrite getSetupAnalysis_lookup in Hk.
    destruct (in_setup k trades) as [| t0 b0] eqn:Eb; [discriminate |].
    assert (Hst : st = setup_finish (setup_fold (t0 :: b0) setup_init)) by congruence.
    rewrite Hst.
    destruct (setup_finish_fields (t0 :: b0)) as (_ & _ & _ & -> & -> & ->).
    split; [apply round2_rounded | split; [apply round2_rounded |]].
    apply bucket_rate_rounded.
  - intros d st Hd. rewrite getDayOfWeekAnalysis_lookup in Hd.
    destruct (includes weekdays d); [| discriminate].
    assert (Hst : st = day_finish (day_fold (on_day weekday_long d trades) day_init))
      by congruence.
    rewrite Hst.
    destruct (day_finish_fields (on_day weekday_long d trades))
      as (_ & _ & -> & -> & ->).
    split; [apply round2_rounded |]. intros Hb.
    destruct (on_day weekday_long d trades) as [| t0 b0]; [congruence |].
    cbn [length Nat.eqb]. split; [apply round2_rounded | apply bucket_rate_rounded].
Qed.

Lemma C2_rounds_half_up_at_output_witness :
  let trades := samples 1 [10; -5; 20; -5; 0] in
  let s := getStats always_monday trades in
  rounded_at_output (winRate_spec trades) (Summary.winRate s) /\
  rounded_at_output (avgWinner_spec trades) (Summary.avgWinner s) /\
  rounded_at_output (avgLoser_spec trades) (Summary.avgLoser s) /\
  rounded_at_output
    (profitFactor_of (sum_pnl (winners_of trades))
                     (Math_abs (sum_pnl (losers_of trades))))
    (Summary.profitFactor s) /\
  rounded_at_output (sum_pnl trades) (Summary.totalPnL s) /\
  (forall k st,
     alist_lookup k (Summary.setupAnalysis s) = Some st ->
     let b := in_setup k trades in
     rounded_at_output (sum_pnl b) (SetupStat.totalPnL st) /\
     rounded_at_output (mean_pnl b) (SetupStat.avgPnL st) /\
     rate_rounded_at_output
       (div (Fin (of_nat (length (winners_of b)))) (Fin (of_nat (length b))))
       (SetupStat.winRate st)) /\
  (forall d st,
     alist_lookup d (Summary.dayOfWeekAnalysis s) = Some st ->
     let b := on_day always_monday d trades in
     rounded_at_output (sum_pnl b) (DayStat.totalPnL st) /\
     (b <> [] ->
      rounded_at_output (mean_pnl b) (DayStat.avgPnL st) /\
      rate_rounded_at_output
        (div (Fin (of_nat (length (winners_of b)))) (Fin (of_nat (length b))))
        (DayStat.winRate st))) /\
  round2 (Fin (Q2Qc (-81 # 8))) = decimal (-1012) 2 /\
  round2 (Fin (Q2Qc (81 # 8))) = decimal 1013 2 /\
  round2 (decimal 2675 3) = decimal 268 2 /\
  round2 (decimal 575 3) = decimal 57 2.
Proof.
  apply (C2_rounds_half_up_at_output always_monday (samples 1 [10; -5; 20; -5; 0])).
  discriminate.
Defined.

(** ** Streaks *)

Lemma getStreaks_rows_nonempty (trades : list Trade.t) :
  trades <> [] ->
  getStreaks_rows trades =
  ({| Streaks.currentStreak :=
        currentStreak_loop 0 trades None {| Streak.type := "none"; Streak.count := 0 |};
      Streaks.bestWinStreak :=
        Counters.bestWinStreak (fold_left streak_step (rev trades) counters_init);
      Streaks.worstLossStreak :=
        Counters.worstLossStreak (fold_left streak_step (rev trades) counters_init) |},
   rev trades).
Proof.
  intros Hne. destruct trades as [| t l]; [congruence |]. reflexivity.
Qed.

Lemma classify_cases (t : Trade.t) :
  (classify t = Win /\ pnl_gt0 t = true /\ pnl_lt0 t = false) \/
  (classify t = Loss /\ pnl_gt0 t = false /\ pnl_lt0 t = true) \/
  (classify t = Scratch /\ pnl_gt0 t = false /\ pnl_lt0 t = false).
Proof.
  rewrite pnl_gt0_is_winner, pnl_lt0_is_loser. unfold classify.
  destruct (class_cases t) as [(-> & -> & _) | [(-> & -> & _) | (-> & -> & _)]]; tauto.
Qed.

(** the loop past index 0 counts the rows of the class of the first row *)
Lemma currentStreak_loop_run (rest : list Trade.t) :
  forall (i n : nat) (c : outcome_class),
  currentStreak_loop (S i) rest (Some (class_name c))
    {| Streak.type := class_name c; Streak.count := n |}
  = {| Streak.type := class_name c; Streak.count := (n + run_length c rest)%nat |}.
Proof.
  induction rest as [| t rest IH]; intros i n c;
    cbn [currentStreak_loop run_length Nat.eqb].
  - f_equal. lia.
  - cbn [Streak.type Streak.count streakType_is].
    destruct (classify_cases t) as [(-> & -> & ->) | [(-> & -> & ->) | (-> & -> & ->)]];
      destruct c; cbn;
      try (etransitivity;
           [first [ apply (IH (S i) (S n) Win) | apply (IH (S i) (S n) Loss)
                  | apply (IH (S i) (S n) Scratch) ] |]; cbn);
      f_equal; lia.
Qed.

Lemma currentStreak_loop_spec (trades : list Trade.t) :
  currentStreak_loop 0 trades None {| Streak.type := "none"; Streak.count := 0 |}
  = currentStreak_spec trades.
Proof.
  destruct trades as [| t rest]; [reflexivity |].
  cbn [currentStreak_loop currentStreak_spec run_length Nat.eqb].
  assert (Hname : (if pnl_gt0 t then "win" else if pnl_lt0 t then "loss" else "scratch")
                  = class_name (classify t)).
  { destruct (classify_cases t) as [(Hc & Hg & Hl) | [(Hc & Hg & Hl) | (Hc & Hg & Hl)]];
      rewrite Hc, Hg, ?Hl; reflexivity. }
  rewrite Hname, (currentStreak_loop_run rest 0 1 (classify t)).
  replace (same_class (classify t) (classify t)) with true
    by (destruct (classify t); reflexivity).
  reflexivity.
Qed.

(** C7. On rows ordered most recent first, [currentStreak] has the class
    of the most recent row -- win (pnl > 0), loss (pnl < 0) or scratch
    (pnl = 0), three distinct classes -- and counts the rows from the most
    recent one up to, not including, the first row of another class; with
    no row it is [{type: 'none', count: 0}].  On 5, 3, -2, 4 it is
    [{type: 'win', count: 2}]; a scratch after wins ends the run, and a
    scratch first makes a scratch streak. *)
Theorem C7_currentStreak :
  (forall trades : list Trade.t,
     Streaks.currentStreak (getStreaks trades) = currentStreak_spec trades) /\
  Streaks.currentStreak (getStreaks []) = {| Streak.type := "none"; Streak.count := 0 |} /\
  Streaks.currentStreak (getStreaks (samples 1 [5; 3; -2; 4]))
    = {| Streak.type := "win"; Streak.count := 2 |} /\
  Streaks.currentStreak (getStreaks (samples 1 [5; 3; 0; 4]))
    = {| Streak.type := "win"; Streak.count := 2 |} /\
  Streaks.currentStreak (getStreaks (samples 1 [0; 0; 4; 0]))
    = {| Streak.type := "scratch"; Streak.count := 2 |} /\
  Streaks.currentStreak (getStreaks (samples 1 [-1; 0; -2]))
    = {| Streak.type := "loss"; Streak.count := 1 |}.
Proof.
  assert (H : forall trades : list Trade.t,
             Streaks.currentStreak (getStreaks trades) = currentStreak_spec trades).
  { intros trades. destruct trades as [| t rest]; [reflexivity |].
    unfold getStreaks, result_of. rewrite getStreaks_rows_nonempty by discriminate.
    cbn [fst Streaks.currentStreak]. apply currentStreak_loop_spec. }
  split; [exact H |]. rewrite !H. repeat split; vm_compute; reflexivity.
Qed.

Lemma maximum_cons (x : nat) (l : list nat) :
  maximum (x :: l) = Nat.max x (maximum l).
Proof. reflexivity. Qed.

(** the invariant of the chronological scan *)
Lemma streak_fold_maxima (chronological : list Trade.t) :
  forall c : Counters.t,
  let rc := running_counters (Counters.currentWinStreak c)
              (Counters.currentLossStreak c) chronological in
  Counters.bestWinStreak (fold_left streak_step chronological c)
    = Nat.max (Counters.bestWinStreak c) (maximum (map fst rc)) /\
  Counters.worstLossStreak (fold_left streak_step chronological c)
    = Nat.max (Counters.worstLossStreak c) (maximum (map snd rc)).
Proof.
  induction chronological as [| t rest IH]; intros c; cbv zeta.
  - cbn. split; lia.
  - destruct (IH (streak_step c t)) as [Hb Hw]. cbv zeta in Hb, Hw.
    cbn [fold_left running_counters]. rewrite Hb, Hw. clear Hb Hw IH.
    destruct (classify_cases t) as [(Hc & Hg & Hl) | [(Hc & Hg & Hl) | (Hc & Hg & Hl)]];
      rewrite Hc; unfold streak_step; rewrite Hg, ?Hl;
      cbn [map fst snd Counters.bestWinStreak Counters.worstLossStreak
           Counters.currentWinStreak Counters.currentLossStreak];
      rewrite !maximum_cons; unfold Math_max; split; lia.
Qed.

(** C8. [bestWinStreak] and [worstLossStreak] are the largest values the
    consecutive-win and consecutive-loss counters reach in one scan of the
    rows from the oldest to the newest (the reverse of the order they are
    fetched in), a win adding one to the win counter and zeroing the loss
    counter, a loss the other way round, a scratch zeroing both.  On the
    chronological pnl 1, 1, -1, 0, 1, 1, 1 they are 3 and 1. *)
Theorem C8_best_and_worst_streaks :
  (forall trades : list Trade.t,
     let rc := running_counters 0 0 (rev trades) in
     Streaks.bestWinStreak (getStreaks trades) = maximum (map fst rc) /\
     Streaks.worstLossStreak (getStreaks trades) = maximum (map snd rc)) /\
  (let trades := rev (samples 1 [1; 1; -1; 0; 1; 1; 1]) in
   Streaks.bestWinStreak (getStreaks trades) = 3%nat /\
   Streaks.worstLossStreak (getStreaks trades) = 1%nat) /\
  running_counters 0 0 (samples 1 [1; 1; -1; 0; 1; 1; 1])
    = [(1, 0); (2, 0); (0, 1); (0, 0); (1, 0); (2, 0); (3, 0)]%nat.
Proof.
  split; [| split; [split |]; vm_compute; reflexivity].
  intros trades. cbv zeta. destruct trades as [| t rest]; [split; reflexivity |].
  unfold getStreaks, result_of. rewrite getStreaks_rows_nonempty by discriminate.
  cbn [fst Streaks.bestWinStreak Streaks.worstLossStreak].
  destruct (streak_fold_maxima (rev (t :: rest)) counters_init) as [Hb Hw].
  rewrite Hb, Hw. cbn [counters_init Counters.bestWinStreak Counters.worstLossStreak
    Counters.currentWinStreak Counters.currentLossStreak]. split; lia.
Qed.

(** ** Weekday buckets *)

Lemma getDayOfWeekAnalysis_keys (weekday_long : string -> string) (trades : list Trade.t) :
  map fst (getDayOfWeekAnalysis weekday_long trades) = weekdays.
Proof.
  unfold getDayOfWeekAnalysis, result_of, getDayOfWeekAnalysis_rows, bind,
    arr_forEach, ret.
  cbn [fst]. rewrite alist_keys_map_values, day_fold_keys. reflexivity.
Qed.

Lemma getDayOfWeekAnalysis_dropped (weekday_long : string -> string)
    (trades : list Trade.t) :
  getDayOfWeekAnalysis weekday_long trades =
  getDayOfWeekAnalysis weekday_long
    (List.filter (fun t => includes weekdays (weekday_long (Trade.entry_time t))) trades).
Proof.
  unfold getDayOfWeekAnalysis, result_of, getDayOfWeekAnalysis_rows, bind,
    arr_forEach, ret.
  cbn [fst]. f_equal. apply (day_fold_dropped weekday_long trades dayStats_init).
Qed.

Lemma includes_In (l : list string) (s : string) : includes l s = true <-> In s l.
Proof.
  unfold includes. rewrite existsb_exists. split.
  - intros (x & Hx & E). apply String.eqb_eq in E. now subst.
  - intros H. exists s. split; [exact H | apply String.eqb_refl].
Qed.


(** C9. The weekday analysis has exactly the five buckets Monday to Friday,
    in this order.  A row goes to the bucket named by the weekday of its
    entry time; a row whose day name is none of the five (Saturday, Sunday)
    goes to no bucket and the analysis is what it is without that row; the
    function has no throwing path.  The trade count, winner count, total
    pnl, win rate and average pnl of a bucket are those of the rows of that
    weekday alone: the total is their sum through
    [Math.round(x * 100) / 100], the average their sum over their count
    through the same step, the win rate
    [Math.round((winners / count) * 10000) / 100], all in double arithmetic
    (57 winners among 800 rows give 7.12), and both are 0 for an empty
    bucket. *)
Theorem C9_weekday_buckets :
  (forall (weekday_long : string -> string) (trades : list Trade.t),
     let r := getDayOfWeekAnalysis weekday_long trades in
     map fst r = ["Monday"; "Tuesday"; "Wednesday"; "Thursday"; "Friday"] /\
     (forall d, In d weekdays ->
        exists st, alist_lookup d r = Some st /\
          let b := on_day weekday_long d trades in
          DayStat.totalTrades st = length b /\
          DayStat.winners st = length (winners_of b) /\
          DayStat.totalPnL st = round2 (sum_pnl b) /\
          DayStat.winRate st =
            (if (length b =? 0)%nat then Fin zero
             else div (Math_round (mul (div (Fin (of_nat (length (winners_of b))))
                                            (Fin (of_nat (length b))))
                                       (Fin (of_Z 10000))))
                      (Fin hundred)) /\
          DayStat.avgPnL st =
            (if (length b =? 0)%nat then Fin zero
             else round2 (div (sum_pnl b) (Fin (of_nat (length b)))))) /\
     (forall d, ~ In d weekdays -> alist_lookup d r = None) /\
     r = getDayOfWeekAnalysis weekday_long
           (List.filter
              (fun t => includes weekdays (weekday_long (Trade.entry_time t))) trades) /\
     (forall before after t,
        trades = before ++ t :: after ->
        weekday_long (Trade.entry_time t) = "Saturday" \/
        weekday_long (Trade.entry_time t) = "Sunday" ->
        r = getDayOfWeekAnalysis weekday_long (before ++ after)))
  /\
  (let monday := "2024-01-01 10:00:00" in
   let saturday := "2024-01-06 10:00:00" in
   let trades :=
     [sample 1 (of_Z 10) None monday; sample 2 (of_Z 99) None saturday;
      sample 3 (of_Z (-4)) None monday] in
   alist_lookup "Monday" (getDayOfWeekAnalysis first_week_2024 trades)
     = Some {| DayStat.totalTrades := 2; DayStat.totalPnL := Fin (of_Z 6);
               DayStat.winners := 1; DayStat.winRate := Fin (of_Z 50);
               DayStat.avgPnL := Fin (of_Z 3) |} /\
   alist_lookup "Saturday" (getDayOfWeekAnalysis first_week_2024 trades) = None /\
   map (fun kv => DayStat.totalTrades (snd kv))
     (getDayOfWeekAnalysis first_week_2024 trades) = [2; 0; 0; 0; 0]%nat)
  /\
  (exists st,
     alist_lookup "Monday" (getDayOfWeekAnalysis always_monday (wins_and_losses 57 743))
       = Some st /\
     DayStat.totalTrades st = 800%nat /\ DayStat.winners st = 57%nat /\
     DayStat.winRate st = decimal 712 2).
Proof.
  split; [| split].
  - intros weekday_long trades. cbv zeta. split; [| split; [| split; [| split]]].
    + apply getDayOfWeekAnalysis_keys.
    + intros d Hd. rewrite getDayOfWeekAnalysis_lookup.
      apply includes_In in Hd. rewrite Hd. eexists. split; [reflexivity |].
      destruct (day_finish_fields (on_day weekday_long d trades))
        as (H1 & H2 & H3 & H4 & H5).
      repeat split; assumption.
    + intros d Hd. rewrite getDayOfWeekAnalysis_lookup.
      destruct (includes weekdays d) eqn:E; [| reflexivity].
      apply includes_In in E. contradiction.
    + apply getDayOfWeekAnalysis_dropped.
    + intros before after t -> Hday.
      rewrite getDayOfWeekAnalysis_dropped.
      rewrite (getDayOfWeekAnalysis_dropped weekday_long (before ++ after)).
      f_equal. rewrite !List.filter_app. cbn [List.filter].
      destruct Hday as [-> | ->]; reflexivity.
  - cbv zeta. split; [| split].
    + match goal with
      | |- ?x = Some ?st =>
          assert (H : exists st', x = Some st' /\
                    DayStat.totalTrades st' = DayStat.totalTrades st /\
                    DayStat.totalPnL st' = DayStat.totalPnL st /\
                    DayStat.winners st' = DayStat.winners st /\
                    DayStat.winRate st' = DayStat.winRate st /\
                    DayStat.avgPnL st' = DayStat.avgPnL st)
      end.
      { eexists. split; [reflexivity |]. cbn [DayStat.totalTrades DayStat.totalPnL
          DayStat.winners DayStat.winRate DayStat.avgPnL].
        repeat split; try num_eval; vm_compute; reflexivity. }
      destruct H as (st' & -> & H1 & H2 & H3 & H4 & H5). destruct st'.
      cbn in H1, H2, H3, H4, H5. subst. reflexivity.
    + vm_compute. reflexivity.
    + vm_compute. reflexivity.
  - rewrite getDayOfWeekAnalysis_lookup. cbn [includes weekdays existsb String.eqb
      Ascii.eqb Bool.eqb orb].
    eexists. split; [reflexivity |].
    destruct (day_finish_fields (on_day always_monday "Monday" (wins_and_losses 57 743)))
      as (H1 & H2 & _ & _ & H5).
    rewrite H1, H2, H5. repeat split; try num_eval; vm_compute; reflexivity.
Qed.

(** ** The trade store *)

Section StoreFacts.
Variable toUpperCase : string -> string.

Lemma openTrade_resolved ticker direction instrument entryPrice size options now db
    (id : Z) (db' : Store.t) :
  openTrade toUpperCase ticker direction instrument entryPrice size options now db
    = Resolved id db' ->
  id = (Store.seq db + 1)%Z /\ Store.seq db' = id /\
  Store.is_paper_column db = true /\
  Store.is_paper_column db' = true /\
  exists row,
    Store.trades db' = <[id := row]> (Store.trades db) /\
    Trade.instrument row = instrument /\
    to_num (Trade.entry_price row) = entryPrice /\
    to_num (Trade.size row) = size /\
    to_num (Trade.cost_basis row) = costBasis_of instrument entryPrice size /\
    Trade.status row = "open" /\ Trade.pnl row = None /\
    Trade.proceeds row = None /\ Trade.exit_price row = None /\
    Trade.id row = id /\ Trade.ticker row = toUpperCase ticker /\
    constraint_violated db row = None.
Proof.
  unfold openTrade.
  destruct (Store.is_paper_column db) eqn:Ecol; cbn [negb]; [| discriminate].
  destruct (bind_number entryPrice) as [entry_price |] eqn:E1; [| discriminate].
  destruct (bind_number size) as [size' |] eqn:E2; [| discriminate].
  destruct (bind_number (costBasis_of instrument entryPrice size)) as [cost_basis |] eqn:E3;
    [| discriminate].
  destruct (constraint_violated db _) eqn:Ec; [discriminate |].
  intros H. injection H as <- <-. cbn [Store.seq Store.trades Store.is_paper_column].
  split; [reflexivity | split; [reflexivity | split; [reflexivity | split; [reflexivity |]]]].
  eexists. split; [reflexivity |].
  cbn [Trade.instrument Trade.entry_price Trade.size Trade.cost_basis Trade.status
       Trade.pnl Trade.proceeds Trade.exit_price Trade.id Trade.ticker].
  apply bind_number_Some in E1, E2, E3.
  repeat split; try assumption.
Qed.

Lemma same_but_annotations_refl (t : Trade.t) : same_but_annotations t t.
Proof. reflexivity. Qed.

Lemma same_but_annotations_trans (a b c : Trade.t) :
  same_but_annotations a b -> same_but_annotations b c -> same_but_annotations a c.
Proof. unfold same_but_annotations. congruence. Qed.

Lemma same_but_annotations_result (a b : Trade.t) :
  same_but_annotations a b -> same_result a b.
Proof.
  unfold same_but_annotations, same_result, noted_row. intros H.
  injection H as. repeat split; assumption.
Qed.

Lemma exec_wf (c : command) (now : string) (db : Store.t) :
  store_wf db -> store_wf (exec toUpperCase c now db).
Proof.
  intros Hwf. destruct c as [ticker direction instrument entryPrice size options
    | id exitPrice options | id notes lessons | narratives watchlist]; cbn [exec].
  - destruct (openTrade _ _ _ _ _ _ _ _ _) as [id db' |] eqn:E; [| exact Hwf].
    apply openTrade_resolved in E as (-> & Hseq & _ & _ & row & Htr & _).
    intros k Hk. rewrite Htr in Hk. rewrite Hseq.
    destruct (decide (k = Store.seq db + 1)%Z) as [-> | Hne]; [lia |].
    rewrite lookup_insert_ne in Hk by congruence. apply Hwf in Hk. lia.
  - unfold closeTrade. destruct (Store.trades db !! id) as [trade |] eqn:E; [| exact Hwf].
    intros k Hk. cbn [Store.trades Store.seq] in *.
    destruct (decide (k = id)) as [-> | Hne].
    + apply Hwf. rewrite E. eauto.
    + rewrite lookup_insert_ne in Hk by congruence. now apply Hwf.
  - unfold updateTradeNotes. intros k Hk. cbn [Store.trades Store.seq] in *.
    apply lookup_alter_is_Some in Hk. now apply Hwf.
  - exact Hwf.
Qed.

Lemma run_wf (history : list (command * string)) :
  forall db, store_wf db -> store_wf (run toUpperCase history db).
Proof.
  unfold run. induction history as [| [c now] history IH]; intros db Hwf;
    cbn [fold_left fst snd]; [exact Hwf |].
  apply IH, exec_wf, Hwf.
Qed.

(** a command that is not [closeTrade] on the key leaves the row of the key
    as it was, but for its annotations *)
Lemma exec_keeps (c : command) (now : string) (db : Store.t) (id : Z) (t : Trade.t) :
  store_wf db -> Store.trades db !! id = Some t -> closes id c = false ->
  exists t', Store.trades (exec toUpperCase c now db) !! id = Some t' /\
             same_but_annotations t t'.
Proof.
  intros Hwf Ht Hc. destruct c as [ticker direction instrument entryPrice size options
    | id' exitPrice options | id' notes lessons | narratives watchlist]; cbn [exec].
  - destruct (openTrade _ _ _ _ _ _ _ _ _) as [id' db' |] eqn:E.
    + apply openTrade_resolved in E as (-> & _ & _ & _ & row & Htr & _).
      exists t. split; [| reflexivity]. rewrite Htr.
      assert (id <= Store.seq db)%Z by (apply Hwf; rewrite Ht; eauto).
      rewrite lookup_insert_ne by lia. exact Ht.
    + exists t. split; [exact Ht | reflexivity].
  - cbn [closes] in Hc. apply Z.eqb_neq in Hc. unfold closeTrade.
    destruct (Store.trades db !! id') as [trade |].
    + exists t. split; [| reflexivity]. cbn [Store.trades].
      rewrite lookup_insert_ne by congruence. exact Ht.
    + exists t. split; [exact Ht | reflexivity].
  - unfold updateTradeNotes. cbn [Store.trades].
    destruct (decide (id' = id)) as [-> | Hne].
    + exists (noted_row t notes lessons). split; [| reflexivity].
      rewrite lookup_alter_eq, Ht. reflexivity.
    + exists t. split; [| reflexivity]. rewrite lookup_alter_ne by congruence. exact Ht.
  - exists t. split; [exact Ht | reflexivity].
Qed.

Lemma run_keeps (history : list (command * string)) :
  forall (db : Store.t) (id : Z) (t : Trade.t),
  store_wf db -> Store.trades db !! id = Some t ->
  forallb (fun cn => negb (closes id (fst cn))) history = true ->
  exists t', Store.trades (run toUpperCase history db) !! id = Some t' /\
             same_but_annotations t t'.
Proof.
  unfold run. induction history as [| [c now] history IH]; intros db id t Hwf Ht Hall;
    cbn [fold_left fst snd forallb] in *.
  - exists t. split; [exact Ht | reflexivity].
  - apply andb_prop in Hall as [Hc Hall]. apply negb_true_iff in Hc.
    destruct (exec_keeps c now db id t Hwf Ht Hc) as (t1 & Ht1 & Hsame1).
    destruct (IH (exec toUpperCase c now db) id t1 (exec_wf c now db Hwf) Ht1 Hall)
      as (t' & Ht' & Hsame').
    exists t'. split; [exact Ht' |]. eapply same_but_annotations_trans; eassumption.
Qed.

End StoreFacts.

Lemma empty_store_wf : store_wf empty_store.
Proof. intros k [x Hx]. cbn in Hx. rewrite lookup_empty in Hx. discriminate. Qed.

(** C3, as stated, fails: a trade closed at 12 with pnl 1 is closed again
    at 15; the second close succeeds and the pnl of the closed trade
    becomes 4. *)
Lemma C3_counterexample :
  status_at closed_once 1 = Some "closed" /\
  pnl_at closed_once 1 = Some (1 # 1)%Q /\
  pnl_at (exec toUpperCase_ascii (CloseTrade 1 (Fin (of_Z 15)) no_close_options)
            "2024-01-01 11:00:00" closed_once) 1
    = Some (4 # 1)%Q.
Proof. repeat split; vm_compute; reflexivity. Qed.

(** C3, amended.  In a store whose keys AUTOINCREMENT handed out, the pnl,
    proceeds, exit price and status of a closed trade -- every column but
    notes and lessons -- are the same after any history of commands
    ([openTrade], [updateTradeNotes], [closeTrade] on other keys, operations
    on the other tables) that does not run [closeTrade] on the key of that
    trade.  [closeTrade] does not look at the status: on a trade that is
    closed already it resolves and writes the exit price, the proceeds and
    the pnl of the new exit price, with pnl = proceeds - cost_basis and
    status closed (a value that is [NaN] being stored as NULL). *)
Theorem C3_closed_result_kept_unless_closed_again :
  (forall (toUpperCase : string -> string) (db : Store.t) (id : Z) (t : Trade.t)
          (history : list (command * string)),
     store_wf db ->
     Store.trades db !! id = Some t ->
     Trade.status t = "closed" ->
     forallb (fun cn => negb (closes id (fst cn))) history = true ->
     exists t',
       Store.trades (run toUpperCase history db) !! id = Some t' /\
       Trade.pnl t' = Trade.pnl t /\
       Trade.proceeds t' = Trade.proceeds t /\
       Trade.exit_price t' = Trade.exit_price t /\
       Trade.status t' = "closed" /\
       same_but_annotations t t')
  /\
  (forall (db : Store.t) (id : Z) (t : Trade.t) (exitPrice : num)
          (options : CloseOptions.t) (now : string),
     Store.trades db !! id = Some t ->
     Trade.status t = "closed" ->
     exists db' t',
       closeTrade id exitPrice options now db = Resolved tt db' /\
       Store.trades db' !! id = Some t' /\
       Trade.exit_price t' = bind_number exitPrice /\
       Trade.proceeds t' = bind_number (proceeds_of t exitPrice) /\
       Trade.pnl t'
         = bind_number (sub (proceeds_of t exitPrice) (to_num (Trade.cost_basis t))) /\
       Trade.status t' = "closed").
Proof.
  split.
  - intros toUpperCase db id t history Hwf Ht Hst Hall.
    destruct (run_keeps toUpperCase history db id t Hwf Ht Hall) as (t' & Ht' & Hsame).
    exists t'. destruct (same_but_annotations_result t t' Hsame) as (H1 & H2 & H3 & H4).
    repeat split; try congruence; assumption.
  - intros db id t exitPrice options now Ht Hst.
    unfold closeTrade. rewrite Ht. eexists. eexists. split; [reflexivity |].
    cbn [Store.trades]. rewrite lookup_insert_eq. repeat split.
Qed.

Lemma closed_once_wf : store_wf closed_once.
Proof. apply run_wf, empty_store_wf. Qed.

Lemma C3_closed_result_kept_unless_closed_again_witness :
  exists t',
    Store.trades (run toUpperCase_ascii later_history closed_once) !! 1%Z = Some t' /\
    Trade.pnl t' = Trade.pnl closed_once_row /\
    Trade.proceeds t' = Trade.proceeds closed_once_row /\
    Trade.exit_price t' = Trade.exit_price closed_once_row /\
    Trade.status t' = "closed" /\
    same_but_annotations closed_once_row t'.
Proof.
  apply (proj1 C3_closed_result_kept_unless_closed_again toUpperCase_ascii
           closed_once 1%Z closed_once_row later_history).
  - apply closed_once_wf.
  - vm_compute. reflexivity.
  - vm_compute. reflexivity.
  - reflexivity.
Defined.

Lemma multiplier_other (instrument : string) :
  instrument <> "shares" -> multiplier instrument = Fin (of_Z 100).
Proof.
  intros Hne. unfold multiplier, includes. cbn [existsb].
  destruct (String.eqb instrument "shares") eqn:E; [| reflexivity].
  apply String.eqb_eq in E. contradiction.
Qed.

Lemma same_but_annotations_basis (a b : Trade.t) :
  same_but_annotations a b ->
  Trade.instrument a = Trade.instrument b /\ Trade.size a = Trade.size b /\
  Trade.cost_basis a = Trade.cost_basis b.
Proof.
  unfold same_but_annotations, noted_row. intros H.
  injection H as. repeat split; assumption.
Qed.

(** C10. A trade that [openTrade] stores has cost basis entry price x size
    x multiplier plus a commission of 1, the multiplier being 1 for
    ['shares'] and 100 for any other instrument.  Closing it, at once or
    after any history that does not close it, gives proceeds exit price x
    size x multiplier, without a fee, and the pnl recorded is these
    proceeds less that cost basis: one commission of 1 is charged, at the
    entry.  The products, the sum and the difference are those of double
    arithmetic, in the order the code writes them, and a result that is
    [NaN] is stored as NULL: three shares bought at 1.1 and sold at 1.2
    have cost basis 4.300000000000001, proceeds 3.5999999999999996 and pnl
    -0.7000000000000011. *)
Theorem C10_one_commission_per_trade :
  (forall (toUpperCase : string -> string) (ticker direction instrument : string)
          (entryPrice size : num) (options : OpenOptions.t) (now : string)
          (db : Store.t) (id : Z) (db1 : Store.t),
     store_wf db ->
     openTrade toUpperCase ticker direction instrument entryPrice size options now db
       = Resolved id db1 ->
     exists row,
       Store.trades db1 !! id = Some row /\
       to_num (Trade.cost_basis row)
         = add (mul (mul entryPrice size) (multiplier instrument)) (Fin (of_Z 1)) /\
       forall (history : list (command * string)) (exitPrice : num)
              (closing : CloseOptions.t) (later : string),
       forallb (fun cn => negb (closes id (fst cn))) history = true ->
       exists db2 row2,
         closeTrade id exitPrice closing later (run toUpperCase history db1)
           = Resolved tt db2 /\
         Store.trades db2 !! id = Some row2 /\
         Trade.proceeds row2
           = bind_number (mul (mul exitPrice size) (multiplier instrument)) /\
         Trade.pnl row2
           = bind_number
               (sub (mul (mul exitPrice size) (multiplier instrument))
                    (add (mul (mul entryPrice size) (multiplier instrument))
                         (Fin (of_Z 1)))))
  /\ multiplier "shares" = Fin (of_Z 1)
  /\ (forall instrument, instrument <> "shares" -> multiplier instrument = Fin (of_Z 100))
  /\ COMMISSION = Fin (of_Z 1)
  /\ (exists row,
        Store.trades three_shares !! 1%Z = Some row /\
        to_num (Trade.cost_basis row) = decimal 4300000000000001 15 /\
        to_number (Trade.proceeds row) = decimal 35999999999999996 16 /\
        to_number (Trade.pnl row) = decimal (-7000000000000011) 16).
Proof.
  split; [| split; [reflexivity | split; [exact multiplier_other | split; [reflexivity |]]]].
  - intros toUpperCase ticker direction instrument entryPrice size options now db
      id db1 Hwf Hopen.
    assert (Hwf1 : store_wf db1).
    { pose proof (exec_wf toUpperCase
                    (OpenTrade ticker direction instrument entryPrice size options)
                    now db Hwf) as H. cbn [exec] in H. now rewrite Hopen in H. }
    apply openTrade_resolved in Hopen
      as (-> & _ & _ & _ & row & Htr & Hi & _ & Hs & Hc & _).
    assert (Hrow : Store.trades db1 !! (Store.seq db + 1)%Z = Some row)
      by (rewrite Htr; apply lookup_insert_eq).
    exists row. split; [exact Hrow |].
    split; [exact Hc |]. intros history exitPrice closing later Hall.
    destruct (run_keeps toUpperCase history db1 _ row Hwf1 Hrow Hall)
      as (row1 & Hrow1 & Hsame).
    apply same_but_annotations_basis in Hsame as (Hi1 & Hs1 & Hc1).
    unfold closeTrade. rewrite Hrow1.
    eexists. eexists. split; [reflexivity |]. cbn [Store.trades].
    rewrite lookup_insert_eq. split; [reflexivity |].
    cbn [closed_row Trade.proceeds Trade.pnl]. unfold proceeds_of.
    rewrite <- Hi1, <- Hs1, <- Hc1, Hi, Hs, Hc. split; reflexivity.
  - eexists. split; [vm_compute; reflexivity |].
    cbn [Trade.cost_basis Trade.proceeds Trade.pnl to_number to_num].
    repeat split; num_eval.
Qed.

Lemma C10_one_commission_per_trade_witness :
  exists row,
    Store.trades
      (exec toUpperCase_ascii
            (OpenTrade "qqq" "long" "calls" (Fin (of_Z 2)) (Fin (of_Z 3)) no_options)
            "2024-01-02 09:30:00" closed_once) !! 2%Z = Some row /\
    to_num (Trade.cost_basis row)
      = add (mul (mul (Fin (of_Z 2)) (Fin (of_Z 3))) (multiplier "calls"))
            (Fin (of_Z 1)) /\
    forall (history : list (command * string)) (exitPrice : num)
           (closing : CloseOptions.t) (later : string),
    forallb (fun cn => negb (closes 2 (fst cn))) history = true ->
    exists db2 row2,
      closeTrade 2 exitPrice closing later
        (run toUpperCase_ascii history
           (exec toUpperCase_ascii
                 (OpenTrade "qqq" "long" "calls" (Fin (of_Z 2)) (Fin (of_Z 3))
                    no_options)
                 "2024-01-02 09:30:00" closed_once)) = Resolved tt db2 /\
      Store.trades db2 !! 2%Z = Some row2 /\
      Trade.proceeds row2
        = bind_number (mul (mul exitPrice (Fin (of_Z 3))) (multiplier "calls")) /\
      Trade.pnl row2
        = bind_number
            (sub (mul (mul exitPrice (Fin (of_Z 3))) (multiplier "calls"))
                 (add (mul (mul (Fin (of_Z 2)) (Fin (of_Z 3))) (multiplier "calls"))
                      (Fin (of_Z 1)))).
Proof.
  apply (proj1 C10_one_commission_per_trade toUpperCase_ascii
           "qqq" "long" "calls" (Fin (of_Z 2)) (Fin (of_Z 3)) no_options
           "2024-01-02 09:30:00" closed_once 2%Z
           (exec toUpperCase_ascii
                 (OpenTrade "qqq" "long" "calls" (Fin (of_Z 2)) (Fin (of_Z 3))
                    no_options)
                 "2024-01-02 09:30:00" closed_once)).
  - apply closed_once_wf.
  - vm_compute. reflexivity.
Defined.

(** ** Mutation of the fetched array *)

Lemma getStats_rows_array (weekday_long : string -> string) (a : list Trade.t) :
  array_after (getStats_rows weekday_long) a = a.
Proof.
  unfold array_after. destruct a as [| t l]; [reflexivity |].
  now rewrite getStats_rows_nonempty.
Qed.

Lemma getStreaks_rows_array (a : list Trade.t) :
  array_after getStreaks_rows a = rev a.
Proof.
  unfold array_after. destruct a as [| t l]; [reflexivity |].
  now rewrite getStreaks_rows_nonempty.
Qed.

(** C4, as stated, fails: [getStreaks] on the rows 5, -2 (most recent
    first).  The array it scanned is left in the opposite order, and the
    scan run again on that array object reports a losing streak where the
    first reported a winning one. *)
Lemma C4_counterexample :
  map Trade.id (samples 1 [5; -2]) = [1; 2]%Z /\
  map Trade.id (array_after getStreaks_rows (samples 1 [5; -2])) = [2; 1]%Z /\
  Streaks.currentStreak (result_of getStreaks_rows (samples 1 [5; -2]))
    = {| Streak.type := "win"; Streak.count := 1 |} /\
  Streaks.currentStreak
    (result_of getStreaks_rows (array_after getStreaks_rows (samples 1 [5; -2])))
    = {| Streak.type := "loss"; Streak.count := 1 |}.
Proof. repeat split; vm_compute; reflexivity. Qed.

(** C4, amended.  The summary, the setup grouping and the weekday grouping
    leave the array of rows they work on as it was -- the rows and their
    order -- and return the same value when run again on it.  The streak
    operation leaves the rows themselves unchanged but reverses their order
    in the array, in place: the array it leaves is the reverse of the one it
    got, so that a second run on the same array object restores the first
    order. *)
Theorem C4_engine_effects_on_the_array :
  forall weekday_long : string -> string,
    (leaves_array (getStats_rows weekday_long) /\
     repeatable (getStats_rows weekday_long)) /\
    (leaves_array getSetupAnalysis_rows /\ repeatable getSetupAnalysis_rows) /\
    (leaves_array (getDayOfWeekAnalysis_rows weekday_long) /\
     repeatable (getDayOfWeekAnalysis_rows weekday_long)) /\
    (forall a : list Trade.t,
       array_after getStreaks_rows a = rev a /\
       Permutation a (array_after getStreaks_rows a) /\
       array_after getStreaks_rows (array_after getStreaks_rows a) = a).
Proof.
  intros weekday_long.
  assert (H1 : leaves_array (getStats_rows weekday_long))
    by (intros a; apply getStats_rows_array).
  assert (H2 : leaves_array getSetupAnalysis_rows) by (intros a; reflexivity).
  assert (H3 : leaves_array (getDayOfWeekAnalysis_rows weekday_long))
    by (intros a; reflexivity).
  split; [split; [exact H1 |] | split; [split; [exact H2 |] | split; [split; [exact H3 |] |]]].
  - intros a. now rewrite H1.
  - intros a. now rewrite H2.
  - intros a. now rewrite H3.
  - intros a. split; [| split].
    + apply getStreaks_rows_array.
    + rewrite getStreaks_rows_array. apply Permutation_rev.
    + rewrite !getStreaks_rows_array. apply rev_involutive.
Qed.

(** ** Best and worst trade *)

Lemma ge_of_lt_false (a b : Trade.t) :
  lt (pnl_value a) (pnl_value b) = false -> ge (pnl_value a) (pnl_value b) = true.
Proof.
  intros H. rewrite ge_negb_lt by apply pnl_value_not_NaN. now rewrite H.
Qed.

Lemma lt_false_of_ge (a b : Trade.t) :
  ge (pnl_value a) (pnl_value b) = true -> lt (pnl_value a) (pnl_value b) = false.
Proof.
  rewrite ge_negb_lt by apply pnl_value_not_NaN. now rewrite negb_true_iff.
Qed.

Lemma pick_best_first_maximum (l : list Trade.t) :
  l <> [] ->
  exists before b after,
    l = before ++ b :: after /\
    fold_left pick_best l None = Some b /\
    (forall t, In t before -> lt (pnl_value t) (pnl_value b) = true) /\
    (forall t, In t after -> ge (pnl_value b) (pnl_value t) = true).
Proof.
  induction l as [| t l IH] using rev_ind; [congruence |]. intros _.
  rewrite fold_left_app. cbn [fold_left].
  destruct l as [| t0 l0].
  - exists [], t, []. cbn. repeat split; intros ? [].
  - destruct IH as (before & b & after & Hl & Hfold & Hbefore & Hafter); [discriminate |].
    rewrite Hfold. cbn [pick_best].
    change (gt (to_number (Trade.pnl t)) (to_number (Trade.pnl b)))
      with (lt (pnl_value b) (pnl_value t)).
    destruct (lt (pnl_value b) (pnl_value t)) eqn:Hgt.
    + exists (t0 :: l0), t, []. split; [reflexivity | split; [reflexivity | split]].
      * intros x Hx. rewrite Hl in Hx. apply in_app_or in Hx as [Hx | [<- | Hx]].
        -- apply Hbefore in Hx. exact (lt_trans _ _ _ Hx Hgt).
        -- exact Hgt.
        -- apply Hafter, lt_false_of_ge in Hx.
           exact (lt_false_lt_trans _ _ _ (pnl_value_not_NaN x) Hx Hgt).
      * intros ? [].
    + exists before, b, (after ++ [t]). rewrite Hl.
      split; [now rewrite <- app_assoc | split; [reflexivity | split; [exact Hbefore |]]].
      intros x Hx. apply in_app_or in Hx as [Hx | [<- | []]]; [now apply Hafter |].
      now apply ge_of_lt_false.
Qed.

Lemma pick_worst_first_minimum (l : list Trade.t) :
  l <> [] ->
  exists before w after,
    l = before ++ w :: after /\
    fold_left pick_worst l None = Some w /\
    (forall t, In t before -> lt (pnl_value w) (pnl_value t) = true) /\
    (forall t, In t after -> ge (pnl_value t) (pnl_value w) = true).
Proof.
  induction l as [| t l IH] using rev_ind; [congruence |]. intros _.
  rewrite fold_left_app. cbn [fold_left].
  destruct l as [| t0 l0].
  - exists [], t, []. cbn. repeat split; intros ? [].
  - destruct IH as (before & w & after & Hl & Hfold & Hbefore & Hafter); [discriminate |].
    rewrite Hfold. cbn [pick_worst].
    change (lt (to_number (Trade.pnl t)) (to_number (Trade.pnl w)))
      with (lt (pnl_value t) (pnl_value w)).
    destruct (lt (pnl_value t) (pnl_value w)) eqn:Hlt.
    + exists (t0 :: l0), t, []. split; [reflexivity | split; [reflexivity | split]].
      * intros x Hx. rewrite Hl in Hx. apply in_app_or in Hx as [Hx | [<- | Hx]].
        -- apply Hbefore in Hx. exact (lt_trans _ _ _ Hlt Hx).
        -- exact Hlt.
        -- apply Hafter, lt_false_of_ge in Hx.
           exact (lt_lt_false_trans _ _ _ (pnl_value_not_NaN x) Hlt Hx).
      * intros ? [].
    + exists before, w, (after ++ [t]). rewrite Hl.
      split; [now rewrite <- app_assoc | split; [reflexivity | split; [exact Hbefore |]]].
      intros x Hx. apply in_app_or in Hx as [Hx | [<- | []]]; [now apply Hafter |].
      now apply ge_of_lt_false.
Qed.

(** [bestTrade] refers to a row of the largest pnl, the first such row in
    the order of the array; [worstTrade] to the first row of the smallest
    pnl (a null pnl compares as 0). *)
Theorem best_and_worst_trade_first_extremum :
  forall (weekday_long : string -> string) (trades : list Trade.t),
    trades <> [] ->
    let s := getStats weekday_long trades in
    (exists before b after,
       trades = before ++ b :: after /\
       Summary.bestTrade s = Some (trade_ref b) /\
       (forall t, In t before -> lt (pnl_value t) (pnl_value b) = true) /\
       (forall t, In t after -> ge (pnl_value b) (pnl_value t) = true)) /\
    (exists before w after,
       trades = before ++ w :: after /\
       Summary.worstTrade s = Some (trade_ref w) /\
       (forall t, In t before -> lt (pnl_value w) (pnl_value t) = true) /\
       (forall t, In t after -> ge (pnl_value t) (pnl_value w) = true)).
Proof.
  intros weekday_long trades Hne. cbv zeta. unfold getStats, result_of.
  rewrite (getStats_rows_nonempty weekday_long trades Hne).
  cbn [fst Summary.bestTrade Summary.worstTrade]. split.
  - destruct (pick_best_first_maximum trades Hne) as (before & b & after & H1 & H2 & H3 & H4).
    exists before, b, after. rewrite H2. repeat split; assumption.
  - destruct (pick_worst_first_minimum trades Hne) as (before & w & after & H1 & H2 & H3 & H4).
    exists before, w, after. rewrite H2. repeat split; assumption.
Qed.

Lemma best_and_worst_trade_first_extremum_witness :
  let trades := samples 1 [10; -5; 20; -5; 20] in
  let s := getStats always_monday trades in
  (exists before b after,
     trades = before ++ b :: after /\
     Summary.bestTrade s = Some (trade_ref b) /\
     (forall t, In t before -> lt (pnl_value t) (pnl_value b) = true) /\
     (forall t, In t after -> ge (pnl_value b) (pnl_value t) = true)) /\
  (exists before w after,
     trades = before ++ w :: after /\
     Summary.worstTrade s = Some (trade_ref w) /\
     (forall t, In t before -> lt (pnl_value w) (pnl_value t) = true) /\
     (forall t, In t after -> ge (pnl_value t) (pnl_value w) = true)).
Proof.
  apply (best_and_worst_trade_first_extremum always_monday
           (samples 1 [10; -5; 20; -5; 20])).
  discriminate.
Defined.

(** ** The buckets account for the rows *)

Section SumOver.
Context {V : Type}.
Implicit Types (l : list (string * V)) (g : V -> nat).

Lemma sum_over_app g l k (v : V) :
  sum_over g (l ++ [(k, v)]) = (sum_over g l + g v)%nat.
Proof.
  unfold sum_over. induction l as [| [k' v'] l IH]; cbn [app fold_right snd]; [lia |].
  rewrite IH. lia.
Qed.

Lemma sum_over_alter g (f : V -> V) k l (v : V) :
  alist_lookup k l = Some v ->
  (sum_over g (alist_alter f k l) + g v = sum_over g l + g (f v))%nat.
Proof.
  unfold sum_over.
  induction l as [| [k' v'] l IH]; cbn [alist_lookup alist_alter]; [discriminate |].
  destruct (String.eqb k k'); cbn [fold_right snd].
  - intros [= ->]. lia.
  - intros H. specialize (IH H). lia.
Qed.

Lemma sum_over_map_values {W : Type} (g : V -> nat) (h : W -> nat) (f : V -> W) l :
  (forall v, h (f v) = g v) ->
  sum_over h (alist_map_values f l) = sum_over g l.
Proof.
  intros Hf. unfold sum_over, alist_map_values.
  induction l as [| [k v] l IH]; cbn [map fold_right fst snd]; [reflexivity |].
  now rewrite IH, Hf.
Qed.

End SumOver.

Lemma setup_step_sum (g : SetupStat.t -> nat) (d : Trade.t -> nat)
    (acc : list (string * SetupStat.t)) (t : Trade.t) :
  g setup_init = 0%nat ->
  (forall s, g (setup_count t s) = (g s + d t)%nat) ->
  sum_over g (setup_step acc t) = (sum_over g acc + d t)%nat.
Proof.
  intros Hinit Hcount. unfold setup_step.
  destruct (alist_lookup (setup_key t) acc) as [v |] eqn:E.
  - pose proof (sum_over_alter g (setup_count t) _ _ _ E) as H.
    rewrite Hcount in H. lia.
  - assert (E' : alist_lookup (setup_key t) (acc ++ [(setup_key t, setup_init)])
                 = Some setup_init).
    { rewrite alist_lookup_app, E, String.eqb_refl. reflexivity. }
    pose proof (sum_over_alter g (setup_count t) _ _ _ E') as H.
    rewrite Hcount, sum_over_app, Hinit in H. lia.
Qed.

Lemma setup_fold_sum (g : SetupStat.t -> nat) (d : Trade.t -> nat) (ts : list Trade.t) :
  g setup_init = 0%nat ->
  (forall t s, g (setup_count t s) = (g s + d t)%nat) ->
  forall acc,
  sum_over g (fold_left setup_step ts acc)
  = (sum_over g acc + fold_right (fun t n => (d t + n)%nat) 0%nat ts)%nat.
Proof.
  intros Hinit Hcount. induction ts as [| t ts IH]; intros acc; cbn [fold_left fold_right].
  - lia.
  - rewrite IH, (setup_step_sum g d acc t Hinit (Hcount t)). lia.
Qed.

Lemma count_filter (p : Trade.t -> bool) (ts : list Trade.t) :
  fold_right (fun t n => ((if p t then 1 else 0) + n)%nat) 0%nat ts
  = length (List.filter p ts).
Proof.
  induction ts as [| t ts IH]; cbn [fold_right List.filter]; [reflexivity |].
  rewrite IH. destruct (p t); reflexivity.
Qed.

Lemma count_all (ts : list Trade.t) :
  fold_right (fun (_ : Trade.t) n => (1 + n)%nat) 0%nat ts = length ts.
Proof. induction ts as [| t ts IH]; cbn [fold_right length]; [reflexivity | now rewrite IH]. Qed.

Lemma setup_step_keys (acc : list (string * SetupStat.t)) (t : Trade.t) :
  map fst (setup_step acc t) =
  if includes (map fst acc) (setup_key t) then map fst acc
  else map fst acc ++ [setup_key t].
Proof.
  unfold setup_step. rewrite alist_keys_alter.
  destruct (alist_lookup (setup_key t) acc) eqn:E.
  - destruct (includes (map fst acc) (setup_key t)) eqn:E'; [reflexivity |].
    apply alist_lookup_None_keys in E'. congruence.
  - apply alist_lookup_None_keys in E. rewrite E, map_app. reflexivity.
Qed.

Lemma setup_fold_keys (ts : list Trade.t) :
  forall acc,
  map fst (fold_left setup_step ts acc)
  = map fst acc ++ first_occurrences (map fst acc) (map setup_key ts).
Proof.
  induction ts as [| t ts IH]; intros acc; cbn [fold_left map first_occurrences].
  - now rewrite app_nil_r.
  - rewrite IH, setup_step_keys.
    destruct (includes (map fst acc) (setup_key t)); [reflexivity |].
    now rewrite <- app_assoc.
Qed.

Lemma includes_false_not_In (l : list string) (s : string) :
  includes l s = false -> ~ In s l.
Proof. intros H Hin. apply includes_In in Hin. congruence. Qed.

Lemma first_occurrences_NoDup (keys : list string) :
  forall seen, NoDup seen -> NoDup (seen ++ first_occurrences seen keys).
Proof.
  induction keys as [| k keys IH]; intros seen Hseen; cbn [first_occurrences].
  - now rewrite app_nil_r.
  - destruct (includes seen k) eqn:E; [now apply IH |].
    change (k :: first_occurrences (seen ++ [k]) keys)
      with ([k] ++ first_occurrences (seen ++ [k]) keys).
    rewrite app_assoc. apply IH.
    apply NoDup_app. split; [exact Hseen | split].
    + intros x Hx Hx'. apply list_elem_of_In in Hx, Hx'.
      destruct Hx' as [<- | []]. now apply includes_false_not_In in E.
    + apply NoDup_singleton.
Qed.

Lemma first_occurrences_In (keys : list string) :
  forall seen k, In k (first_occurrences seen keys) -> In k keys.
Proof.
  induction keys as [| k0 keys IH]; intros seen k; cbn [first_occurrences]; [tauto |].
  destruct (includes seen k0).
  - intros H. right. eapply IH, H.
  - intros [-> | H]; [now left | right; eapply IH, H].
Qed.

Lemma setup_key_nonempty (t : Trade.t) : setup_key t <> "".
Proof.
  unfold setup_key. destruct (Trade.setup_type t) as [s |]; [| discriminate].
  destruct (String.eqb s "") eqn:E; [discriminate |].
  intros ->. discriminate.
Qed.

(** The setup analysis has one bucket per distinct setup, in the order the
    setups first occur, a row without setup counting as ['other'] (no
    bucket has an empty name); every row is counted in exactly one bucket:
    the trade counts of the buckets add up to the number of rows, their
    winner and loser counts to the numbers of winners and losers. *)
Theorem setup_buckets_account_for_every_row :
  forall trades : list Trade.t,
    let r := getSetupAnalysis trades in
    map fst r = first_occurrences [] (map setup_key trades) /\
    NoDup (map fst r) /\
    (forall k, In k (map fst r) -> k <> "") /\
    sum_over SetupStat.totalTrades r = length trades /\
    sum_over SetupStat.winners r = length (winners_of trades) /\
    sum_over SetupStat.losers r = length (losers_of trades).
Proof.
  intros trades. cbv zeta.
  assert (Hkeys : map fst (getSetupAnalysis trades)
                  = first_occurrences [] (map setup_key trades)).
  { unfold getSetupAnalysis, result_of, getSetupAnalysis_rows, bind, arr_forEach, ret.
    cbn [fst]. rewrite alist_keys_map_values, setup_fold_keys. reflexivity. }
  split; [exact Hkeys | split; [| split]].
  - rewrite Hkeys. apply (first_occurrences_NoDup (map setup_key trades) []), NoDup_nil_2.
  - intros k Hk. rewrite Hkeys in Hk. apply first_occurrences_In in Hk.
    apply in_map_iff in Hk as (t & <- & _). apply setup_key_nonempty.
  - unfold getSetupAnalysis, result_of, getSetupAnalysis_rows, bind, arr_forEach, ret.
    cbn [fst]. split; [| split].
    + rewrite (sum_over_map_values SetupStat.totalTrades) by reflexivity.
      rewrite (setup_fold_sum SetupStat.totalTrades (fun _ => 1%nat));
        [exact (count_all trades) | reflexivity | intros t s; cbn; lia].
    + rewrite (sum_over_map_values SetupStat.winners) by reflexivity.
      rewrite (setup_fold_sum SetupStat.winners
                 (fun t => if is_winner t then 1%nat else 0%nat));
        [exact (count_filter _ trades) | reflexivity |].
      intros t s. cbn [setup_count SetupStat.winners].
      rewrite pnl_gt0_is_winner. destruct (is_winner t); lia.
    + rewrite (sum_over_map_values SetupStat.losers) by reflexivity.
      rewrite (setup_fold_sum SetupStat.losers
                 (fun t => if is_loser t then 1%nat else 0%nat));
        [exact (count_filter _ trades) | reflexivity |].
      intros t s. cbn [setup_count SetupStat.losers].
      rewrite pnl_gt0_is_winner, pnl_lt0_is_loser.
      destruct (class_cases t) as [(-> & -> & _) | [(-> & -> & _) | (-> & -> & _)]]; lia.
Qed.

Section DayAccounting.
Variable weekday_long : string -> string.

Lemma day_step_sum (g : DayAcc.t -> nat) (d : Trade.t -> nat)
    (acc : list (string * DayAcc.t)) (t : Trade.t) :
  (forall s, g (day_count t s) = (g s + d t)%nat) ->
  sum_over g (day_step weekday_long acc t)
  = (sum_over g acc
     + if includes (map fst acc) (weekday_long (Trade.entry_time t)) then d t else 0)%nat.
Proof.
  intros Hcount. unfold day_step.
  destruct (alist_lookup (weekday_long (Trade.entry_time t)) acc) as [v |] eqn:E.
  - destruct (includes (map fst acc) _) eqn:E'.
    + pose proof (sum_over_alter g (day_count t) _ _ _ E) as H.
      rewrite Hcount in H. lia.
    + apply alist_lookup_None_keys in E'. congruence.
  - apply alist_lookup_None_keys in E. rewrite E. lia.
Qed.

Lemma day_fold_sum (g : DayAcc.t -> nat) (d : Trade.t -> nat) (ts : list Trade.t) :
  (forall t s, g (day_count t s) = (g s + d t)%nat) ->
  forall acc,
  sum_over g (fold_left (day_step weekday_long) ts acc)
  = (sum_over g acc
     + fold_right (fun t n => (d t + n)%nat) 0%nat
         (List.filter (fun t => includes (map fst acc) (weekday_long (Trade.entry_time t)))
            ts))%nat.
Proof.
  intros Hcount. induction ts as [| t ts IH]; intros acc;
    cbn [fold_left fold_right List.filter].
  - lia.
  - rewrite IH, (day_step_sum g d acc t (Hcount t)), day_step_keys.
    destruct (includes (map fst acc) (weekday_long (Trade.entry_time t)));
      cbn [fold_right]; lia.
Qed.

End DayAccounting.

(** The weekday buckets count exactly the rows whose entry day is Monday to
    Friday: their trade counts add up to the number of such rows, their
    winner counts to the number of winners among them, and together with the
    rows of the other days they make up all rows. *)
Theorem weekday_buckets_account_for_weekday_rows :
  forall (weekday_long : string -> string) (trades : list Trade.t),
    let r := getDayOfWeekAnalysis weekday_long trades in
    let kept := List.filter (on_weekday weekday_long) trades in
    let dropped := List.filter (fun t => negb (on_weekday weekday_long t)) trades in
    sum_over DayStat.totalTrades r = length kept /\
    sum_over DayStat.winners r = length (winners_of kept) /\
    (sum_over DayStat.totalTrades r + length dropped = length trades)%nat.
Proof.
  intros weekday_long trades. cbv zeta.
  assert (H1 : sum_over DayStat.totalTrades (getDayOfWeekAnalysis weekday_long trades)
               = length (List.filter (on_weekday weekday_long) trades)).
  { unfold getDayOfWeekAnalysis, result_of, getDayOfWeekAnalysis_rows, bind,
      arr_forEach, ret. cbn [fst].
    rewrite (sum_over_map_values DayAcc.totalTrades) by reflexivity.
    rewrite (day_fold_sum weekday_long DayAcc.totalTrades (fun _ => 1%nat)).
    - exact (count_all _).
    - intros t s. cbn. lia. }
  split; [exact H1 | split].
  - unfold getDayOfWeekAnalysis, result_of, getDayOfWeekAnalysis_rows, bind,
      arr_forEach, ret. cbn [fst].
    rewrite (sum_over_map_values DayAcc.winners) by reflexivity.
    rewrite (day_fold_sum weekday_long DayAcc.winners
               (fun t => if is_winner t then 1%nat else 0%nat)).
    + unfold winners_of. rewrite <- count_filter. reflexivity.
    + intros t s. cbn [day_count DayAcc.winners].
      rewrite pnl_gt0_is_winner. destruct (is_winner t); lia.
  - rewrite H1. apply List.filter_length.
Qed.

(** ** Relations between the streaks *)

Lemma getStreaks_current (trades : list Trade.t) :
  Streaks.currentStreak (getStreaks trades) = currentStreak_spec trades.
Proof.
  destruct trades as [| t rest]; [reflexivity |].
  unfold getStreaks, result_of. rewrite getStreaks_rows_nonempty by discriminate.
  cbn [fst Streaks.currentStreak]. apply currentStreak_loop_spec.
Qed.

Lemma getStreaks_counters (trades : list Trade.t) :
  Streaks.bestWinStreak (getStreaks trades)
    = Counters.bestWinStreak (fold_left streak_step (rev trades) counters_init) /\
  Streaks.worstLossStreak (getStreaks trades)
    = Counters.worstLossStreak (fold_left streak_step (rev trades) counters_init).
Proof.
  destruct trades as [| t rest]; [split; reflexivity |].
  unfold getStreaks, result_of. rewrite getStreaks_rows_nonempty by discriminate.
  split; reflexivity.
Qed.

Lemma chronological_last (t : Trade.t) (l : list Trade.t) (c : Counters.t) :
  fold_left streak_step (rev (t :: l)) c
  = streak_step (fold_left streak_step (rev l) c) t.
Proof. cbn [rev]. rewrite fold_left_app. reflexivity. Qed.

(** what the scan knows once it has reached the most recent row *)
Lemma chronological_scan_invariant (l : list Trade.t) :
  let c := fold_left streak_step (rev l) counters_init in
  Counters.currentWinStreak c = run_length Win l /\
  Counters.currentLossStreak c = run_length Loss l /\
  (Counters.currentWinStreak c <= Counters.bestWinStreak c)%nat /\
  (Counters.currentLossStreak c <= Counters.worstLossStreak c)%nat /\
  (Counters.bestWinStreak c <= length (winners_of l))%nat /\
  (Counters.worstLossStreak c <= length (losers_of l))%nat /\
  (winners_of l <> [] -> (1 <= Counters.bestWinStreak c)%nat) /\
  (losers_of l <> [] -> (1 <= Counters.worstLossStreak c)%nat).
Proof.
  cbv zeta. induction l as [| t l IH].
  - cbn. repeat split; try lia; congruence.
  - rewrite chronological_last.
    destruct IH as (H1 & H2 & H3 & H4 & H5 & H6 & H7 & H8).
    set (c := fold_left streak_step (rev l) counters_init) in *. clearbody c.
    unfold winners_of, losers_of in *. cbn [run_length List.filter].
    pose proof (class_cases t) as Hcls.
    unfold streak_step, Math_max.
    destruct (classify_cases t) as [(Hc & Hg & Hl) | [(Hc & Hg & Hl) | (Hc & Hg & Hl)]];
      rewrite Hc, Hg, ?Hl;
      rewrite pnl_gt0_is_winner in Hg; rewrite pnl_lt0_is_loser in Hl;
      rewrite Hg, Hl;
      cbn [same_class Counters.bestWinStreak Counters.worstLossStreak
           Counters.currentWinStreak Counters.currentLossStreak length];
      repeat split; try lia; try (intros _; lia); auto.
Qed.

Lemma run_length_le (c : outcome_class) (l : list Trade.t) :
  (run_length c l <= length l)%nat.
Proof.
  induction l as [| t l IH]; cbn [run_length length]; [lia |].
  destruct (same_class (classify t) c); lia.
Qed.

Lemma class_name_win (c : outcome_class) : class_name c = "win" -> c = Win.
Proof. destruct c; cbn; congruence. Qed.

Lemma class_name_loss (c : outcome_class) : class_name c = "loss" -> c = Loss.
Proof. destruct c; cbn; congruence. Qed.

(** The streaks fit together: a current winning streak is never longer than
    the best winning streak, a current losing streak never longer than the
    worst losing streak; the current streak counts at least one row when
    there is one and at most all rows; the best winning streak is at most
    the number of winners and is 0 exactly when there is no winner, and the
    same for the worst losing streak and the losers. *)
Theorem streaks_fit_together :
  forall trades : list Trade.t,
    let s := getStreaks trades in
    let current := Streaks.currentStreak s in
    (Streak.type current = "win" ->
       (Streak.count current <= Streaks.bestWinStreak s)%nat) /\
    (Streak.type current = "loss" ->
       (Streak.count current <= Streaks.worstLossStreak s)%nat) /\
    (Streak.count current <= length trades)%nat /\
    (Streak.count current = 0%nat <-> trades = []) /\
    (Streaks.bestWinStreak s <= length (winners_of trades))%nat /\
    (Streaks.worstLossStreak s <= length (losers_of trades))%nat /\
    (Streaks.bestWinStreak s = 0%nat <-> winners_of trades = []) /\
    (Streaks.worstLossStreak s = 0%nat <-> losers_of trades = []).
Proof.
  intros trades. cbv zeta. rewrite getStreaks_current.
  destruct (getStreaks_counters trades) as [-> ->].
  destruct (chronological_scan_invariant trades) as (H1 & H2 & H3 & H4 & H5 & H6 & H7 & H8).
  set (c := fold_left streak_step (rev trades) counters_init) in *. clearbody c.
  split; [| split; [| split; [| split; [| split; [| split; [| split]]]]]].
  - destruct trades as [| t rest]; cbn [currentStreak_spec Streak.type Streak.count];
      [discriminate |].
    intros Hw. apply class_name_win in Hw. rewrite Hw, <- H1. exact H3.
  - destruct trades as [| t rest]; cbn [currentStreak_spec Streak.type Streak.count];
      [discriminate |].
    intros Hw. apply class_name_loss in Hw. rewrite Hw, <- H2. exact H4.
  - destruct trades as [| t rest]; cbn [currentStreak_spec Streak.count]; [lia |].
    apply run_length_le.
  - destruct trades as [| t rest]; cbn [currentStreak_spec Streak.count run_length];
      [tauto |].
    replace (same_class (classify t) (classify t)) with true
      by (destruct (classify t); reflexivity).
    split; [lia | discriminate].
  - exact H5.
  - exact H6.
  - split.
    + intros H0. destruct (winners_of trades) eqn:E; [reflexivity |].
      assert (1 <= Counters.bestWinStreak c)%nat by (apply H7; discriminate). lia.
    + intros E. rewrite E in H5. cbn in H5. lia.
  - split.
    + intros H0. destruct (losers_of trades) eqn:E; [reflexivity |].
      assert (1 <= Counters.worstLossStreak c)%nat by (apply H8; discriminate). lia.
    + intros E. rewrite E in H6. cbn in H6. lia.
Qed.

(** ** The order of the setup analysis *)


Section SortFacts.
Context {A : Type}.
Variable strictly_before : A -> A -> bool.
Variable key : A -> num.
Variable ordered : A -> Prop.

(** on the elements at hand the keys are numbers and the comparator is the
    descending order of the keys *)
Hypothesis ordered_key : forall x, ordered x -> is_NaN (key x) = false.
Hypothesis before_key :
  forall x y, ordered x -> ordered y -> strictly_before x y = lt (key y) (key x).










End SortFacts.








(** ** Invariants of the trade store *)

Section StoreInvariant.

Variable toUpperCase : string -> string.

Lemma openTrade_row ticker direction instrument entryPrice size options now db
    (id : Z) (db' : Store.t) :
  openTrade toUpperCase ticker direction instrument entryPrice size options now db
    = Resolved id db' ->
  exists row,
    Store.trades db' = <[id := row]> (Store.trades db) /\
    Store.seq db' = id /\ id = (Store.seq db + 1)%Z /\
    Store.narratives db' = Store.narratives db /\
    Store.watchlist db' = Store.watchlist db /\
    Store.is_paper_column db' = Store.is_paper_column db /\
    row_ok id row /\
    Trade.ticker row = toUpperCase ticker /\
    Trade.direction row = direction /\ Trade.instrument row = instrument /\
    to_num (Trade.entry_price row) = entryPrice /\ to_num (Trade.size row) = size /\
    Trade.is_paper row = Some (if OpenOptions.paper options then 1 else 0)%Z /\
    Trade.status row = "open" /\ Trade.pnl row = None.
Proof.
  unfold openTrade.
  destruct (Store.is_paper_column db) eqn:Ecol; cbn [negb]; [| discriminate].
  destruct (bind_number entryPrice) as [entry_price |] eqn:E1; [| discriminate].
  destruct (bind_number size) as [size' |] eqn:E2; [| discriminate].
  destruct (bind_number (costBasis_of instrument entryPrice size)) as [cost_basis |] eqn:E3;
    [| discriminate].
  apply bind_number_Some in E1, E2, E3.
  set (row := Trade.mk _ _ _ _ _ _ _ _ _ _ _ _ _ _ _ _ _ _ _ _ _ _ _ _).
  unfold constraint_violated.
  destruct (includes valid_directions (Trade.direction row)) eqn:Ed; [| discriminate].
  destruct (includes valid_instruments (Trade.instrument row)) eqn:Ei; [| discriminate].
  cbn [negb].
  destruct (Trade.setup_type row) as [s |] eqn:Es.
  2: { exfalso. subst row. cbn [Trade.setup_type] in Es.
       unfold string_or in Es. destruct (OpenOptions.setup options) as [s |];
         [destruct (String.eqb s "") |]; discriminate. }
  destruct (includes valid_setups s) eqn:Ev; [| discriminate]. cbn [negb].
  destruct (includes valid_statuses (Trade.status row)); [| discriminate]. cbn [negb].
  destruct (refers_into _ _); [| discriminate]. cbn [negb].
  destruct (refers_into _ _); [| discriminate]. cbn [negb].
  intros H. injection H as <- <-. exists row. cbn [Store.trades Store.seq
    Store.narratives Store.watchlist Store.is_paper_column].
  assert (Hrow : row_ok (Store.seq db + 1) row).
  { unfold row_ok. split; [reflexivity |]. split; [exact Ed |]. split; [exact Ei |].
    split; [exists s; split; assumption |].
    split; [subst row; cbn [Trade.is_paper]; destruct (OpenOptions.paper options); auto |].
    split.
    - subst row. cbn [Trade.cost_basis Trade.instrument Trade.entry_price Trade.size].
      rewrite E1, E2. exact E3.
    - left. repeat split. }
  repeat split; try reflexivity; try assumption;
    unfold row_ok in Hrow; tauto.
Qed.

Lemma closed_row_ok (k : Z) (t : Trade.t) (exitPrice : num)
    (options : CloseOptions.t) (now : string) :
  row_ok k t -> row_ok k (closed_row t exitPrice options now).
Proof.
  intros (H1 & H2 & H3 & H4 & H5 & H6 & _). unfold row_ok.
  cbn [closed_row Trade.id Trade.direction Trade.instrument Trade.setup_type
       Trade.is_paper Trade.cost_basis Trade.entry_price Trade.size Trade.status
       Trade.pnl Trade.proceeds Trade.exit_price].
  repeat split; try assumption.
  right. split; [reflexivity |]. exists exitPrice. repeat split.
Qed.

Lemma noted_row_ok (k : Z) (t : Trade.t) (notes lessons : option string) :
  row_ok k t -> row_ok k (noted_row t notes lessons).
Proof. intros H. exact H. Qed.

Lemma exec_ok (c : command) (now : string) (db : Store.t) :
  store_ok db -> store_ok (exec toUpperCase c now db).
Proof.
  intros (Hseq & Hcol & Hrows).
  destruct c as [ticker direction instrument entryPrice size options
    | id exitPrice options | id notes lessons | narratives watchlist]; cbn [exec].
  - destruct (openTrade _ _ _ _ _ _ _ _ _) as [id db' |] eqn:E;
      [| split; [| split]; assumption].
    apply openTrade_row in E as (row & Htr & Hs & Hid & _ & _ & Hc & Hok & _).
    split; [lia |]. split; [congruence |].
    intros k r Hk. rewrite Htr in Hk. rewrite Hs.
    destruct (decide (k = id)) as [-> | Hne].
    + rewrite lookup_insert_eq in Hk. injection Hk as <-. split; [lia | exact Hok].
    + rewrite lookup_insert_ne in Hk by congruence.
      destruct (Hrows k r Hk) as [Hb Hr]. split; [lia | exact Hr].
  - unfold closeTrade. destruct (Store.trades db !! id) as [trade |] eqn:E;
      [| split; [| split]; assumption].
    split; [exact Hseq |]. split; [exact Hcol |].
    intros k r Hk. cbn [Store.trades Store.seq] in *.
    destruct (decide (k = id)) as [-> | Hne].
    + rewrite lookup_insert_eq in Hk. injection Hk as <-.
      destruct (Hrows id trade E) as [Hb Hr]. split; [exact Hb |].
      now apply closed_row_ok.
    + rewrite lookup_insert_ne in Hk by congruence. now apply Hrows.
  - unfold updateTradeNotes. split; [exact Hseq |]. split; [exact Hcol |].
    intros k r Hk. cbn [Store.trades Store.seq] in *.
    destruct (decide (id = k)) as [-> | Hne].
    + rewrite lookup_alter_eq in Hk.
      destruct (Store.trades db !! k) as [t |] eqn:E; [| discriminate].
      cbn in Hk. injection Hk as <-. destruct (Hrows k t E) as [Hb Hr].
      split; [exact Hb | exact Hr].
    + rewrite lookup_alter_ne in Hk by exact Hne. now apply Hrows.
  - split; [exact Hseq |]. split; [exact Hcol | exact Hrows].
Qed.

Lemma run_ok (history : list (command * string)) :
  forall db, store_ok db -> store_ok (run toUpperCase history db).
Proof.
  unfold run. induction history as [| [c now] history IH]; intros db Hok;
    cbn [fold_left fst snd]; [exact Hok |].
  apply IH, exec_ok, Hok.
Qed.

(** without the column [is_paper] no trade is ever stored *)
Lemma exec_without_column (c : command) (now : string) (db : Store.t) :
  Store.is_paper_column db = false -> Store.trades db = ∅ ->
  Store.is_paper_column (exec toUpperCase c now db) = false /\
  Store.trades (exec toUpperCase c now db) = ∅.
Proof.
  intros Hcol Hempty.
  destruct c as [ticker direction instrument entryPrice size options
    | id exitPrice options | id notes lessons | narratives watchlist]; cbn [exec].
  - unfold openTrade. rewrite Hcol. cbn [negb]. split; assumption.
  - unfold closeTrade. rewrite Hempty, lookup_empty. split; assumption.
  - unfold updateTradeNotes. cbn [Store.trades Store.is_paper_column].
    rewrite Hempty. split; [exact Hcol |]. apply map_eq. intros k.
    destruct (decide (id = k)) as [-> | Hne].
    + rewrite lookup_alter_eq, lookup_empty. reflexivity.
    + rewrite lookup_alter_ne by exact Hne. reflexivity.
  - split; assumption.
Qed.

Lemma run_without_column (history : list (command * string)) :
  forall db, Store.is_paper_column db = false -> Store.trades db = ∅ ->
  Store.trades (run toUpperCase history db) = ∅.
Proof.
  unfold run. induction history as [| [c now] history IH]; intros db Hcol Hempty;
    cbn [fold_left fst snd]; [exact Hempty |].
  destruct (exec_without_column c now db Hcol Hempty) as [H1 H2].
  now apply IH.
Qed.

End StoreInvariant.

Lemma empty_store_ok : store_ok empty_store.
Proof.
  split; [cbn; lia |]. split; [reflexivity |].
  intros k row H. cbn in H. rewrite lookup_empty in H. discriminate.
Qed.

Lemma store_ok_wf (db : Store.t) : store_ok db -> store_wf db.
Proof. intros (_ & _ & H) k [row Hk]. apply H in Hk. lia. Qed.

(** In every store the operations build from an empty one whose table has
    the column [is_paper], each row is stored under its own id, between 1
    and the AUTOINCREMENT counter; its direction, instrument and setup are
    among the allowed values; its cost basis is the double
    entry price x size x multiplier + 1; and it is either open with null
    pnl, proceeds and exit price, or closed with what [closeTrade] computed
    from some exit price, a [NaN] stored as NULL.  So an open trade has a
    null pnl, and a row whose pnl is not null is closed, with proceeds that
    are not null and pnl the double proceeds - cost_basis.  A closed row can
    have a null pnl: closing at an exit price that is [NaN] writes one. *)
Theorem store_rows_are_well_formed :
  forall (toUpperCase : string -> string) (history : list (command * string))
         (k : Z) (row : Trade.t),
    let db := run toUpperCase history empty_store in
    (Store.trades db !! k = Some row ->
       (1 <= k <= Store.seq db)%Z /\ row_ok k row /\
       (Trade.status row = "open" -> Trade.pnl row = None) /\
       (forall pnl : real, Trade.pnl row = Some pnl ->
          Trade.status row = "closed" /\
          exists proceeds : real,
            Trade.proceeds row = Some proceeds /\
            to_num pnl = sub (to_num proceeds) (to_num (Trade.cost_basis row)))) /\
    ((Store.seq db < k)%Z \/ (k < 1)%Z -> Store.trades db !! k = None) /\
    (exists closed : Trade.t,
       Store.trades closed_at_NaN !! 1%Z = Some closed /\
       Trade.status closed = "closed" /\ Trade.exit_price closed = None /\
       Trade.proceeds closed = None /\ Trade.pnl closed = None).
Proof.
  intros toUpperCase history k row. cbv zeta.
  destruct (run_ok toUpperCase history empty_store empty_store_ok) as (Hseq & _ & Hrows).
  split; [| split].
  - intros Hk. destruct (Hrows k row Hk) as [Hb Hr]. split; [exact Hb |].
    split; [exact Hr |].
    destruct Hr as (_ & _ & _ & _ & _ & _ & [(Hs & Hp & _) | (Hs & x & _ & Hpr & Hp)]).
    + split; [intros _; exact Hp |]. intros pnl Hpnl. congruence.
    + split; [rewrite Hs; discriminate |]. intros pnl Hpnl.
      split; [exact Hs |]. rewrite Hp in Hpnl. apply bind_number_Some in Hpnl.
      unfold pnl_of in Hpnl.
      destruct (bind_number (proceeds_of row x)) as [proceeds |] eqn:E.
      * exists proceeds. split; [exact Hpr |].
        apply bind_number_Some in E. rewrite E. exact Hpnl.
      * exfalso. apply bind_number_None in E. rewrite E in Hpnl.
        cbn in Hpnl. destruct pnl; discriminate.
  - intros Hout.
    destruct (Store.trades (run toUpperCase history empty_store) !! k) as [r |] eqn:E;
      [| reflexivity].
    destruct (Hrows k r E) as [Hb _]. lia.
  - eexists. split; [vm_compute; reflexivity |]. repeat split.
Qed.

Lemma openTrade_resolves_iff toUpperCase ticker direction instrument entryPrice size
    options now db :
  Store.is_paper_column db = true ->
  (exists id db',
     openTrade toUpperCase ticker direction instrument entryPrice size options now db
     = Resolved id db')
  <-> open_arguments_valid direction instrument entryPrice size options db = true.
Proof.
  intros Hcol. unfold openTrade, open_arguments_valid. rewrite Hcol. cbn [negb].
  destruct entryPrice as [e | | |];
    try (split; [intros (? & ? & ?); discriminate | discriminate]);
  (destruct size as [n | | |];
    try (split; [intros (? & ? & ?); discriminate | discriminate]));
  cbn [bind_number is_NaN negb andb];
  (destruct (costBasis_of instrument _ _) as [c | | |];
    try (split; [intros (? & ? & ?); discriminate | discriminate]));
  cbn [bind_number is_NaN negb andb];
  unfold constraint_violated;
  cbn [Trade.direction Trade.instrument Trade.setup_type Trade.status
       Trade.narrative_id Trade.watchlist_id];
  (destruct (includes valid_directions direction); cbn [negb andb];
    [| split; [intros (? & ? & ?); discriminate | discriminate]]);
  (destruct (includes valid_instruments instrument); cbn [negb andb];
    [| split; [intros (? & ? & ?); discriminate | discriminate]]);
  (destruct (match string_or (OpenOptions.setup options) (Some "other") with
            | Some s => includes valid_setups s
            | None => true
            end); cbn [negb andb];
    [| split; [intros (? & ? & ?); discriminate | discriminate]]);
  replace (includes valid_statuses "open") with true by reflexivity; cbn [negb];
  (destruct (refers_into (Store.narratives db) _); cbn [negb andb];
    [| split; [intros (? & ? & ?); discriminate | discriminate]]);
  (destruct (refers_into (Store.watchlist db) _); cbn [negb andb];
    [| split; [intros (? & ? & ?); discriminate | discriminate]]);
  (split; [reflexivity | intros _; eauto]).
Qed.

Lemma openTrade_rejection toUpperCase ticker direction instrument entryPrice size
    options now db (e : error) :
  Store.is_paper_column db = true ->
  openTrade toUpperCase ticker direction instrument entryPrice size options now db
    = Rejected e ->
  exists c, e = ConstraintFailed c.
Proof.
  intros Hcol. unfold openTrade. rewrite Hcol. cbn [negb].
  destruct (bind_number entryPrice); [| intros H; injection H as <-; eauto].
  destruct (bind_number size); [| intros H; injection H as <-; eauto].
  destruct (bind_number (costBasis_of instrument entryPrice size));
    [| intros H; injection H as <-; eauto].
  destruct (constraint_violated db _) as [c |]; [| discriminate].
  intros H. injection H as <-. eauto.
Qed.

(** On a database whose table [trades] has the column [is_paper],
    [openTrade] resolves exactly when none of entry price, size and cost
    basis is [NaN], direction, instrument and setup are among the allowed
    values and the narrative and watchlist it refers to exist; otherwise it
    rejects with a constraint error.  When it resolves, the id it returns is
    one more than the counter, larger than every key of the table; the table
    gains exactly one row, under that id, open, with null pnl and the ticker
    as [toUpperCase] gives it, and every other row is as it was.  On the
    database [initTablesSync] creates in a new file the table has no column
    [is_paper]: every [openTrade] is rejected for the missing column and the
    table stays empty. *)
Theorem openTrade_adds_one_fresh_row :
  forall (toUpperCase : string -> string) (history : list (command * string))
         (ticker direction instrument : string) (entryPrice size : num)
         (options : OpenOptions.t) (now : string),
    (let db := run toUpperCase history empty_store in
     match openTrade toUpperCase ticker direction instrument entryPrice size
             options now db with
     | Resolved id db' =>
         open_arguments_valid direction instrument entryPrice size options db = true /\
         id = (Store.seq db + 1)%Z /\
         (forall k, is_Some (Store.trades db !! k) -> (k < id)%Z) /\
         Store.trades db !! id = None /\
         (forall k, k <> id -> Store.trades db' !! k = Store.trades db !! k) /\
         base.size (Store.trades db') = S (base.size (Store.trades db)) /\
         exists row,
           Store.trades db' !! id = Some row /\
           Trade.status row = "open" /\ Trade.pnl row = None /\
           Trade.ticker row = toUpperCase ticker /\
           to_num (Trade.entry_price row) = entryPrice /\
           to_num (Trade.size row) = size /\
           to_num (Trade.cost_basis row) = costBasis_of instrument entryPrice size
     | Rejected e =>
         open_arguments_valid direction instrument entryPrice size options db = false /\
         exists c, e = ConstraintFailed c
     end) /\
    (let db := run toUpperCase history fresh_store in
     Store.trades db = ∅ /\
     openTrade toUpperCase ticker direction instrument entryPrice size options now db
     = Rejected (NoSuchColumn "is_paper")).
Proof.
  intros toUpperCase history ticker direction instrument entryPrice size options now.
  split; cbv zeta.
  - pose proof (run_ok toUpperCase history empty_store empty_store_ok)
      as (Hseq & Hcol & Hrows).
    set (db := run toUpperCase history empty_store) in *. clearbody db.
    pose proof (openTrade_resolves_iff toUpperCase ticker direction instrument
                  entryPrice size options now db Hcol) as Hiff.
    destruct (openTrade toUpperCase ticker direction instrument entryPrice size
                options now db) as [id db' | e] eqn:E.
    + assert (Hvalid : open_arguments_valid direction instrument entryPrice size
                         options db = true) by (apply Hiff; eauto).
      apply openTrade_row in E
        as (row & Htr & Hs & Hid & _ & _ & _ & Hok & Hticker & _ & Hinstr & Hentry
            & Hsize & _ & Hopen & Hpnl).
      assert (Hfresh : forall k, is_Some (Store.trades db !! k) -> (k < id)%Z).
      { intros k [r Hk]. apply Hrows in Hk. lia. }
      assert (Hnone : Store.trades db !! id = None).
      { destruct (Store.trades db !! id) as [r |] eqn:Ek; [| reflexivity].
        assert (id < id)%Z by (apply Hfresh; rewrite Ek; eauto). lia. }
      split; [exact Hvalid | split; [exact Hid | split; [exact Hfresh |]]].
      split; [exact Hnone | split; [| split]].
      * intros k Hne. rewrite Htr. now apply lookup_insert_ne.
      * rewrite Htr. now apply map_size_insert_None.
      * exists row. rewrite Htr, lookup_insert_eq.
        destruct Hok as (_ & _ & _ & _ & _ & Hcost & _).
        rewrite Hinstr, Hentry, Hsize in Hcost.
        repeat split; assumption.
    + split.
      * destruct (open_arguments_valid direction instrument entryPrice size options db)
          eqn:Ev; [| reflexivity].
        destruct (proj2 Hiff eq_refl) as (id & db' & Hr). discriminate.
      * exact (openTrade_rejection _ _ _ _ _ _ _ _ _ _ Hcol E).
  - assert (Hcol : Store.is_paper_column (run toUpperCase history fresh_store) = false).
    { assert (H : forall h db, Store.is_paper_column db = false -> Store.trades db = ∅ ->
                  Store.is_paper_column (run toUpperCase h db) = false).
      { unfold run. induction h as [| [c t] h IH]; intros db H1 H2;
          cbn [fold_left fst snd]; [exact H1 |].
        destruct (exec_without_column toUpperCase c t db H1 H2) as [H3 H4].
        now apply IH. }
      now apply H. }
    split.
    + now apply run_without_column.
    + unfold openTrade. rewrite Hcol. reflexivity.
Qed.


(** [closeTrade] rejects exactly when no row has the key, with the error
    that names the key.  When it resolves it writes the row of that key
    only: every other row, the counter and the set of keys are as they
    were, and of the row itself the entry side (ticker, direction,
    instrument, entry price, size, cost basis, setup) is kept.  A close
    without notes keeps the notes of the trade; a close without lessons sets
    the lessons to null, whatever lessons were recorded before. *)
Theorem closeTrade_writes_one_row :
  forall (db : Store.t) (id : Z) (exitPrice : num) (options : CloseOptions.t)
         (now : string),
    match closeTrade id exitPrice options now db with
    | Resolved _ db' =>
        exists t t',
          Store.trades db !! id = Some t /\
          Store.trades db' !! id = Some t' /\
          (forall k, k <> id -> Store.trades db' !! k = Store.trades db !! k) /\
          dom (Store.trades db') = dom (Store.trades db) /\
          Store.seq db' = Store.seq db /\
          (Trade.ticker t' = Trade.ticker t /\ Trade.direction t' = Trade.direction t /\
           Trade.instrument t' = Trade.instrument t /\
           Trade.entry_price t' = Trade.entry_price t /\ Trade.size t' = Trade.size t /\
           Trade.cost_basis t' = Trade.cost_basis t /\
           Trade.setup_type t' = Trade.setup_type t /\
           Trade.is_paper t' = Trade.is_paper t) /\
          Trade.status t' = "closed" /\ Trade.exit_time t' = Some now /\
          (CloseOptions.notes options = None -> Trade.notes t' = Trade.notes t) /\
          (CloseOptions.lessons options = None -> Trade.lessons t' = None)
    | Rejected e => e = TradeNotFound id /\ Store.trades db !! id = None
    end.
Proof.
  intros db id exitPrice options now. unfold closeTrade.
  destruct (Store.trades db !! id) as [t |] eqn:E; [| split; reflexivity].
  exists t, (closed_row t exitPrice options now). cbn [Store.trades Store.seq].
  split; [reflexivity | split; [apply lookup_insert_eq | split; [| split; [| split]]]].
  - intros k Hne. now apply lookup_insert_ne.
  - apply dom_insert_lookup_L. rewrite E. eauto.
  - reflexivity.
  - cbn [closed_row Trade.ticker Trade.direction Trade.instrument Trade.entry_price
         Trade.size Trade.cost_basis Trade.setup_type Trade.is_paper Trade.status
         Trade.exit_time Trade.notes Trade.lessons].
    repeat split; try reflexivity; intros Hnone; rewrite Hnone; reflexivity.
Qed.

Lemma not_paper_row (k : Z) (row : Trade.t) :
  row_ok k row -> not_paper row = negb (is_paper_trade row).
Proof.
  intros (_ & _ & _ & _ & [H | H] & _); unfold not_paper, is_paper_trade;
    rewrite H; reflexivity.
Qed.

(** In every store the operations build, paper trades and real trades are
    kept apart: the listing of [getTrades] with [paper] and the listing
    without it (same other filters) share no row and together hold every
    row the other filters let through; the query of the statistics selects
    closed real trades only, all of them rows of the default listing.  A row
    it selects need not carry a numeric pnl: the trade closed at an exit
    price that is [NaN] is selected, with a NULL pnl. *)
Theorem paper_and_real_trades_are_kept_apart :
  forall (toUpperCase : string -> string) (history : list (command * string))
         (sql_date : string -> string) (sql_today : string),
    let db := run toUpperCase history empty_store in
    (forall (k : Z) (row : Trade.t) (open : bool) (ticker date : option string),
       Store.trades db !! k = Some row ->
       let filters paper :=
         {| TradeFilters.paper := paper; TradeFilters.includePaper := false;
            TradeFilters.open := open; TradeFilters.ticker := ticker;
            TradeFilters.date := date |} in
       getTrades_where sql_date sql_today toUpperCase (filters true) row = true ->
       getTrades_where sql_date sql_today toUpperCase (filters false) row = false) /\
    (forall (k : Z) (row : Trade.t) (open : bool) (ticker date : option string),
       Store.trades db !! k = Some row ->
       getTrades_where sql_date sql_today toUpperCase
         {| TradeFilters.paper := false; TradeFilters.includePaper := true;
            TradeFilters.open := open; TradeFilters.ticker := ticker;
            TradeFilters.date := date |} row
       = getTrades_where sql_date sql_today toUpperCase
           {| TradeFilters.paper := true; TradeFilters.includePaper := false;
              TradeFilters.open := open; TradeFilters.ticker := ticker;
              TradeFilters.date := date |} row
         || getTrades_where sql_date sql_today toUpperCase
              {| TradeFilters.paper := false; TradeFilters.includePaper := false;
                 TradeFilters.open := open; TradeFilters.ticker := ticker;
                 TradeFilters.date := date |} row) /\
    (forall (k : Z) (row : Trade.t),
       Store.trades db !! k = Some row -> stats_where row = true ->
       Trade.status row = "closed" /\ Trade.is_paper row = Some 0%Z /\
       getTrades_where sql_date sql_today toUpperCase no_filters row = true) /\
    (exists row : Trade.t,
       Store.trades closed_at_NaN !! 1%Z = Some row /\
       stats_where row = true /\ Trade.pnl row = None).
Proof.
  intros toUpperCase history sql_date sql_today. cbv zeta.
  pose proof (run_ok toUpperCase history empty_store empty_store_ok) as (_ & _ & Hrows).
  set (db := run toUpperCase history empty_store) in *. clearbody db.
  assert (Hstats : forall k row,
            Store.trades db !! k = Some row -> stats_where row = true ->
            Trade.status row = "closed" /\ Trade.is_paper row = Some 0%Z /\
            not_paper row = true).
  { intros k row Hk Hw. destruct (Hrows k row Hk) as [_ Hok].
    unfold stats_where in Hw. apply andb_prop in Hw as [Hs Hp].
    apply String.eqb_eq in Hs.
    destruct Hok as (_ & _ & _ & _ & Hpaper & _).
    repeat split; eauto.
    destruct Hpaper as [H | H]; [exact H |].
    unfold not_paper in Hp. rewrite H in Hp. discriminate. }
  split; [| split; [| split]].
  - intros k row open ticker date Hk. destruct (Hrows k row Hk) as [_ Hok].
    unfold getTrades_where. cbn [TradeFilters.paper TradeFilters.includePaper
      TradeFilters.open TradeFilters.ticker TradeFilters.date negb].
    rewrite (not_paper_row k row Hok). destruct (is_paper_trade row); cbn [negb andb].
    + reflexivity.
    + discriminate.
  - intros k row open ticker date Hk. destruct (Hrows k row Hk) as [_ Hok].
    unfold getTrades_where. cbn [TradeFilters.paper TradeFilters.includePaper
      TradeFilters.open TradeFilters.ticker TradeFilters.date negb].
    rewrite (not_paper_row k row Hok).
    destruct (is_paper_trade row); cbn [negb andb orb];
      rewrite ?orb_false_r; reflexivity.
  - intros k row Hk Hw. destruct (Hstats k row Hk Hw) as (H1 & H2 & H4).
    repeat split; try assumption.
    unfold getTrades_where, no_filters. cbn [TradeFilters.paper TradeFilters.includePaper
      TradeFilters.open TradeFilters.ticker TradeFilters.date negb string_or].
    rewrite H4. reflexivity.
  - eexists. split; [vm_compute; reflexivity |]. split; reflexivity.
Qed.

(** ** The journal *)

Lemma journal_changes_0 (d : string) (rows : list JournalRow.t) :
  journal_changes d rows = 0%nat <-> ~ In d (map JournalRow.date rows).
Proof.
  unfold journal_changes, on_date.
  induction rows as [| r rows IH]; cbn [List.filter map length In]; [tauto |].
  destruct (String.eqb (JournalRow.date r) d) eqn:E; cbn [length].
  - apply String.eqb_eq in E. split; [discriminate | tauto].
  - assert (JournalRow.date r <> d).
    { intros Heq. rewrite Heq, String.eqb_refl in E. discriminate. }
    tauto.
Qed.

Lemma journal_update_dates (f : JournalRow.t -> JournalRow.t) (d : string)
    (rows : list JournalRow.t) :
  (forall r, JournalRow.date (f r) = JournalRow.date r) ->
  map JournalRow.date (journal_update f d rows) = map JournalRow.date rows.
Proof.
  intros Hf. unfold journal_update. rewrite map_map. apply map_ext.
  intros r. destruct (on_date d r); [apply Hf | reflexivity].
Qed.

Lemma journal_exec_dates (c : journal_command) (today now : string) (j : Journal.t) :
  map JournalRow.date (Journal.rows (journal_exec c today now j))
  = map JournalRow.date (Journal.rows j)
  \/ (~ In today (map JournalRow.date (Journal.rows j)) /\
      map JournalRow.date (Journal.rows (journal_exec c today now j))
      = map JournalRow.date (Journal.rows j) ++ [today]).
Proof.
  destruct c as [plan | review options]; cbn [journal_exec]; unfold setPlan, setReview.
  - destruct (journal_changes today (Journal.rows j) =? 0)%nat eqn:E; cbn [Journal.rows].
    + right. apply Nat.eqb_eq, journal_changes_0 in E. split; [exact E |].
      rewrite map_app. reflexivity.
    + left. now apply journal_update_dates.
  - destruct (journal_changes today (Journal.rows j) =? 0)%nat eqn:E;
      destruct (grade_ok _); cbn [Journal.rows]; try (left; reflexivity).
    + right. apply Nat.eqb_eq, journal_changes_0 in E. split; [exact E |].
      rewrite map_app. reflexivity.
    + left. now apply journal_update_dates.
Qed.

Lemma journal_run_NoDup (history : list (journal_command * string * string)) :
  forall j, NoDup (map JournalRow.date (Journal.rows j)) ->
  NoDup (map JournalRow.date (Journal.rows (journal_run history j))).
Proof.
  unfold journal_run.
  induction history as [| [[c today] now] history IH]; intros j Hj;
    cbn [fold_left fst snd]; [exact Hj |].
  apply IH. destruct (journal_exec_dates c today now j) as [-> | [Hnew ->]]; [exact Hj |].
  apply NoDup_app. split; [exact Hj | split; [| apply NoDup_singleton]].
  intros x Hx Hx'. apply list_elem_of_In in Hx. apply list_elem_of_In in Hx'.
  destruct Hx' as [<- | []]. contradiction.
Qed.

Lemma find_update_same (f : JournalRow.t -> JournalRow.t) (d : string)
    (rows : list JournalRow.t) :
  (forall r, JournalRow.date (f r) = JournalRow.date r) ->
  List.find (on_date d) (journal_update f d rows)
  = option_map f (List.find (on_date d) rows).
Proof.
  intros Hf. unfold journal_update.
  induction rows as [| r rows IH]; cbn [map List.find]; [reflexivity |].
  destruct (on_date d r) eqn:E.
  - unfold on_date in *. rewrite Hf, E. reflexivity.
  - rewrite E. exact IH.
Qed.

Lemma find_update_other (f : JournalRow.t -> JournalRow.t) (d d' : string)
    (rows : list JournalRow.t) :
  (forall r, JournalRow.date (f r) = JournalRow.date r) -> d' <> d ->
  List.find (on_date d') (journal_update f d rows) = List.find (on_date d') rows.
Proof.
  intros Hf Hne. unfold journal_update.
  induction rows as [| r rows IH]; cbn [map List.find]; [reflexivity |].
  destruct (on_date d r) eqn:E.
  - unfold on_date in *. rewrite Hf. apply String.eqb_eq in E.
    destruct (String.eqb (JournalRow.date r) d') eqn:E'.
    + apply String.eqb_eq in E'. congruence.
    + exact IH.
  - destruct (on_date d' r); [reflexivity | exact IH].
Qed.

Lemma find_app_new (d d' : string) (rows : list JournalRow.t) (r : JournalRow.t) :
  JournalRow.date r = d ->
  List.find (on_date d') (rows ++ [r])
  = match List.find (on_date d') rows with
    | Some x => Some x
    | None => if String.eqb d d' then Some r else None
    end.
Proof.
  intros Hd. induction rows as [| x rows IH]; cbn [app List.find].
  - unfold on_date. rewrite Hd. reflexivity.
  - destruct (on_date d' x); [reflexivity | exact IH].
Qed.

Lemma find_none_changes (d : string) (rows : list JournalRow.t) :
  journal_changes d rows = 0%nat -> List.find (on_date d) rows = None.
Proof.
  unfold journal_changes. induction rows as [| r rows IH]; cbn [List.filter List.find];
    [reflexivity |].
  destruct (on_date d r); cbn [length]; [discriminate | exact IH].
Qed.

Lemma find_some_changes (d : string) (rows : list JournalRow.t) :
  journal_changes d rows <> 0%nat -> exists r, List.find (on_date d) rows = Some r.
Proof.
  unfold journal_changes. induction rows as [| r rows IH]; cbn [List.filter List.find].
  - cbn. intros H. now contradiction H.
  - destruct (on_date d r); cbn [length]; [eauto | exact IH].
Qed.

(** The journal holds at most one entry per date, whatever plans and reviews
    are written, and [setPlan] is an upsert: afterwards the entry of the day
    carries the plan; it is the entry that was there, with its review,
    market context and grade, when there was one, and a new entry without
    them otherwise; the entries of the other dates are as they were. *)
Theorem setPlan_upserts_the_entry_of_the_day :
  forall (history : list (journal_command * string * string))
         (plan today now : string),
    let j := journal_run history empty_journal in
    NoDup (map JournalRow.date (Journal.rows j)) /\
    exists j',
      setPlan plan today now j = JournalResolved j' /\
      NoDup (map JournalRow.date (Journal.rows j')) /\
      (exists r,
         getJournal None today j' = Some r /\
         JournalRow.date r = today /\
         JournalRow.premarket_plan r = Some plan /\
         match getJournal None today j with
         | Some old =>
             JournalRow.id r = JournalRow.id old /\
             JournalRow.postmarket_review r = JournalRow.postmarket_review old /\
             JournalRow.market_context r = JournalRow.market_context old /\
             JournalRow.grade r = JournalRow.grade old /\
             length (Journal.rows j') = length (Journal.rows j)
         | None =>
             JournalRow.postmarket_review r = None /\
             JournalRow.market_context r = None /\ JournalRow.grade r = None /\
             length (Journal.rows j') = S (length (Journal.rows j))
         end) /\
      (forall d, d <> "" -> d <> today ->
         getJournal (Some d) today j' = getJournal (Some d) today j).
Proof.
  intros history plan today now. cbv zeta.
  assert (Hnodup : forall h, NoDup (map JournalRow.date
                                      (Journal.rows (journal_run h empty_journal)))).
  { intros h. apply journal_run_NoDup. cbn. apply NoDup_nil_2. }
  split; [apply Hnodup |].
  set (j := journal_run history empty_journal).
  exists (journal_exec (SetPlan plan) today now j).
  assert (Hrun : journal_exec (SetPlan plan) today now j
                 = journal_run (history ++ [(SetPlan plan, today, now)]) empty_journal).
  { unfold j, journal_run. rewrite fold_left_app. reflexivity. }
  split; [| split; [rewrite Hrun; apply Hnodup | split]].
  - cbn [journal_exec]. unfold setPlan.
    destruct (journal_changes today (Journal.rows j) =? 0)%nat; reflexivity.
  - cbn [journal_exec]. unfold setPlan, getJournal. cbn [string_or].
    destruct (journal_changes today (Journal.rows j) =? 0)%nat eqn:E; cbn [Journal.rows].
    + apply Nat.eqb_eq in E. rewrite (find_none_changes _ _ E).
      eexists. split.
      * rewrite (find_app_new today today) by reflexivity.
        rewrite (find_none_changes _ _ E), String.eqb_refl. reflexivity.
      * cbn. rewrite length_app. cbn. repeat split. lia.
    + apply Nat.eqb_neq in E. destruct (find_some_changes _ _ E) as [old Hold].
      rewrite find_update_same by reflexivity. rewrite Hold. cbn [option_map].
      eexists. split; [reflexivity |].
      apply find_some in Hold as [_ Hd]. apply String.eqb_eq in Hd.
      cbn. unfold journal_update. rewrite length_map. repeat split. exact Hd.
  - intros d Hd Hne. unfold getJournal.
    assert (Hor : string_or (Some d) None = Some d).
    { unfold string_or. destruct (String.eqb d "") eqn:E; [| reflexivity].
      apply String.eqb_eq in E. contradiction. }
    rewrite Hor. cbn [journal_exec]. unfold setPlan.
    destruct (journal_changes today (Journal.rows j) =? 0)%nat eqn:E; cbn [Journal.rows].
    + rewrite (find_app_new today d) by reflexivity.
      destruct (List.find (on_date d) (Journal.rows j)); [reflexivity |].
      destruct (String.eqb today d) eqn:E'; [| reflexivity].
      apply String.eqb_eq in E'. congruence.
    + apply find_update_other; [reflexivity | exact Hne].
Qed.

(** [setReview] is rejected exactly when the grade it is given is not one of
    A, B, C, D, F (no grade at all is accepted).  When it resolves, the
    entry of the day carries the review and keeps its plan, but its market
    context and grade are overwritten by the ones given: a review written
    without them sets both to null, whatever the entry held. *)
Theorem setReview_overwrites_context_and_grade :
  forall (j : Journal.t) (review : string) (options : ReviewOptions.t)
         (today now : string),
    match setReview review options today now j with
    | JournalResolved j' =>
        grade_ok (string_or (ReviewOptions.grade options) None) = true /\
        exists r,
          getJournal None today j' = Some r /\
          JournalRow.postmarket_review r = Some review /\
          JournalRow.market_context r = string_or (ReviewOptions.context options) None /\
          JournalRow.grade r = string_or (ReviewOptions.grade options) None /\
          (ReviewOptions.context options = None -> JournalRow.market_context r = None) /\
          (ReviewOptions.grade options = None -> JournalRow.grade r = None) /\
          JournalRow.premarket_plan r
            = match getJournal None today j with
              | Some old => JournalRow.premarket_plan old
              | None => None
              end
    | JournalRejected e =>
        e = ConstraintFailed "grade" /\
        exists g, ReviewOptions.grade options = Some g /\ g <> "" /\
                  includes valid_grades g = false
    end.
Proof.
  intros j review options today now. unfold setReview.
  assert (Hbad : grade_ok (string_or (ReviewOptions.grade options) None) = false ->
                 exists g, ReviewOptions.grade options = Some g /\ g <> "" /\
                           includes valid_grades g = false).
  { unfold string_or, grade_ok. destruct (ReviewOptions.grade options) as [g |];
      [| discriminate].
    destruct (String.eqb g "") eqn:E; [discriminate |]. intros H. exists g.
    repeat split; [| exact H]. intros ->. discriminate. }
  assert (Hnone : forall o : option string, o = None -> string_or o None = None)
    by (intros o ->; reflexivity).
  destruct (journal_changes today (Journal.rows j) =? 0)%nat eqn:E;
    destruct (grade_ok (string_or (ReviewOptions.grade options) None)) eqn:G;
    try (split; [reflexivity | now apply Hbad]).
  - split; [reflexivity |]. apply Nat.eqb_eq in E.
    unfold getJournal. cbn [string_or Journal.rows].
    rewrite (find_app_new today today) by reflexivity.
    rewrite (find_none_changes _ _ E), String.eqb_refl.
    eexists. split; [reflexivity |]. cbn. repeat split; auto.
  - split; [reflexivity |]. apply Nat.eqb_neq in E.
    destruct (find_some_changes _ _ E) as [old Hold].
    unfold getJournal. cbn [string_or Journal.rows].
    rewrite find_update_same by reflexivity. rewrite Hold. cbn [option_map].
    eexists. split; [reflexivity |]. cbn. repeat split; auto.
Qed.

(** ** The dashboard *)

(** the double nearest to an exact zero is zero *)
Lemma Number_value_eq0 (q : Q) : (q == 0)%Q -> Number_value q = Fin zero.
Proof.
  intros Hq.
  assert (H1 : lt (Number_value q) (Fin zero) = false)
    by (apply Number_value_nonneg; lra).
  assert (H2 : gt (Number_value q) (Fin zero) = false)
    by (apply Number_value_nonpos; lra).
  pose proof (Number_value_not_NaN q) as H3.
  destruct (Number_value q) as [r | | |]; try discriminate.
  unfold gt in H2. apply lt_Fin_false in H1, H2.
  f_equal. apply Qc_is_canon. apply Qle_antisym; assumption.
Qed.

Lemma sub_self (q : Qc) : sub (Fin q) (Fin q) = Fin zero.
Proof.
  unfold sub. cbn [neg add]. apply Number_value_eq0. qc2q. ring.
Qed.

Lemma truthy_number_false (v : option real) :
  truthy_number v = false <-> v = None \/ v = Some (RFin zero).
Proof.
  unfold truthy_number. destruct v as [[q | |] |]; cbn [to_num truthy].
  - destruct (is_zero q) eqn:E; cbn [negb].
    + apply is_zero_eq in E. subst. tauto.
    + split; [discriminate |]. intros [H | H]; [discriminate |].
      injection H as ->. discriminate.
  - split; [discriminate | intros [H | H]; discriminate].
  - split; [discriminate | intros [H | H]; discriminate].
  - tauto.
Qed.

(** The P&L cell of the trade log reads OPEN exactly when the pnl is null or
    0, and the cell is then neutral: a closed trade whose proceeds equal its
    cost basis is shown as OPEN.  Such a trade exists in a store the
    operations build: one share bought at 10 and sold at 11. *)
Theorem scratch_trade_is_shown_as_open :
  forall Number_toFixed : Qc -> nat -> string,
    (forall trade : Trade.t,
       (tradeLog_pnl Number_toFixed trade = "OPEN"
        <-> Trade.pnl trade = None \/ Trade.pnl trade = Some (RFin zero)) /\
       (tradeLog_pnl Number_toFixed trade = "OPEN"
        -> tradeLog_pnlClass trade = "neutral")) /\
    (forall (toUpperCase : string -> string) (history : list (command * string))
            (k : Z) (row : Trade.t) (exitPrice : real),
       Store.trades (run toUpperCase history empty_store) !! k = Some row ->
       Trade.exit_price row = Some exitPrice ->
       proceeds_of row (to_num exitPrice) = to_num (Trade.cost_basis row) ->
       Trade.status row = "closed" /\ tradeLog_pnl Number_toFixed row = "OPEN") /\
    (exists row,
       Store.trades (run toUpperCase_ascii scratch_history empty_store) !! 1%Z
       = Some row /\
       Trade.status row = "closed" /\ tradeLog_pnl Number_toFixed row = "OPEN").
Proof.
  intros Number_toFixed.
  assert (Hcell : forall trade : Trade.t,
            tradeLog_pnl Number_toFixed trade = "OPEN"
            <-> Trade.pnl trade = None \/ Trade.pnl trade = Some (RFin zero)).
  { intros trade. rewrite <- truthy_number_false. unfold tradeLog_pnl.
    destruct (truthy_number (Trade.pnl trade)).
    - split; [| discriminate]. intros H. cbn [String.append] in H. discriminate H.
    - split; reflexivity. }
  split; [| split].
  - intros trade. split; [apply Hcell |].
    intros H. apply Hcell, truthy_number_false in H. unfold tradeLog_pnlClass.
    now rewrite H.
  - intros toUpperCase history k row exitPrice Hk Hexit Hflat.
    destruct (run_ok toUpperCase history empty_store empty_store_ok) as (_ & _ & Hrows).
    destruct (Hrows k row Hk)
      as [_ (_ & _ & _ & _ & _ & _ & [(_ & _ & _ & Ho) | (Hs & x & Hx & _ & Hp)])].
    + congruence.
    + split; [exact Hs |]. apply Hcell. rewrite Hp.
      rewrite Hexit in Hx. symmetry in Hx. apply bind_number_Some in Hx. subst x.
      unfold pnl_of. rewrite Hflat.
      destruct (Trade.cost_basis row) as [c | |]; cbn [to_num].
      * right. rewrite sub_self. reflexivity.
      * left. reflexivity.
      * left. reflexivity.
  - eexists. split; [vm_compute; reflexivity | split; [reflexivity |]].
    unfold tradeLog_pnl.
    match goal with
    | |- (if ?b then _ else _) = _ => replace b with false by (vm_compute; reflexivity)
    end.
    reflexivity.
Qed.

Lemma getOutcome_label (trade : Trade.t) :
  Outcome.label (getOutcome trade) = "OPEN" \/ Outcome.label (getOutcome trade) = "".
Proof.
  unfold getOutcome.
  repeat match goal with
  | |- context [if ?b then _ else _] => destruct b
  end; cbn; tauto.
Qed.

Lemma count_label_0 (l : string) (trades : list Trade.t) :
  l <> "OPEN" -> l <> "" -> count_label l (map getOutcome trades) = 0%nat.
Proof.
  intros H1 H2. unfold count_label.
  induction trades as [| t ts IH]; cbn [map List.filter]; [reflexivity |].
  destruct (String.eqb (Outcome.label (getOutcome t)) l) eqn:E; [| exact IH].
  apply String.eqb_eq in E. destruct (getOutcome_label t); congruence.
Qed.

(** The four outcome tallies of the paper-trade card (big green, small
    green, small red, big red) are 0 on every list of trades -- the outcome
    of a trade never carries one of these labels -- so none of them is ever
    shown; the card's total is the number of trades.  The outcome of a trade
    with null or zero pnl is the open one, that of any other trade has a
    green icon exactly when the pnl is positive. *)
Theorem paper_outcome_tallies_are_always_zero :
  forall trades : list Trade.t,
    let s := paperSummary trades in
    PaperSummary.bigGreen s = 0%nat /\ PaperSummary.smallGreen s = 0%nat /\
    PaperSummary.smallRed s = 0%nat /\ PaperSummary.bigRed s = 0%nat /\
    PaperSummary.total s = length trades /\
    (PaperSummary.open s <= length trades)%nat /\
    (forall t, In t trades ->
       (truthy_number (Trade.pnl t) = false ->
          Outcome.icon (getOutcome t) = "⏳") /\
       (truthy_number (Trade.pnl t) = true ->
          (is_winner t = true ->
             Outcome.icon (getOutcome t) = "🟢🟢" \/ Outcome.icon (getOutcome t) = "🟢") /\
          (is_winner t = false ->
             Outcome.icon (getOutcome t) = "🔴🔴" \/ Outcome.icon (getOutcome t) = "🔴"))).
Proof.
  intros trades. cbv zeta. unfold paperSummary.
  cbn [PaperSummary.bigGreen PaperSummary.smallGreen PaperSummary.smallRed
       PaperSummary.bigRed PaperSummary.total PaperSummary.open].
  rewrite !count_label_0 by discriminate.
  do 5 (split; [reflexivity |]). split; [apply List.filter_length_le |].
  intros t _. split; [| intros Ht; split; intros Hw].
  - intros Hf. unfold getOutcome. now rewrite Hf.
  - unfold getOutcome. rewrite Ht, pnl_gt0_is_winner, Hw. cbn [negb andb].
    destruct (ge _ _); cbn; tauto.
  - unfold getOutcome. rewrite Ht, pnl_gt0_is_winner, Hw. cbn [negb andb].
    destruct (ge _ _); cbn; tauto.
Qed.


(** ** The texts of the command line *)

(** [formatStats] prints 8 lines on the summary of an empty result set, the
    counts of winners, losers and scratches reading [undefined], and 10
    lines otherwise, the last one for the worst trade: a minus sign and the
    absolute value of its pnl, whatever the sign of that pnl. *)
Theorem formatStats_lines_shape :
  forall (weekday_long : string -> string) (Number_toString : Qc -> string)
         (trades : list Trade.t),
    let lines := formatStats_lines Number_toString (getStats weekday_long trades) in
    (trades = [] ->
       length lines = 8%nat /\
       nth_error lines 3
       = Some "Winners: undefined | Losers: undefined | Scratches: undefined") /\
    (trades <> [] ->
       length lines = 10%nat /\
       nth_error lines 3
       = Some ("Winners: " +:+ Number_toString (of_nat (length (winners_of trades)))
               +:+ " | Losers: " +:+ Number_toString (of_nat (length (losers_of trades)))
               +:+ " | Scratches: "
               +:+ Number_toString (of_nat (length (List.filter pnl_eq0 trades)))) /\
       exists w,
         Summary.worstTrade (getStats weekday_long trades) = Some (trade_ref w) /\
         In w trades /\
         nth_error lines 9
         = Some ("Worst Trade: " +:+ Trade.ticker w +:+ " -$"
                 +:+ show_num Number_toString (Math_abs (pnl_value w))
                 +:+ " (" +:+ show_opt_string (Trade.setup_type w) +:+ ")")).
Proof.
  intros weekday_long Number_toString trades. cbv zeta. split.
  - intros ->. split; reflexivity.
  - intros Hne. unfold getStats, result_of.
    rewrite (getStats_rows_nonempty weekday_long trades Hne). cbn [fst].
    destruct (pick_best_first_maximum trades Hne) as (b0 & b & b1 & _ & Hb & _).
    destruct (pick_worst_first_minimum trades Hne) as (w0 & w & w1 & Hw & Hfold & _).
    unfold formatStats_lines.
    cbn [Summary.bestTrade Summary.worstTrade Summary.winners Summary.losers
         Summary.scratches].
    rewrite Hb, Hfold, filter_gt0, filter_lt0. cbn [option_map].
    split; [reflexivity | split; [reflexivity |]].
    exists w. split; [reflexivity | split].
    + rewrite Hw. apply in_or_app. right. now left.
    + cbn [app nth_error trade_ref TradeRef.ticker TradeRef.pnl TradeRef.setup].
      reflexivity.
Qed.

(** The line of the current streak reads [Current: N word in a row], the
    word being the type of the streak followed by an [s] unless N is 1: a
    losing streak of two or more prints [losss], and without trades the line
    reads [0 nones]. *)
Theorem formatStreaks_current_line :
  forall (Number_toString : Qc -> string) (trades : list Trade.t),
    nth_error (formatStreaks_lines Number_toString (getStreaks trades)) 2
    = Some (let '(n, word) :=
              match trades with
              | [] => (0%nat, "nones")
              | t :: _ =>
                  let n := run_length (classify t) trades in
                  (n, streak_word (classify t) n)
              end in
            "Current: " +:+ Number_toString (of_nat n) +:+ " " +:+ word
              +:+ " in a row").
Proof.
  intros Number_toString trades. unfold formatStreaks_lines. cbv zeta.
  rewrite getStreaks_current. cbn [nth_error].
  destruct trades as [| t rest]; [reflexivity |].
  cbn [currentStreak_spec Streak.type Streak.count]. unfold show_count, streak_word.
  do 4 f_equal.
  destruct (classify t);
    destruct (run_length _ (t :: rest) =? 1)%nat; reflexivity.
Qed.

(** ** The tables of the command line *)
















